(** * codectx: the gitignore-style exclusion engine (internal/git)

    A shallow embedding of [GitIgnoreParser] (ParseGitIgnore,
    ParseAllGitIgnores, ShouldIgnore) and of the file filter that uses it
    (internal/filter: NewFilter, SetGitIgnoreParser, SetGitTrackedFiles,
    ShouldInclude; cmd: the statements of [run] that set the filter up),
    together with the routines of the Go standard library
    they call (strings.TrimSpace / HasPrefix / HasSuffix / Split / Join,
    unicode/utf8 decoding, path/filepath Clean / Rel / ToSlash / Match /
    Base / Dir / Ext / Join, in their Unix build), and the properties of the
    exclusion engine.

    A Go [string] is a sequence of bytes: it is modelled by [string], whose
    characters ([ascii]) are 8-bit bytes.  A [rune] is modelled by [N]. *)

From Stdlib Require Import NArith ZArith Ascii String List Bool Lia.
From stdpp Require Import base option list strings gmap.

Local Open Scope string_scope.
Local Open Scope list_scope.

(** ** Bytes and slices of strings *)

Definition byte_val (c : ascii) : N := N_of_ascii c.

(** [s[n:]] *)
Fixpoint sdrop (n : nat) (s : string) : string :=
  match n, s with
  | O, _ => s
  | S n', String _ s' => sdrop n' s'
  | S _, EmptyString => EmptyString
  end.

(** [s[:n]] *)
Fixpoint stake (n : nat) (s : string) : string :=
  match n, s with
  | O, _ => EmptyString
  | S n', String c s' => String c (stake n' s')
  | S _, EmptyString => EmptyString
  end.

(** [s[:len(s)-1]] (the empty string stays empty) *)
Fixpoint dropLast (s : string) : string :=
  match s with
  | EmptyString => EmptyString
  | String c EmptyString => EmptyString
  | String c s' => String c (dropLast s')
  end.

Definition isEmpty (s : string) : bool :=
  match s with EmptyString => true | String _ _ => false end.

(** ** Package unicode/utf8 *)
Module utf8.
Local Open Scope N_scope.

Definition RuneError : N := 65533.   (* U+FFFD *)
Definition RuneSelf : N := 128.
Definition UTFMax : nat := 4.

Definition inRange (lo hi x : N) : bool := ((lo <=? x) && (x <=? hi))%N.

(** The entry of the table [first] for a leading byte, decoded: [None] for
    an invalid leading byte (xx), otherwise the sequence length and the
    accepted range of the second byte.  ASCII bytes (as) are handled by the
    caller. *)
Definition firstInfo (b : N) : option (nat * (N * N)) :=
  if inRange 194 223 b then Some (2%nat, (128, 191))        (* 0xC2-0xDF: s1 *)
  else if (b =? 224)%N then Some (3%nat, (160, 191))        (* 0xE0: s2 *)
  else if inRange 225 236 b then Some (3%nat, (128, 191))   (* 0xE1-0xEC: s3 *)
  else if (b =? 237)%N then Some (3%nat, (128, 159))        (* 0xED: s4 *)
  else if inRange 238 239 b then Some (3%nat, (128, 191))   (* 0xEE-0xEF: s3 *)
  else if (b =? 240)%N then Some (4%nat, (144, 191))        (* 0xF0: s5 *)
  else if inRange 241 243 b then Some (4%nat, (128, 191))   (* 0xF1-0xF3: s6 *)
  else if (b =? 244)%N then Some (4%nat, (128, 143))        (* 0xF4: s7 *)
  else None.

Definition isCont (b : N) : bool := inRange 128 191 b.     (* locb..hicb *)

(** [DecodeRuneInString]: the first rune of [s] and its width in bytes. *)
Definition DecodeRuneInString (s : string) : N * nat :=
  match s with
  | EmptyString => (RuneError, 0%nat)
  | String c0 t0 =>
    let s0 := byte_val c0 in
    if s0 <? RuneSelf then (s0, 1%nat)
    else match firstInfo s0 with
    | None => (RuneError, 1%nat)
    | Some (sz, (lo, hi)) =>
      if (String.length s <? sz)%nat then (RuneError, 1%nat)
      else match t0 with
      | EmptyString => (RuneError, 1%nat)
      | String c1 t1 =>
        let s1 := byte_val c1 in
        if negb (inRange lo hi s1) then (RuneError, 1%nat)
        else if (sz <=? 2)%nat then
          (N.lor (N.shiftl (N.land s0 31) 6) (N.land s1 63), 2%nat)
        else match t1 with
        | EmptyString => (RuneError, 1%nat)
        | String c2 t2 =>
          let s2 := byte_val c2 in
          if negb (isCont s2) then (RuneError, 1%nat)
          else if (sz <=? 3)%nat then
            (N.lor (N.lor (N.shiftl (N.land s0 15) 12)
                          (N.shiftl (N.land s1 63) 6)) (N.land s2 63), 3%nat)
          else match t2 with
          | EmptyString => (RuneError, 1%nat)
          | String c3 _ =>
            let s3 := byte_val c3 in
            if negb (isCont s3) then (RuneError, 1%nat)
            else
              (N.lor (N.lor (N.lor (N.shiftl (N.land s0 7) 18)
                                   (N.shiftl (N.land s1 63) 12))
                            (N.shiftl (N.land s2 63) 6)) (N.land s3 63), 4%nat)
          end
        end
      end
    end
  end.

(** [RuneStart]: the byte is not a continuation byte. *)
Definition RuneStart (b : N) : bool := negb (N.land b 192 =? 128)%N.

(** The backwards scan of [DecodeLastRuneInString],
    [for start--; start >= lim; start-- { if RuneStart(s[start]) { break } }],
    entered with [start] already decremented.  Indices are Go [int]s and may
    fall to [lim - 1]; as [lim >= end - UTFMax] the loop body runs at most
    [UTFMax] times, which bounds the recursion. *)
Fixpoint lastStart (s : string) (lim : Z) (n : nat) (start : Z) : Z :=
  match n with
  | O => start
  | S n' =>
    if (start <? lim)%Z then start
    else match String.get (Z.to_nat start) s with
    | Some c =>
      if RuneStart (byte_val c) then start else lastStart s lim n' (start - 1)%Z
    | None => start
    end
  end.

(** [DecodeLastRuneInString]: the last rune of [s] and its width. *)
Definition DecodeLastRuneInString (s : string) : N * nat :=
  let end_ := Z.of_nat (String.length s) in
  if (end_ =? 0)%Z then (RuneError, 0%nat)
  else
    let start := (end_ - 1)%Z in
    match String.get (Z.to_nat start) s with
    | None => (RuneError, 0%nat)
    | Some c =>
      let r := byte_val c in
      if r <? RuneSelf then (r, 1%nat)
      else
        let lim := Z.max (end_ - Z.of_nat UTFMax) 0 in
        let start := lastStart s lim UTFMax (start - 1)%Z in
        let start := Z.max start 0 in
        let '(r', size) := DecodeRuneInString (sdrop (Z.to_nat start) s) in
        if negb (start + Z.of_nat size =? end_)%Z then (RuneError, 1%nat)
        else (r', size)
    end.

End utf8.

(** ** Package unicode *)
Module unicode.
Local Open Scope N_scope.

(** [IsSpace]: the Latin-1 cases, then the rest of the property White_Space. *)
Definition IsSpace (r : N) : bool :=
  if r <=? 255 then
    (r =? 9) || (r =? 10) || (r =? 11) || (r =? 12) || (r =? 13) || (r =? 32)
    || (r =? 133) || (r =? 160)
  else
    (r =? 5760) || utf8.inRange 8192 8202 r || utf8.inRange 8232 8233 r
    || (r =? 8239) || (r =? 8287) || (r =? 12288).

End unicode.

(** ** Package strings *)
Module strings.

(** [HasPrefix(s, prefix)]; Stdlib's [String.prefix p s] tests that [p] is a
    prefix of [s]. *)
Definition HasPrefix (s pre : string) : bool := String.prefix pre s.

(** [HasSuffix(s, suffix)]:
    [len(s) >= len(suffix) && s[len(s)-len(suffix):] == suffix]. *)
Definition HasSuffix (s suf : string) : bool :=
  (String.length suf <=? String.length s)%nat
  && String.eqb (sdrop (String.length s - String.length suf) s) suf.

(** [Contains(s, "/")]-style test for one byte. *)
Fixpoint ContainsByte (s : string) (b : ascii) : bool :=
  match s with
  | EmptyString => false
  | String c s' => Ascii.eqb c b || ContainsByte s' b
  end.

(** The table [asciiSpace]. *)
Definition asciiSpace (c : ascii) : bool :=
  let b := byte_val c in
  ((b =? 9) || (b =? 10) || (b =? 11) || (b =? 12) || (b =? 13) || (b =? 32))%N.

(** [indexFunc(s, unicode.IsSpace, false)] as used by [TrimLeftFunc],
    folded with the slicing [s[i:]]: [for i, r := range s] decodes one rune,
    of one byte at least, per iteration, so [n = len(s)] iterations reach
    the end of [s] (lemma [trimLeftSpace_fuel]).  The result is [None] for
    the index -1. *)
Fixpoint trimLeftSpace (n : nat) (s : string) : option string :=
  match s, n with
  | EmptyString, _ => None
  | _, O => None
  | _, S n' =>
    let '(r, w) := utf8.DecodeRuneInString s in
    if unicode.IsSpace r then trimLeftSpace n' (sdrop w s) else Some s
  end.

(** [TrimLeftFunc(s, unicode.IsSpace)] *)
Definition TrimLeftSpace (s : string) : string :=
  match trimLeftSpace (String.length s) s with
  | None => EmptyString
  | Some t => t
  end.

(** [lastIndexFunc(s, unicode.IsSpace, false)]:
    [for i := len(s); i > 0; { r, size := DecodeLastRuneInString(s[0:i]);
    i -= size; if !IsSpace(r) { return i } }; return -1].  [i] decreases at
    every iteration, so [n = len(s)] iterations are enough (lemma
    [lastIndexNotSpace_fuel]). *)
Fixpoint lastIndexNotSpace (n : nat) (s : string) (i : nat) : option nat :=
  match i, n with
  | O, _ => None
  | _, O => None
  | _, S n' =>
    let '(r, size) := utf8.DecodeLastRuneInString (stake i s) in
    let i' := (i - size)%nat in
    if unicode.IsSpace r then lastIndexNotSpace n' s i' else Some i'
  end.

(** [TrimRightFunc(s, unicode.IsSpace)] *)
Definition TrimRightSpace (s : string) : string :=
  match lastIndexNotSpace (String.length s) s (String.length s) with
  | Some i =>
    match String.get i s with
    | Some c =>
      if (utf8.RuneSelf <=? byte_val c)%N then
        let '(_, wid) := utf8.DecodeRuneInString (sdrop i s) in
        stake (i + wid) s
      else stake (S i) s
    | None => stake (S i) s
    end
  | None => EmptyString          (* i = -1, then i++ : s[0:0] *)
  end.

(** The first loop of [TrimSpace]: skip ASCII space bytes from the left.
    [inl t]: the loop ran into a non-ASCII byte, [t = s[start:]];
    [inr t]: it stopped at [t = s[start:]] (possibly empty). *)
Fixpoint trimAsciiLeft (s : string) : string + string :=
  match s with
  | EmptyString => inr s
  | String c s' =>
    if (utf8.RuneSelf <=? byte_val c)%N then inl s
    else if asciiSpace c then trimAsciiLeft s' else inr s
  end.

(** The second loop of [TrimSpace], on [s = s[start:]], with [stop]
    counted from its beginning.  [inl t]: a non-ASCII byte was met,
    [t = s[start:stop]]; [inr t]: the result [s[start:stop]]. *)
Fixpoint trimAsciiRight (s : string) (stop : nat) : string + string :=
  match stop with
  | O => inr EmptyString
  | S stop' =>
    match String.get stop' s with
    | Some c =>
      if (utf8.RuneSelf <=? byte_val c)%N then inl (stake stop s)
      else if asciiSpace c then trimAsciiRight s stop' else inr (stake stop s)
    | None => inr (stake stop s)
    end
  end.

(** [TrimSpace(s)] *)
Definition TrimSpace (s : string) : string :=
  match trimAsciiLeft s with
  | inl t => TrimRightSpace (TrimLeftSpace t)        (* TrimFunc *)
  | inr t =>
    match trimAsciiRight t (String.length t) with
    | inl u => TrimRightSpace u
    | inr u => u
    end
  end.

(** [Split(s, "/")]-style split on a one-byte separator: all the pieces,
    empty ones included; [len(result) = 1 + count of sep]. *)
Fixpoint SplitByte (s : string) (sep : ascii) : list string :=
  match s with
  | EmptyString => [EmptyString]
  | String c s' =>
    if Ascii.eqb c sep then EmptyString :: SplitByte s' sep
    else match SplitByte s' sep with
         | [] => [String c EmptyString]
         | p :: ps => String c p :: ps
         end
  end.

(** [Join(elems, sep)] *)
Fixpoint Join (elems : list string) (sep : string) : string :=
  match elems with
  | [] => EmptyString
  | [e] => e
  | e :: es => e +:+ sep +:+ Join es sep
  end.

End strings.

(** ** Go errors *)
Inductive error : Type :=
  | ErrBadPattern                              (* filepath.ErrBadPattern *)
  | ErrRel (targpath basepath : string)        (* "Rel: can't make ... relative to ..." *)
  | ErrPath (op path : string)                 (* *fs.PathError of os.Open / os.Stat *)
  | ErrScan (msg : string).                    (* the error kept by a bufio.Scanner *)

(** ** Package path/filepath (Unix: Separator is '/', no volume names) *)
Module filepath.

Definition Separator : ascii := "/"%char.

Definition isSep (c : ascii) : bool := Ascii.eqb c Separator.

(** [i < len(s) && s[i] == c] *)
Definition byteAt (s : string) (i : nat) (c : ascii) : bool :=
  match String.get i s with
  | Some d => Ascii.eqb d c
  | None => false
  end.

(** [s[b:e]] *)
Definition slice (s : string) (b e : nat) : string := stake (e - b) (sdrop b s).

(** *** Clean *)

(** [for out.w > dotdot && !os.IsPathSeparator(out.index(out.w)) { out.w-- }]:
    the buffer [out] still holds the bytes above [w]. *)
Fixpoint backtrack (out : string) (dotdot : nat) (w : nat) : nat :=
  match w with
  | O => O
  | S w' =>
    if (dotdot <? w)%nat && negb (byteAt out w Separator)
    then backtrack out dotdot w' else w
  end.

(** [for ; r < n && !os.IsPathSeparator(path[r]); r++]: the bytes of the
    path element that starts [s]. *)
Fixpoint element (s : string) : string :=
  match s with
  | EmptyString => EmptyString
  | String c s' => if isSep c then EmptyString else String c (element s')
  end.

(** The main loop of [Clean], [for r < n { switch ... }].  The lazy buffer
    [out] is modelled by its logical content [buf[0:w]], so [out.w] is
    [String.length out]; each iteration advances [r], and [fuel] counts
    iterations ([None]: more iterations were needed). *)
Fixpoint cleanLoop (fuel : nat) (path : string) (rooted : bool)
    (r : nat) (out : string) (dotdot : nat) : option string :=
  let n := String.length path in
  if negb (r <? n)%nat then Some out
  else match fuel with
  | O => None
  | S fuel' =>
    let w := String.length out in
    if byteAt path r Separator then
      (* empty path element *)
      cleanLoop fuel' path rooted (r + 1) out dotdot
    else if byteAt path r "."%char
            && ((r + 1 =? n)%nat || byteAt path (r + 1) Separator) then
      (* . element *)
      cleanLoop fuel' path rooted (r + 1) out dotdot
    else if byteAt path r "."%char && byteAt path (r + 1) "."%char
            && ((r + 2 =? n)%nat || byteAt path (r + 2) Separator) then
      (* .. element: remove to last separator *)
      if (dotdot <? w)%nat then
        cleanLoop fuel' path rooted (r + 2)
                  (stake (backtrack out dotdot (w - 1)) out) dotdot
      else if negb rooted then
        let out1 := if (0 <? w)%nat then out +:+ "/" else out in
        let out2 := out1 +:+ ".." in
        cleanLoop fuel' path rooted (r + 2) out2 (String.length out2)
      else cleanLoop fuel' path rooted (r + 2) out dotdot
    else
      (* real path element: add slash if needed, copy element *)
      let out1 :=
        if (rooted && negb (w =? 1)%nat) || (negb rooted && negb (w =? 0)%nat)
        then out +:+ "/" else out in
      let e := element (sdrop r path) in
      cleanLoop fuel' path rooted (r + String.length e) (out1 +:+ e) dotdot
  end.

(** [Clean(path)]; the loop runs at most [len(path)] times (lemma
    [Clean_total]). *)
Definition Clean (path : string) : string :=
  if isEmpty path then "."
  else
    let rooted := byteAt path 0 Separator in
    let '(out, r, dotdot) :=
      if rooted then ("/", 1%nat, 1%nat) else ("", 0%nat, 0%nat) in
    match cleanLoop (String.length path) path rooted r out dotdot with
    | Some out => if isEmpty out then "." else out
    | None => path
    end.

(** *** Rel *)

(** [for bi < bl && base[bi] != Separator { bi++ }] *)
Definition skipElem (s : string) (i : nat) : nat :=
  (i + String.length (element (sdrop i s)))%nat.

(** The loop of [Rel] that positions [base[b0:bi]] and [targ[t0:ti]] at the
    first differing elements; returns [(b0, bi, t0, ti)]. *)
Fixpoint relLoop (fuel : nat) (base targ : string) (b0 bi t0 ti : nat)
    : option (nat * nat * nat * nat) :=
  let bl := String.length base in
  let tl := String.length targ in
  if negb ((bi <? bl)%nat && (ti <? tl)%nat) then Some (b0, bi, t0, ti)
  else match fuel with
  | O => None
  | S fuel' =>
    let b0 := bi in
    let bi := skipElem base bi in
    let t0 := ti in
    let ti := skipElem targ ti in
    if negb (String.eqb (slice targ t0 ti) (slice base b0 bi))
    then Some (b0, bi, t0, ti)
    else
      let bi := if (bi <? bl)%nat then S bi else bi in
      let ti := if (ti <? tl)%nat then S ti else ti in
      relLoop fuel' base targ bi bi ti ti
  end.

(** [strings.Count(s, string(Separator))] *)
Fixpoint countSep (s : string) : nat :=
  match s with
  | EmptyString => O
  | String c s' => ((if isSep c then 1 else 0) + countSep s')%nat
  end.

Fixpoint dotdots (seps : nat) : string :=
  match seps with
  | O => EmptyString
  | S k => "/.." +:+ dotdots k
  end.

(** [Rel(basepath, targpath)]; the loop runs at most [len(base) + 1] times
    (lemma [relLoop_total]). *)
Definition Rel (basepath targpath : string) : string * option error :=
  let base := Clean basepath in
  let targ := Clean targpath in
  if String.eqb targ base then (".", None)
  else
    let base := if String.eqb base "." then "" else base in
    let baseSlashed := byteAt base 0 Separator in
    let targSlashed := byteAt targ 0 Separator in
    if negb (Bool.eqb baseSlashed targSlashed)
    then ("", Some (ErrRel targpath basepath))
    else
      let bl := String.length base in
      let tl := String.length targ in
      match relLoop (S bl) base targ 0 0 0 0 with
      | None => ("", Some (ErrRel targpath basepath))
      | Some (b0, bi, t0, ti) =>
        if String.eqb (slice base b0 bi) ".."
        then ("", Some (ErrRel targpath basepath))
        else if negb (b0 =? bl)%nat then
          let seps := countSep (slice base b0 bl) in
          let up := ".." +:+ dotdots seps in
          ((if negb (t0 =? tl)%nat then up +:+ "/" +:+ sdrop t0 targ else up), None)
        else (sdrop t0 targ, None)
      end.

(** [ToSlash(path)]: the separator already is '/'. *)
Definition ToSlash (path : string) : string := path.

(** *** Match *)
Definition isByte (c d : ascii) : bool := Ascii.eqb c d.

(** The first loop of [scanChunk]: strip the leading stars. *)
Fixpoint skipStars (pattern : string) (star : bool) : bool * string :=
  match pattern with
  | String c p' => if isByte c "*"%char then skipStars p' true else (star, pattern)
  | EmptyString => (star, pattern)
  end.

(** The loop [Scan] of [scanChunk]: returns [(pattern[0:i], pattern[i:])]. *)
Fixpoint scanLoop (inrange : bool) (pattern : string) : string * string :=
  match pattern with
  | EmptyString => (EmptyString, EmptyString)
  | String c p' =>
    if isByte c "\"%char then
      (* error check handled in matchChunk: bad pattern. *)
      match p' with
      | EmptyString => (String c EmptyString, EmptyString)
      | String d p'' =>
        let '(chunk, rest) := scanLoop inrange p'' in
        (String c (String d chunk), rest)
      end
    else if isByte c "["%char then
      let '(chunk, rest) := scanLoop true p' in (String c chunk, rest)
    else if isByte c "]"%char then
      let '(chunk, rest) := scanLoop false p' in (String c chunk, rest)
    else if isByte c "*"%char then
      if inrange then
        let '(chunk, rest) := scanLoop inrange p' in (String c chunk, rest)
      else (EmptyString, pattern)
    else
      let '(chunk, rest) := scanLoop inrange p' in (String c chunk, rest)
  end.

(** [scanChunk(pattern)]: [(star, chunk, rest)]. *)
Definition scanChunk (pattern : string) : bool * string * string :=
  let '(star, pattern) := skipStars pattern false in
  let '(chunk, rest) := scanLoop false pattern in
  (star, chunk, rest).

(** [getEsc(chunk)]: [(r, nchunk, err)]. *)
Definition getEsc (chunk : string) : N * string * option error :=
  match chunk with
  | EmptyString => (0%N, EmptyString, Some ErrBadPattern)
  | String c rest =>
    if isByte c "-"%char || isByte c "]"%char
    then (0%N, EmptyString, Some ErrBadPattern)
    else
      let chunk := if isByte c "\"%char then rest else chunk in
      if isEmpty chunk then (0%N, EmptyString, Some ErrBadPattern)
      else
        let '(r, n) := utf8.DecodeRuneInString chunk in
        let err :=
          if (r =? utf8.RuneError)%N && (n =? 1)%nat
          then Some ErrBadPattern else None in
        let nchunk := sdrop n chunk in
        let err := if isEmpty nchunk then Some ErrBadPattern else err in
        (r, nchunk, err)
  end.

(** The loop "parse all ranges" of a character class in [matchChunk]:
    [inl err] when [getEsc] fails, [inr (chunk, match)] after the closing
    bracket.  Every iteration consumes a byte of [chunk]; [fuel] counts
    iterations ([None]: more were needed). *)
Fixpoint classLoop (fuel : nat) (chunk : string) (r : N) (matched : bool)
    (nrange : nat) : option (error + string * bool) :=
  match fuel with
  | O => None
  | S fuel' =>
    if byteAt chunk 0 "]"%char && (0 <? nrange)%nat
    then Some (inr (sdrop 1 chunk, matched))
    else
      match getEsc chunk with
      | (_, _, Some err) => Some (inl err)
      | (lo, chunk, None) =>
        let '(hi, chunk, err) :=
          if byteAt chunk 0 "-"%char then getEsc (sdrop 1 chunk)
          else (lo, chunk, None) in
        match err with
        | Some err => Some (inl err)
        | None =>
          classLoop fuel' chunk r (((lo <=? r)%N && (r <=? hi)%N) || matched)
                    (S nrange)
        end
      end
  end.

(** The loop of [matchChunk], [for len(chunk) > 0 { ... }], with the flag
    [failed]; the result is [(rest, ok, err)].  Every iteration consumes a
    byte of [chunk]; [fuel] counts iterations ([None]: more were needed). *)
Fixpoint matchChunkLoop (fuel : nat) (chunk s : string) (failed : bool)
    : option (string * bool * option error) :=
  match chunk with
  | EmptyString =>
    Some (if failed then (EmptyString, false, None) else (s, true, None))
  | String c chunk1 =>
    match fuel with
    | O => None
    | S fuel' =>
      let failed := if negb failed && isEmpty s then true else failed in
      let literal (d : ascii) (chunk' : string) :=
        (* default: a literal byte *)
        if negb failed
        then matchChunkLoop fuel' chunk' (sdrop 1 s) (negb (byteAt s 0 d))
        else matchChunkLoop fuel' chunk' s failed in
      if isByte c "["%char then
        (* character class *)
        let '(r, s) :=
          if negb failed
          then let '(r, n) := utf8.DecodeRuneInString s in (r, sdrop n s)
          else (0%N, s) in
        (* possibly negated *)
        let '(negated, chunk2) :=
          if byteAt chunk1 0 "^"%char then (true, sdrop 1 chunk1)
          else (false, chunk1) in
        (* parse all ranges *)
        match classLoop (S (String.length chunk2)) chunk2 r false 0 with
        | None => None
        | Some (inl err) => Some (EmptyString, false, Some err)
        | Some (inr (chunk3, matched)) =>
          matchChunkLoop fuel' chunk3 s
            (if Bool.eqb matched negated then true else failed)
        end
      else if isByte c "?"%char then
        if negb failed then
          let '(_, n) := utf8.DecodeRuneInString s in
          matchChunkLoop fuel' chunk1 (sdrop n s) (byteAt s 0 Separator)
        else matchChunkLoop fuel' chunk1 s failed
      else if isByte c "\"%char then
        match chunk1 with
        | EmptyString => Some (EmptyString, false, Some ErrBadPattern)
        | String d chunk2 => literal d chunk2
        end
      else literal c chunk1
    end
  end.

(** [matchChunk(chunk, s)]: whether [chunk] matches the beginning of [s],
    and the remainder of [s]; the loop runs at most [len(chunk)] times
    (lemma [matchChunk_total]). *)
Definition matchChunk (chunk s : string) : string * bool * option error :=
  match matchChunkLoop (String.length chunk) chunk s false with
  | Some res => res
  | None => (EmptyString, false, None)
  end.

(** The outcome of the loop of [Match] that retries a starred chunk. *)
Inductive starResult : Type :=
  | StarFound (t : string)      (* [name = t; continue Pattern] *)
  | StarError (err : error)     (* [return false, err] *)
  | StarNone.                   (* loop ended: [return false, nil] *)

(** [for i := 0; i < len(name) && name[i] != Separator; i++ {
       t, ok, err := matchChunk(chunk, name[i+1:]) ... }] *)
Fixpoint starLoop (chunk : string) (lastChunk : bool) (name : string)
    : starResult :=
  match name with
  | EmptyString => StarNone
  | String c name' =>
    if isSep c then StarNone
    else
      match matchChunk chunk name' with
      | (t, true, _) =>
        (* if we're the last chunk, make sure we exhausted the name *)
        if lastChunk && negb (isEmpty t) then starLoop chunk lastChunk name'
        else StarFound t
      | (_, false, Some err) => StarError err
      | (_, false, None) => starLoop chunk lastChunk name'
      end
  end.

(** The loop [Pattern] of [Match].  Every iteration consumes a byte of
    [pattern]; [fuel] counts iterations ([None]: more were needed). *)
Fixpoint matchLoop (fuel : nat) (pattern name : string)
    : option (bool * option error) :=
  match pattern with
  | EmptyString => Some (isEmpty name, None)
  | String _ _ =>
    match fuel with
    | O => None
    | S fuel' =>
      let '(star, chunk, pattern') := scanChunk pattern in
      if star && isEmpty chunk then
        (* Trailing * matches rest of string unless it has a /. *)
        Some (negb (strings.ContainsByte name Separator), None)
      else
        (* Look for match at current position. *)
        let '(t, ok, err) := matchChunk chunk name in
        if ok && (isEmpty t || negb (isEmpty pattern')) then
          matchLoop fuel' pattern' t
        else
          match err with
          | Some e => Some (false, Some e)
          | None =>
            if star then
              (* Look for match skipping i+1 bytes.  Cannot skip /. *)
              match starLoop chunk (isEmpty pattern') name with
              | StarFound t => matchLoop fuel' pattern' t
              | StarError e => Some (false, Some e)
              | StarNone => Some (false, None)
              end
            else Some (false, None)
          end
    end
  end.

(** [Match(pattern, name)]: [(matched, err)]; the loop runs at most
    [len(pattern)] times (lemma [Match_total]). *)
Definition Match (pattern name : string) : bool * option error :=
  match matchLoop (String.length pattern) pattern name with
  | Some res => res
  | None => (false, None)
  end.

(** *** Base, Ext, Dir, Join *)

(** [for len(path) > 0 && os.IsPathSeparator(path[len(path)-1]) {
       path = path[0 : len(path)-1] }]; at most [len(path)] iterations. *)
Fixpoint stripSlashes (n : nat) (path : string) : string :=
  match n with
  | O => path
  | S n' =>
    if (0 <? String.length path)%nat
       && byteAt path (String.length path - 1) Separator
    then stripSlashes n' (dropLast path) else path
  end.

(** [i := n - 1; for i >= 0 && !os.IsPathSeparator(path[i]) { i-- }]:
    the index reached, [None] for -1. *)
Fixpoint lastSep (path : string) (n : nat) : option nat :=
  match n with
  | O => None
  | S i => if byteAt path i Separator then Some i else lastSep path i
  end.

(** [Base(path)]: the last element of [path]. *)
Definition Base (path : string) : string :=
  if isEmpty path then "."
  else
    (* Strip trailing slashes. *)
    let path := stripSlashes (String.length path) path in
    (* Find the last element *)
    let path :=
      match lastSep path (String.length path) with
      | Some i => sdrop (i + 1) path
      | None => path
      end in
    (* If empty now, it had only slashes. *)
    if isEmpty path then "/" else path.

(** The loop of [Ext],
    [for i := n - 1; i >= 0 && !os.IsPathSeparator(path[i]); i-- {
       if path[i] == '.' { return path[i:] } }; return ""]. *)
Fixpoint extLoop (path : string) (n : nat) : string :=
  match n with
  | O => EmptyString
  | S i =>
    if byteAt path i Separator then EmptyString
    else if byteAt path i "."%char then sdrop i path
    else extLoop path i
  end.

(** [Ext(path)]: the extension, from the last dot of the last element. *)
Definition Ext (path : string) : string := extLoop path (String.length path).

(** [Dir(path)]: all but the last element of [path], cleaned. *)
Definition Dir (path : string) : string :=
  match lastSep path (String.length path) with
  | Some i => Clean (stake (i + 1) path)
  | None => Clean EmptyString
  end.

(** [Join(elem...)]: the elements from the first non-empty one on, joined
    with the separator and cleaned. *)
Fixpoint Join (elem : list string) : string :=
  match elem with
  | [] => EmptyString
  | e :: rest =>
    if negb (isEmpty e) then Clean (strings.Join elem "/") else Join rest
  end.

End filepath.

(** ** Package os and bufio: the file system seen by the parser *)

(** What [os.Stat] reports that the engine looks at. *)
Record FileInfo : Type := { IsDir : bool }.

(** What a [bufio.Scanner] over an opened file yields: the texts returned by
    the successive successful [Scan] calls, then the value of [Err()]. *)
Record Source : Type := { lines : list string; scanErr : option error }.

(** The file system: the outcome of [os.Open] followed by scanning, and of
    [os.Stat], for every path. *)
Record FileSystem : Type := {
  Open : string -> error + Source;
  Stat : string -> error + FileInfo
}.

(** ** Package git: the exclusion engine (internal/git) *)
Module git.

Record GitIgnoreRule : Type := {
  Pattern : string;
  IsNegation : bool;
  IsDirectory : bool
}.

Record GitIgnoreParser : Type := {
  patterns : list string;
  rules : list GitIgnoreRule;
  rootDir : string
}.

Definition NewGitIgnoreParser (rootDir : string) : GitIgnoreParser :=
  {| patterns := []; rules := []; rootDir := rootDir |}.

(** The rule built from a trimmed line that is neither empty nor a
    comment (the body of the loop of [ParseGitIgnore] after [continue]). *)
Definition ruleOfLine (line : string) : GitIgnoreRule :=
  let rule := {| Pattern := line; IsNegation := false; IsDirectory := false |} in
  (* Check if it's a negation pattern *)
  let rule :=
    if strings.HasPrefix line "!"
    then {| Pattern := sdrop 1 line; IsNegation := true;
            IsDirectory := IsDirectory rule |}
    else rule in
  (* Check if it's a directory pattern *)
  let rule :=
    if strings.HasSuffix (Pattern rule) "/"
    then {| Pattern := dropLast (Pattern rule); IsNegation := IsNegation rule;
            IsDirectory := true |}
    else rule in
  rule.

(** One iteration of the loop of [ParseGitIgnore] on the text of a line. *)
Definition parseLine (g : GitIgnoreParser) (text : string) : GitIgnoreParser :=
  let line := strings.TrimSpace text in
  (* Skip empty lines and comments *)
  if String.eqb line "" || strings.HasPrefix line "#" then g
  else
    {| patterns := patterns g ++ [line];
       rules := rules g ++ [ruleOfLine line];
       rootDir := rootDir g |}.

Section WithFileSystem.
Variable fs : FileSystem.

(** [ParseGitIgnore]: the parser after the call and the error returned. *)
Definition ParseGitIgnore (g : GitIgnoreParser) (gitignorePath : string)
    : GitIgnoreParser * option error :=
  match Open fs gitignorePath with
  | inl err => (g, Some err)
  | inr file => (fold_left parseLine (lines file) g, scanErr file)
  end.

(** The match test of [ShouldIgnore] for one rule: the whole relative path,
    then [strings.Join(parts[j:], "/")] for [j = 0 .. len(parts)-1] until one
    matches.  [parts] is the list [parts[j:]] still to try. *)
Fixpoint matchSuffixes (pattern : string) (parts : list string) : bool :=
  match parts with
  | [] => false
  | _ :: parts' =>
    let subPath := strings.Join parts "/" in
    let '(matched, _) := filepath.Match pattern subPath in
    if matched then true else matchSuffixes pattern parts'
  end.

Definition ruleMatches (pattern relPath : string) : bool :=
  let '(matched, _) := filepath.Match pattern relPath in
  if negb matched then
    (* Also check if the pattern matches any part of the path *)
    matchSuffixes pattern (strings.SplitByte relPath "/"%char)
  else matched.

(** The loop of [ShouldIgnore], [for i := len(g.rules) - 1; i >= 0; i--],
    entered with [n = i + 1]. *)
Fixpoint scanRules (rules : list GitIgnoreRule) (filePath relPath : string)
    (n : nat) : bool :=
  match n with
  | O => false
  | S i =>
    match rules !! i with
    | None => false                 (* index out of range: not reached *)
    | Some rule =>
      if ruleMatches (Pattern rule) relPath then
        (* If it's a negation rule, don't ignore *)
        if IsNegation rule then false
        else if IsDirectory rule then
          (* If it's a directory rule, only ignore if the path is a directory *)
          match Stat fs filePath with
          | inl _ => scanRules rules filePath relPath i
          | inr info =>
            if negb (IsDir info) then scanRules rules filePath relPath i
            else true
          end
        else true
      else scanRules rules filePath relPath i
    end
  end.

(** [ShouldIgnore(filePath)] *)
Definition ShouldIgnore (g : GitIgnoreParser) (filePath : string) : bool :=
  (* Make the path relative to the root directory *)
  match filepath.Rel (rootDir g) filePath with
  | (_, Some _) => false
  | (relPath, None) =>
    (* Normalize path separators *)
    let relPath := filepath.ToSlash relPath in
    scanRules (rules g) filePath relPath (length (rules g))
  end.

End WithFileSystem.

(** *** ParseAllGitIgnores *)

(** One call of the function that [filepath.Walk] is given: the path
    visited and either the error of the walk at this path or the
    [os.FileInfo] of the path (the function reads [info] only when [err] is
    nil, and [Walk] passes a non-nil [info] then). *)
Definition WalkEntry : Type := (string * (error + FileInfo))%type.

Section WithWalk.
Variable fs : FileSystem.
(** The calls [filepath.Walk(root, fn)] makes, in its (lexical) order, as
    long as [fn] returns nil. *)
Variable Walked : string -> list WalkEntry.

(** The function literal passed to [filepath.Walk]: the parser after the
    call and the error returned. *)
Definition walkFn (g : GitIgnoreParser) (entry : WalkEntry)
    : GitIgnoreParser * option error :=
  let '(path, res) := entry in
  match res with
  | inl err => (g, Some err)
  | inr info =>
    if negb (IsDir info) && String.eqb (filepath.Base path) ".gitignore"
    then ParseGitIgnore fs g path
    else (g, None)
  end.

(** [filepath.Walk]: the function is called on every entry in turn; the
    first error it returns stops the walk and is returned (the function
    above never returns [SkipDir] or [SkipAll]). *)
Fixpoint walkLoop (entries : list WalkEntry) (g : GitIgnoreParser)
    : GitIgnoreParser * option error :=
  match entries with
  | [] => (g, None)
  | entry :: rest =>
    match walkFn g entry with
    | (g', Some err) => (g', Some err)
    | (g', None) => walkLoop rest g'
    end
  end.

(** [ParseAllGitIgnores]: the parser after the call and the error
    returned. *)
Definition ParseAllGitIgnores (g : GitIgnoreParser)
    : GitIgnoreParser * option error :=
  walkLoop (Walked (rootDir g)) g.

End WithWalk.
End git.

(** ** Package filter (internal/filter) *)
Module filter.

(** The pointer [GitIgnoreParser] is modelled by the parser it points to
    ([None] for nil): the parser is not modified once the filter holds
    it. *)
Record Filter : Type := {
  Extensions : list string;
  ExcludePatterns : list string;
  IncludeDotfiles : bool;
  GitIgnoreParser : option git.GitIgnoreParser;
  GitTrackedOnly : bool;
  GitTrackedFiles : list string
}.

(** The body of the loop that normalizes extensions to have a leading
    dot. *)
Definition normalizeExt (ext : string) : string :=
  let ext := strings.TrimSpace ext in
  if negb (strings.HasPrefix ext ".") then "." +:+ ext else ext.

(** [NewFilter(extensions, excludePatterns, includeDotfiles)] *)
Definition NewFilter (extensions excludePatterns : string)
    (includeDotfiles : bool) : Filter :=
  let exts :=
    if negb (isEmpty extensions)
    then map normalizeExt (strings.SplitByte extensions ","%char)
    else [] in
  let patterns :=
    if negb (isEmpty excludePatterns)
    then map strings.TrimSpace (strings.SplitByte excludePatterns ","%char)
    else [] in
  {| Extensions := exts; ExcludePatterns := patterns;
     IncludeDotfiles := includeDotfiles; GitIgnoreParser := None;
     GitTrackedOnly := false; GitTrackedFiles := [] |}.

(** [SetGitIgnoreParser(parser)] *)
Definition SetGitIgnoreParser (f : Filter) (parser : option git.GitIgnoreParser)
    : Filter :=
  {| Extensions := Extensions f; ExcludePatterns := ExcludePatterns f;
     IncludeDotfiles := IncludeDotfiles f; GitIgnoreParser := parser;
     GitTrackedOnly := GitTrackedOnly f;
     GitTrackedFiles := GitTrackedFiles f |}.

(** [SetGitTrackedFiles(files)] *)
Definition SetGitTrackedFiles (f : Filter) (files : list string) : Filter :=
  {| Extensions := Extensions f; ExcludePatterns := ExcludePatterns f;
     IncludeDotfiles := IncludeDotfiles f;
     GitIgnoreParser := GitIgnoreParser f;
     GitTrackedOnly := true; GitTrackedFiles := files |}.

(** The loop over [f.GitTrackedFiles] in [ShouldInclude]: the value of
    [isTracked] after it. *)
Fixpoint isTracked (path : string) (tracked : list string) : bool :=
  match tracked with
  | [] => false
  | trackedPath :: rest =>
    if String.eqb trackedPath path
       || String.eqb (filepath.Join [filepath.Dir path; trackedPath]) path
    then true else isTracked path rest
  end.

(** [err == nil] *)
Definition errIsNil (err : option error) : bool :=
  match err with None => true | Some _ => false end.

(** The loop over [f.ExcludePatterns] in [ShouldInclude]: [true] when it
    returns false from inside. *)
Fixpoint excluded (path base : string) (patterns : list string) : bool :=
  match patterns with
  | [] => false
  | pattern :: rest =>
    let '(matched, err) := filepath.Match pattern base in
    if errIsNil err && matched then true
    else
      (* Also check if the pattern matches the full path *)
      let '(matched, err) := filepath.Match pattern path in
      if errIsNil err && matched then true
      else excluded path base rest
  end.

(** The loop over [f.Extensions] in [ShouldInclude]. *)
Fixpoint hasExtension (ext : string) (allowed : list string) : bool :=
  match allowed with
  | [] => false
  | allowedExt :: rest =>
    if String.eqb ext allowedExt then true else hasExtension ext rest
  end.

Section WithFileSystem.
Variable fs : FileSystem.

(** [ShouldInclude(path)] *)
Definition ShouldInclude (f : Filter) (path : string) : bool :=
  (* Get the base name of the file *)
  let base := filepath.Base path in
  (* Check if it's a dotfile *)
  if negb (IncludeDotfiles f) && strings.HasPrefix base "." then false
  (* Check if we should only include Git tracked files *)
  else if GitTrackedOnly f && (0 <? length (GitTrackedFiles f))%nat
          && negb (isTracked path (GitTrackedFiles f)) then false
  (* Check if the file should be ignored based on .gitignore rules *)
  else if match GitIgnoreParser f with
          | Some parser => git.ShouldIgnore fs parser path
          | None => false
          end then false
  (* Check exclusion patterns *)
  else if excluded path base (ExcludePatterns f) then false
  (* If no extensions are specified, include all files *)
  else if (length (Extensions f) =? 0)%nat then true
  (* Check if the file has one of the specified extensions *)
  else hasExtension (filepath.Ext path) (Extensions f).

End WithFileSystem.
End filter.

(** ** Command run (cmd/root.go): how the filter is set up *)
Module cmd.

(** The command-line flags that [run] reads when it builds the filter
    (package-level variables in the source). *)
Record Flags : Type := {
  extensionsFlag : string;
  excludeFlag : string;
  includeDotfiles : bool;
  respectGitignoreFlag : bool;
  ignoreGitignoreFlag : bool;
  gitOnlyFlag : bool
}.

(** The flags as [init] declares them: [ignore-gitignore] is on by
    default, the other booleans are off. *)
Definition defaultFlags : Flags :=
  {| extensionsFlag := ""; excludeFlag := ""; includeDotfiles := false;
     respectGitignoreFlag := false; ignoreGitignoreFlag := true;
     gitOnlyFlag := false |}.

Section WithFileSystem.
Variable fs : FileSystem.
Variable Walked : string -> list git.WalkEntry.

(** The statements of [run] from "Create a filter" to "Set Git tracked
    files": the filter they leave and the error of the warning they print,
    if any. *)
Definition runFilter (flags : Flags) (targetDir : string)
    (gitTrackedFiles : list string) : filter.Filter * option error :=
  (* Create a filter *)
  let flt := filter.NewFilter (extensionsFlag flags) (excludeFlag flags)
                              (includeDotfiles flags) in
  (* Handle .gitignore if needed *)
  let '(flt, warning) :=
    if respectGitignoreFlag flags && negb (ignoreGitignoreFlag flags) then
      let gitIgnoreParser := git.NewGitIgnoreParser targetDir in
      match git.ParseAllGitIgnores fs Walked gitIgnoreParser with
      | (_, Some err) => (flt, Some err)
      | (gitIgnoreParser, None) =>
        (filter.SetGitIgnoreParser flt (Some gitIgnoreParser), None)
      end
    else (flt, None) in
  (* Set Git tracked files if --git-only is specified *)
  let flt :=
    if gitOnlyFlag flags && (0 <? length gitTrackedFiles)%nat
    then filter.SetGitTrackedFiles flt gitTrackedFiles else flt in
  (flt, warning).

End WithFileSystem.
End cmd.

(** ** A concrete file system, for the examples *)
Inductive Node : Type :=
  | Dir
  | RegularFile (content : Source).

Definition mkFS (m : gmap string Node) : FileSystem :=
  {| Open := fun p =>
       match m !! p with
       | None => inl (ErrPath "open" p)
       | Some Dir => inr {| lines := []; scanErr := Some (ErrScan "is a directory") |}
       | Some (RegularFile src) => inr src
       end;
     Stat := fun p =>
       match m !! p with
       | None => inl (ErrPath "stat" p)
       | Some Dir => inr {| IsDir := true |}
       | Some (RegularFile _) => inr {| IsDir := false |}
       end |}.

Definition textFile (ls : list string) : Node :=
  RegularFile {| lines := ls; scanErr := None |}.

(** ** Known answers of the library routines

    Input/output pairs of the tables that test path/filepath in the Go
    distribution (Unix), used to check the model of [Match], [Clean] and
    [Rel] below.  A [Match] entry is [(pattern, name, matched, bad)] where
    [bad] says that ErrBadPattern is returned; a [Rel] entry is
    [(basepath, targpath, result)] with [None] for an error. *)
Definition matchTests : list (string * string * bool * bool) :=
  [("abc", "abc", true, false); ("*", "abc", true, false);
   ("*c", "abc", true, false); ("a*", "a", true, false);
   ("a*", "abc", true, false); ("a*", "ab/c", false, false);
   ("a*/b", "abc/b", true, false); ("a*/b", "a/c/b", false, false);
   ("a*b*c*d*e*/f", "axbxcxdxe/f", true, false);
   ("a*b*c*d*e*/f", "axbxcxdxexxx/f", true, false);
   ("a*b*c*d*e*/f", "axbxcxdxe/xxx/f", false, false);
   ("a*b*c*d*e*/f", "axbxcxdxexxx/fff", false, false);
   ("a*b?c*x", "abxbbxdbxebxczzx", true, false);
   ("a*b?c*x", "abxbbxdbxebxczzy", false, false);
   ("ab[c]", "abc", true, false); ("ab[b-d]", "abc", true, false);
   ("ab[e-g]", "abc", false, false); ("ab[^c]", "abc", false, false);
   ("ab[^b-d]", "abc", false, false); ("ab[^e-g]", "abc", true, false);
   ("a\*b", "a*b", true, false); ("a\*b", "ab", false, false);
   ("a?b", "a☺b", true, false); ("a[^a]b", "a☺b", true, false);
   ("a???b", "a☺b", false, false); ("a[^a][^a][^a]b", "a☺b", false, false);
   ("[a-ζ]*", "α", true, false); ("*[a-ζ]", "A", false, false);
   ("a?b", "a/b", false, false); ("a*b", "a/b", false, false);
   ("[\]a]", "]", true, false); ("[\-]", "-", true, false);
   ("[x\-]", "x", true, false); ("[x\-]", "-", true, false);
   ("[x\-]", "z", false, false); ("[\-x]", "x", true, false);
   ("[\-x]", "-", true, false); ("[\-x]", "a", false, false);
   ("[]a]", "]", false, true); ("[-]", "-", false, true);
   ("[x-]", "x", false, true); ("[x-]", "-", false, true);
   ("[x-]", "z", false, true); ("[-x]", "x", false, true);
   ("[-x]", "-", false, true); ("[-x]", "a", false, true);
   ("\", "a", false, true); ("[a-b-c]", "a", false, true);
   ("[", "a", false, true); ("[^", "a", false, true);
   ("[^bc", "a", false, true); ("a[", "a", false, true);
   ("a[", "ab", false, true); ("a[", "x", false, true);
   ("a/b[", "x", false, true); ("*x", "xxx", true, false)].

Definition checkMatch (t : string * string * bool * bool) : bool :=
  let '(pattern, name, matched, bad) := t in
  match filepath.Match pattern name with
  | (m, None) => Bool.eqb m matched && negb bad
  | (m, Some _) => Bool.eqb m matched && bad
  end.

Definition cleanTests : list (string * string) :=
  [("abc", "abc"); ("abc/def", "abc/def"); ("a/b/c", "a/b/c"); (".", ".");
   ("..", ".."); ("../..", "../.."); ("../../abc", "../../abc");
   ("/abc", "/abc"); ("/", "/"); ("", "."); ("abc/", "abc");
   ("abc/def/", "abc/def"); ("a/b/c/", "a/b/c"); ("./", "."); ("../", "..");
   ("../../", "../.."); ("/abc/", "/abc"); ("abc//def//ghi", "abc/def/ghi");
   ("abc//", "abc"); ("abc/./def", "abc/def"); ("/./abc/def", "/abc/def");
   ("abc/.", "abc"); ("abc/def/ghi/../jkl", "abc/def/jkl");
   ("abc/def/../ghi/../jkl", "abc/jkl"); ("abc/def/..", "abc");
   ("abc/def/../..", "."); ("/abc/def/../..", "/"); ("abc/def/../../..", "..");
   ("/abc/def/../../..", "/");
   ("abc/def/../../../ghi/jkl/../../../mno", "../../mno"); ("/../abc", "/abc");
   ("abc/./../def", "def"); ("abc//./../def", "def");
   ("abc/../../././../def", "../../def")].

Definition relTests : list (string * string * option string) :=
  [("a/b", "a/b", Some "."); ("a/b/.", "a/b", Some ".");
   ("a/b", "a/b/.", Some "."); ("./a/b", "a/b", Some ".");
   ("a/b", "./a/b", Some "."); ("ab/cd", "ab/cde", Some "../cde");
   ("ab/cd", "ab/c", Some "../c"); ("a/b", "a/b/c/d", Some "c/d");
   ("a/b", "a/b/../c", Some "../c"); ("a/b/../c", "a/b", Some "../b");
   ("a/b/c", "a/c/d", Some "../../c/d"); ("a/b", "c/d", Some "../../c/d");
   ("a/b/c/d", "a/b", Some "../.."); ("a/b/c/d", "a/b/", Some "../..");
   ("a/b/c/d/", "a/b", Some "../.."); ("a/b/c/d/", "a/b/", Some "../..");
   ("../../a/b", "../../a/b/c/d", Some "c/d"); ("/a/b", "/a/b", Some ".");
   ("/a/b/.", "/a/b", Some "."); ("/a/b", "/a/b/.", Some ".");
   ("/ab/cd", "/ab/cde", Some "../cde"); ("/ab/cd", "/ab/c", Some "../c");
   ("/a/b", "/a/b/c/d", Some "c/d"); ("/a/b", "/a/b/../c", Some "../c");
   ("/a/b/../c", "/a/b", Some "../b"); ("/a/b/c", "/a/c/d", Some "../../c/d");
   ("/a/b", "/c/d", Some "../../c/d"); ("/a/b/c/d", "/a/b", Some "../..");
   ("/a/b/c/d", "/a/b/", Some "../.."); ("/a/b/c/d/", "/a/b", Some "../..");
   ("/a/b/c/d/", "/a/b/", Some "../..");
   ("/../../a/b", "/../../a/b/c/d", Some "c/d"); (".", "a/b", Some "a/b");
   (".", "..", Some ".."); ("/a", "/a/b/c", Some "b/c");
   ("/a", "/b/c", Some "../b/c"); ("..", ".", None); ("..", "a", None);
   ("a", "/a", None); ("/a", "a", None); ("/a", "./b/c", None)].

Definition checkRel (t : string * string * option string) : bool :=
  let '(basepath, targpath, want) := t in
  match filepath.Rel basepath targpath, want with
  | (r, None), Some w => String.eqb r w
  | (_, Some _), None => true
  | _, _ => false
  end.

(** ** Definitions used by the statements *)

Import git.

(** [os.Stat(filePath)] succeeded and reported a directory. *)
Definition isDirectory (fs : FileSystem) (filePath : string) : bool :=
  match Stat fs filePath with
  | inl _ => false
  | inr info => IsDir info
  end.

(** The decision of the loop of [ShouldIgnore] on the rules listed from the
    last declared to the first. *)
Fixpoint decideRev (fs : FileSystem) (filePath relPath : string)
    (rs : list GitIgnoreRule) : bool :=
  match rs with
  | [] => false
  | rule :: rs' =>
    if ruleMatches (Pattern rule) relPath then
      if IsNegation rule then false
      else if IsDirectory rule then
        if isDirectory fs filePath then true
        else decideRev fs filePath relPath rs'
      else true
    else decideRev fs filePath relPath rs'
  end.

(** The byte is ASCII and is not white space. *)
Definition plainByte (c : ascii) : bool :=
  (byte_val c <? utf8.RuneSelf)%N && negb (strings.asciiSpace c).

(** [s] is not empty and neither starts nor ends with white space or a
    non-ASCII byte. *)
Definition plainEnds (s : string) : bool :=
  match String.get 0 s, String.get (String.length s - 1) s with
  | Some first, Some last => plainByte first && plainByte last
  | _, _ => false
  end.

(** The rules one line of text contributes: none, or one. *)
Definition lineRules (text : string) : list GitIgnoreRule :=
  let line := strings.TrimSpace text in
  if String.eqb line "" || strings.HasPrefix line "#" then []
  else [ruleOfLine line].

Definition linePatterns (text : string) : list string :=
  let line := strings.TrimSpace text in
  if String.eqb line "" || strings.HasPrefix line "#" then []
  else [line].

(** The rules the source at [path] contributes to a parser. *)
Definition sourceRules (fs : FileSystem) (path : string) : list GitIgnoreRule :=
  match Open fs path with
  | inl _ => []
  | inr file => concat (map lineRules (lines file))
  end.

Definition sourcePatterns (fs : FileSystem) (path : string) : list string :=
  match Open fs path with
  | inl _ => []
  | inr file => concat (map linePatterns (lines file))
  end.

Definition plainRule (pattern : string) : GitIgnoreRule :=
  {| Pattern := pattern; IsNegation := false; IsDirectory := false |}.

(** A repository at [/repo] whose [.gitignore] holds the given lines, with a
    directory [build], a regular file [notes] and a few other files. *)
Definition repoFS (ignoreLines : list string) : FileSystem :=
  mkFS (<["/repo/.gitignore" := textFile ignoreLines]>
       (<["/repo" := Dir]>
       (<["/repo/build" := Dir]>
       (<["/repo/notes" := textFile []]>
       (<["/repo/important.log" := textFile []]>
       (<["/repo/other.log" := textFile []]>
       (<["/repo/src" := Dir]>
       (<["/repo/src/sub" := Dir]>
       (<["/repo/src/sub/test_file.go" := textFile []]> ∅))))))))).

(** The parser of the repository after reading its [.gitignore]. *)
Definition repoParser (ignoreLines : list string) : GitIgnoreParser :=
  (ParseGitIgnore (repoFS ignoreLines) (NewGitIgnoreParser "/repo")
                  "/repo/.gitignore").1.

(** An ignore file whose second line has an unterminated bracket
    expression. *)
Definition malformedLines : list string :=
  ["*.log"; "[a-c]*.[ch"; "!important.log"].

(** The parser [g] holding the rules [rs] instead of its own. *)
Definition withRules (g : GitIgnoreParser) (rs : list GitIgnoreRule)
    : GitIgnoreParser :=
  {| patterns := patterns g; rules := rs; rootDir := rootDir g |}.

(** For an absolute root and an absolute path: the cleaned path is neither
    the cleaned root nor below it. *)
Definition outsideRoot (root filePath : string) : bool :=
  let r := filepath.Clean root in
  let f := filepath.Clean filePath in
  negb (String.eqb f r)
  && negb (strings.HasPrefix f (if String.eqb r "/" then r else r +:+ "/")).

(** A bracket expression is still open where [pattern] ends, in the reading
    of [scanChunk]: '\' escapes the next byte, '[' opens a character class,
    ']' closes it.  [inrange] is the state before [pattern]. *)
Fixpoint bracketOpen (inrange : bool) (pattern : string) : bool :=
  match pattern with
  | EmptyString => inrange
  | String c p' =>
    if filepath.isByte c "\"%char then
      match p' with
      | EmptyString => inrange
      | String _ p'' => bracketOpen inrange p''
      end
    else if filepath.isByte c "["%char then bracketOpen true p'
    else if filepath.isByte c "]"%char then bracketOpen false p'
    else bracketOpen inrange p'
  end.

(** The first [k] bytes of [s] exist and are not ASCII. *)
Fixpoint highBytes (k : nat) (s : string) : bool :=
  match k, s with
  | O, _ => true
  | S k', String c s' => (128 <=? byte_val c)%N && highBytes k' s'
  | S _, EmptyString => false
  end.

(** A pattern with an unterminated bracket expression. *)
Definition unterminated (pattern : string) : Prop :=
  bracketOpen false pattern = true.

(** Every match attempt that [ShouldIgnore] makes with [pattern] for the
    relative path [relPath] is rejected by [filepath.Match] as a bad
    pattern. *)
Definition attemptsFail (pattern relPath : string) : Prop :=
  forall j : nat,
    j < length (strings.SplitByte relPath "/") ->
    exists err : error,
      (filepath.Match pattern
         (strings.Join (drop j (strings.SplitByte relPath "/")) "/")).2
      = Some err.

(** ** Definitions used by the statements on the walk and on the filter *)

(** The line that parses to the rule [r]. *)
Definition lineOfRule (r : GitIgnoreRule) : string :=
  (if IsNegation r then "!" else "") +:+ Pattern r
  +:+ (if IsDirectory r then "/" else "").

(** The paths that [ParseAllGitIgnores] hands to [ParseGitIgnore] when the
    walk makes the calls [entries] and none fails. *)
Fixpoint ignoreFiles (entries : list WalkEntry) : list string :=
  match entries with
  | [] => []
  | (path, inr info) :: rest =>
    if negb (IsDir info) && String.eqb (filepath.Base path) ".gitignore"
    then path :: ignoreFiles rest else ignoreFiles rest
  | (_, inl _) :: rest => ignoreFiles rest
  end.

(** The source at [path] can be opened and is read to its end. *)
Definition readable (fs : FileSystem) (path : string) : Prop :=
  exists src, Open fs path = inr src /\ scanErr src = None.

(** The walk reports no error at [entry]. *)
Definition visited (entry : WalkEntry) : Prop :=
  exists info, entry.2 = inr info.

(** The parser [g] holds one rule for each pattern line, in order. *)
Definition inStep (g : GitIgnoreParser) : Prop :=
  rules g = map ruleOfLine (patterns g).

(** No byte of [pattern] is special to [filepath.Match]. *)
Fixpoint literal (pattern : string) : bool :=
  match pattern with
  | EmptyString => true
  | String c p =>
    negb (filepath.isByte c "*"%char) && negb (filepath.isByte c "?"%char)
    && negb (filepath.isByte c "["%char) && negb (filepath.isByte c "\"%char)
    && literal p
  end.

(** The filter [f] with the exclusion patterns [ps] instead of its own. *)
Definition withPatterns (f : filter.Filter) (ps : list string) : filter.Filter :=
  {| filter.Extensions := filter.Extensions f;
     filter.ExcludePatterns := ps;
     filter.IncludeDotfiles := filter.IncludeDotfiles f;
     filter.GitIgnoreParser := filter.GitIgnoreParser f;
     filter.GitTrackedOnly := filter.GitTrackedOnly f;
     filter.GitTrackedFiles := filter.GitTrackedFiles f |}.

(** A repository at [/repo] with an ignore file at its root and one in the
    directory [sub], and the calls the walk of [/repo] makes. *)
Definition treeFS : FileSystem :=
  mkFS (<["/repo" := Dir]>
       (<["/repo/.gitignore" := textFile ["*.log"; "# logs"; "build/"]]>
       (<["/repo/main.go" := textFile []]>
       (<["/repo/sub" := Dir]>
       (<["/repo/sub/.gitignore" := textFile ["*.tmp"; "!keep.tmp"]]>
       (<["/repo/sub/x.tmp" := textFile []]> ∅)))))).

Definition treeWalk (root : string) : list WalkEntry :=
  if String.eqb root "/repo" then
    [("/repo", inr {| IsDir := true |});
     ("/repo/.gitignore", inr {| IsDir := false |});
     ("/repo/main.go", inr {| IsDir := false |});
     ("/repo/sub", inr {| IsDir := true |});
     ("/repo/sub/.gitignore", inr {| IsDir := false |});
     ("/repo/sub/x.tmp", inr {| IsDir := false |})]
  else [(root, inl (ErrPath "lstat" root))].

(** ** Known answers of [Base], [Dir], [Ext] and [Join] *)
Definition baseTests : list (string * string) :=
  [("", "."); (".", "."); ("/.", "."); ("/", "/"); ("////", "/"); ("x/", "x");
   ("abc", "abc"); ("abc/def", "def"); ("a/b/.x", ".x"); ("a/b/c.", "c.");
   ("a/b/c.x", "c.x")].

Definition dirTests : list (string * string) :=
  [("", "."); (".", "."); ("/.", "/"); ("/", "/"); ("/foo", "/"); ("x/", "x");
   ("abc", "."); ("abc/def", "abc"); ("a/b/.x", "a/b"); ("a/b/c.", "a/b");
   ("a/b/c.x", "a/b")].

Definition extTests : list (string * string) :=
  [("path.go", ".go"); ("path.pb.go", ".go"); ("a.dir/b", "");
   ("a.dir/b.go", ".go"); ("a.dir/", "")].

Definition joinTests : list (list string * string) :=
  [([], ""); ([""], ""); (["a"], "a"); (["a"; "b"], "a/b"); (["a"; ""], "a");
   ([""; "b"], "b"); (["/"; "a"], "/a"); (["/"; "a/b"], "/a/b");
   (["/"; ""], "/"); (["/a"; "b"], "/a/b"); (["a"; "/b"], "a/b");
   (["/a"; "/b"], "/a/b"); (["a/"; "b"], "a/b"); (["a/"; ""], "a");
   ([""; ""], ""); (["//"; "a"], "/a")].

(** A file system whose ignore file at [/repo/.gitignore] yields two lines
    and then fails to be read. *)
Definition brokenFS : FileSystem :=
  mkFS (<["/repo" := Dir]>
       (<["/repo/.gitignore" :=
            RegularFile {| lines := ["*.log"; "build/"];
                           scanErr := Some (ErrScan "input/output error") |}]>
        ∅)).

(** Every element of the slash-separated [relPath] is non-empty. *)
Definition noEmptyElement (relPath : string) : bool :=
  forallb (fun e => negb (isEmpty e)) (strings.SplitByte relPath "/"%char).

(** * Properties *)

(** ** The library model on known inputs *)

Example TrimSpace_ex1 : strings.TrimSpace "  	# Indented comment " = "# Indented comment".
Proof. reflexivity. Qed.

Example Match_known_answers : forallb checkMatch matchTests = true.
Proof. vm_compute. reflexivity. Qed.

Example Clean_known_answers :
  forallb (fun t => String.eqb (filepath.Clean t.1) t.2) cleanTests = true.
Proof. vm_compute. reflexivity. Qed.

Example Rel_known_answers : forallb checkRel relTests = true.
Proof. vm_compute. reflexivity. Qed.

Example TrimSpace_known_answers :
  strings.TrimSpace "" = ""
  /\ strings.TrimSpace "   	 " = ""
  /\ strings.TrimSpace " 	*.log  " = "*.log"
  /\ strings.TrimSpace "a b" = "a b"
  /\ strings.TrimSpace "  a  b  " = "a  b"
  /\ strings.TrimSpace " ☺ " = "☺"
  /\ strings.TrimSpace "☺ x " = "☺ x".
Proof. vm_compute. repeat split; reflexivity. Qed.

(** ** The rule scan, read from the last rule to the first *)

Section Scan.
Variable fs : FileSystem.
Variables filePath relPath : string.

Lemma scanRules_prefix (rs extra : list GitIgnoreRule) (n : nat) :
  n <= length rs ->
  scanRules fs (rs ++ extra) filePath relPath n = scanRules fs rs filePath relPath n.
Proof.
  induction n as [|i IH]; intros Hn; [reflexivity|].
  simpl. rewrite lookup_app_l by lia.
  destruct (rs !! i) as [rule|]; [|reflexivity].
  rewrite !IH by lia. reflexivity.
Qed.

Lemma scanRules_snoc (rs : list GitIgnoreRule) (rule : GitIgnoreRule) :
  scanRules fs (rs ++ [rule]) filePath relPath (length (rs ++ [rule])) =
  if ruleMatches (Pattern rule) relPath then
    if IsNegation rule then false
    else if IsDirectory rule then
      if isDirectory fs filePath then true
      else scanRules fs rs filePath relPath (length rs)
    else true
  else scanRules fs rs filePath relPath (length rs).
Proof.
  rewrite length_app, Nat.add_1_r. simpl.
  rewrite lookup_app_r by lia. rewrite Nat.sub_diag. simpl.
  rewrite scanRules_prefix by lia.
  unfold isDirectory.
  destruct (ruleMatches _ _), (IsNegation rule), (IsDirectory rule); try reflexivity.
  destruct (Stat fs filePath) as [e|info]; [reflexivity|].
  destruct (IsDir info); reflexivity.
Qed.

Lemma scanRules_decideRev (rs : list GitIgnoreRule) :
  scanRules fs rs filePath relPath (length rs) =
  decideRev fs filePath relPath (rev rs).
Proof.
  induction rs as [|rule rs IH] using rev_ind; [reflexivity|].
  rewrite scanRules_snoc, rev_unit. simpl. rewrite IH. reflexivity.
Qed.

(** Rules that do not match are passed over. *)
Lemma decideRev_skip (later rs : list GitIgnoreRule) :
  Forall (fun r => ruleMatches (Pattern r) relPath = false) later ->
  decideRev fs filePath relPath (later ++ rs) = decideRev fs filePath relPath rs.
Proof.
  induction 1 as [|r later Hr _ IH]; [reflexivity|].
  simpl. rewrite Hr. exact IH.
Qed.

(** A rule that does not match can be deleted without changing the decision. *)
Lemma decideRev_delete (later rs : list GitIgnoreRule) (bad : GitIgnoreRule) :
  ruleMatches (Pattern bad) relPath = false ->
  decideRev fs filePath relPath (later ++ bad :: rs) =
  decideRev fs filePath relPath (later ++ rs).
Proof.
  intros Hbad. induction later as [|r later IH]; simpl.
  - rewrite Hbad. reflexivity.
  - rewrite IH. reflexivity.
Qed.

End Scan.

(** [ShouldIgnore] in terms of the relative path and the reversed rules. *)
Lemma ShouldIgnore_rel (fs : FileSystem) (g : GitIgnoreParser)
    (filePath relPath : string) :
  filepath.Rel (rootDir g) filePath = (relPath, None) ->
  ShouldIgnore fs g filePath = decideRev fs filePath relPath (rev (rules g)).
Proof.
  intros HRel. unfold ShouldIgnore. rewrite HRel.
  unfold filepath.ToSlash. apply scanRules_decideRev.
Qed.

Lemma ShouldIgnore_rel_error (fs : FileSystem) (g : GitIgnoreParser)
    (filePath relPath : string) (err : error) :
  filepath.Rel (rootDir g) filePath = (relPath, Some err) ->
  ShouldIgnore fs g filePath = false.
Proof. intros HRel. unfold ShouldIgnore. rewrite HRel. reflexivity. Qed.

(** ** Facts about the string helpers *)

Lemma HasPrefix_byte (line : string) (c : ascii) :
  strings.HasPrefix line (String c "") = true <->
  exists rest, line = String c rest.
Proof.
  unfold strings.HasPrefix. destruct line as [|d rest]; simpl.
  - split; [discriminate|]. intros [r Hr]. discriminate.
  - destruct (ascii_dec c d) as [->|Hne].
    + split; [eauto|]. intros _. destruct rest; reflexivity.
    + split; [discriminate|]. intros [r Hr]. congruence.
Qed.

Lemma sdrop_length_app (s t : string) : sdrop (String.length s) (s +:+ t) = t.
Proof. induction s as [|c s IH]; [reflexivity|exact IH]. Qed.

Lemma length_append (s t : string) :
  String.length (s +:+ t) = String.length s + String.length t.
Proof. induction s as [|c s IH]; simpl; [reflexivity|]. rewrite IH. reflexivity. Qed.

Lemma dropLast_snoc (s : string) (c : ascii) : dropLast (s +:+ String c "") = s.
Proof.
  induction s as [|d s IH]; [reflexivity|].
  simpl. rewrite IH. destruct s; reflexivity.
Qed.

Lemma snoc_dropLast (s : string) :
  s <> "" -> exists c, s = dropLast s +:+ String c "".
Proof.
  induction s as [|d s IH]; [congruence|]. intros _.
  destruct s as [|e s].
  - exists d. reflexivity.
  - destruct IH as [c Hc]; [congruence|]. exists c.
    change (dropLast (String d (String e s)))
      with (String d (dropLast (String e s))).
    change (String d (String e s) = String d (dropLast (String e s) +:+ String c "")).
    f_equal. exact Hc.
Qed.

Lemma HasSuffix_snoc (s : string) (c : ascii) :
  strings.HasSuffix (s +:+ String c "") (String c "") = true.
Proof.
  unfold strings.HasSuffix. rewrite length_append. simpl.
  replace (String.length s + 1 - 1) with (String.length s) by lia.
  rewrite sdrop_length_app, String.eqb_refl.
  destruct (String.length s + 1) eqn:E; [lia|reflexivity].
Qed.

Lemma HasSuffix_byte (s : string) (c : ascii) :
  strings.HasSuffix s (String c "") = true <-> exists p, s = p +:+ String c "".
Proof.
  split.
  - intros H. destruct (decide (s = "")) as [->|Hne]; [discriminate|].
    destruct (snoc_dropLast s Hne) as [d Hd].
    exists (dropLast s). rewrite Hd in H. unfold strings.HasSuffix in H.
    rewrite length_append in H. simpl in H.
    replace (String.length (dropLast s) + 1 - 1)
      with (String.length (dropLast s)) in H by lia.
    rewrite sdrop_length_app in H.
    apply andb_true_iff in H as [_ H]. apply String.eqb_eq in H.
    rewrite Hd at 1. congruence.
  - intros [p ->]. apply HasSuffix_snoc.
Qed.

Lemma stake_all (s : string) : stake (String.length s) s = s.
Proof. induction s as [|c s IH]; simpl; [reflexivity|]. rewrite IH. reflexivity. Qed.

Lemma plainByte_cases (c : ascii) :
  plainByte c = true ->
  (utf8.RuneSelf <=? byte_val c)%N = false /\ strings.asciiSpace c = false.
Proof.
  unfold plainByte. intros H. apply andb_true_iff in H as [H1 H2].
  apply negb_true_iff in H2. apply N.ltb_lt in H1. split; [|exact H2].
  apply N.leb_gt. exact H1.
Qed.

(** [TrimSpace] leaves such a string as it is. *)
Lemma TrimSpace_plainEnds (s : string) :
  plainEnds s = true -> strings.TrimSpace s = s.
Proof.
  unfold plainEnds. destruct s as [|c s]; [discriminate|].
  change (String.get 0 (String c s)) with (Some c).
  replace (String.length (String c s) - 1) with (String.length s)
    by (simpl; lia).
  destruct (String.get (String.length s) (String c s)) as [last|] eqn:Hlast;
    [|discriminate].
  intros H. apply andb_true_iff in H as [Hc Hl].
  apply plainByte_cases in Hc as [Hc1 Hc2].
  apply plainByte_cases in Hl as [Hl1 Hl2].
  unfold strings.TrimSpace. cbn [strings.trimAsciiLeft]. rewrite Hc1, Hc2.
  cbn [String.length strings.trimAsciiRight]. rewrite Hlast, Hl1, Hl2.
  exact (stake_all (String c s)).
Qed.

(** ** The parser, line by line *)

Lemma parseLine_fields (g : GitIgnoreParser) (text : string) :
  rules (parseLine g text) = rules g ++ lineRules text
  /\ patterns (parseLine g text) = patterns g ++ linePatterns text
  /\ rootDir (parseLine g text) = rootDir g.
Proof.
  unfold parseLine, lineRules, linePatterns.
  destruct (String.eqb _ "" || strings.HasPrefix _ "#"); simpl;
    rewrite ?app_nil_r; auto.
Qed.

Lemma parseLines_fields (ls : list string) (g : GitIgnoreParser) :
  rules (fold_left parseLine ls g) = rules g ++ concat (map lineRules ls)
  /\ patterns (fold_left parseLine ls g) = patterns g ++ concat (map linePatterns ls)
  /\ rootDir (fold_left parseLine ls g) = rootDir g.
Proof.
  revert g. induction ls as [|text ls IH]; intros g; simpl.
  - rewrite !app_nil_r. auto.
  - destruct (IH (parseLine g text)) as (Hr & Hp & Hd).
    destruct (parseLine_fields g text) as (Hr1 & Hp1 & Hd1).
    rewrite Hr, Hp, Hd, Hr1, Hp1, Hd1, <- !app_assoc. auto.
Qed.

Lemma ParseGitIgnore_fields (fs : FileSystem) (g : GitIgnoreParser) (path : string) :
  rules (ParseGitIgnore fs g path).1 = rules g ++ sourceRules fs path
  /\ patterns (ParseGitIgnore fs g path).1 = patterns g ++ sourcePatterns fs path
  /\ rootDir (ParseGitIgnore fs g path).1 = rootDir g.
Proof.
  unfold ParseGitIgnore, sourceRules, sourcePatterns.
  destruct (Open fs path) as [err|file]; simpl.
  - rewrite !app_nil_r. auto.
  - apply parseLines_fields.
Qed.

(** The rule of a line, by cases on its two markers. *)
Lemma ruleOfLine_cases (line : string) :
  let neg := strings.HasPrefix line "!" in
  let body := if neg then sdrop 1 line else line in
  let dir := strings.HasSuffix body "/" in
  ruleOfLine line =
  {| Pattern := if dir then dropLast body else body;
     IsNegation := neg; IsDirectory := dir |}.
Proof.
  unfold ruleOfLine.
  destruct (strings.HasPrefix line "!"); cbn [Pattern IsNegation IsDirectory];
    match goal with |- context [strings.HasSuffix ?b "/"] =>
      destruct (strings.HasSuffix b "/") end; reflexivity.
Qed.

(** The rule parsed from a line "!name/" is a negation rule and a
    directory-only rule with pattern name. *)
Lemma ruleOfLine_negated_directory (name : string) :
  ruleOfLine ("!" +:+ name +:+ "/") =
  {| Pattern := name; IsNegation := true; IsDirectory := true |}.
Proof.
  unfold ruleOfLine.
  rewrite (proj2 (HasPrefix_byte ("!" +:+ name +:+ "/") "!"))
    by (exists (name +:+ "/"); reflexivity).
  cbv zeta. cbn [Pattern IsNegation IsDirectory].
  change (sdrop 1 ("!" +:+ name +:+ "/")) with (name +:+ String "/"%char "").
  rewrite HasSuffix_snoc, dropLast_snoc. reflexivity.
Qed.

(** ** Reverse scan: the last matching rule decides *)

Lemma decide_at_rule (fs : FileSystem) (filePath relPath : string)
    (earlier later : list GitIgnoreRule) (rule : GitIgnoreRule) :
  Forall (fun r => ruleMatches (Pattern r) relPath = false) later ->
  ruleMatches (Pattern rule) relPath = true ->
  decideRev fs filePath relPath (rev (earlier ++ rule :: later)) =
  if IsNegation rule then false
  else if IsDirectory rule then
    if isDirectory fs filePath then true
    else decideRev fs filePath relPath (rev earlier)
  else true.
Proof.
  intros Hlater Hrule.
  rewrite rev_app_distr. simpl. rewrite <- app_assoc. simpl.
  rewrite decideRev_skip by (apply Forall_rev; exact Hlater).
  simpl. rewrite Hrule. reflexivity.
Qed.

Lemma decide_no_match (fs : FileSystem) (filePath relPath : string)
    (rs : list GitIgnoreRule) :
  Forall (fun r => ruleMatches (Pattern r) relPath = false) rs ->
  decideRev fs filePath relPath (rev rs) = false.
Proof.
  intros H. rewrite <- (app_nil_r (rev rs)).
  rewrite decideRev_skip by (apply Forall_rev; exact H). reflexivity.
Qed.

(** ** The suffixes tried for one rule *)

Lemma SplitByte_nonempty (s : string) (sep : ascii) : strings.SplitByte s sep <> [].
Proof.
  destruct s as [|c s]; simpl; [discriminate|].
  destruct (Ascii.eqb c sep); [discriminate|].
  destruct (strings.SplitByte s sep); discriminate.
Qed.

(** Joining the pieces of a split gives the string back: the suffix that
    drops no segment is the whole path. *)
Lemma Join_SplitByte (s : string) (sep : ascii) :
  strings.Join (strings.SplitByte s sep) (String sep "") = s.
Proof.
  induction s as [|c s IH]; [reflexivity|].
  simpl. destruct (Ascii.eqb c sep) eqn:E.
  - apply Ascii.eqb_eq in E as ->.
    pose proof (SplitByte_nonempty s sep) as Hne.
    destruct (strings.SplitByte s sep) as [|p ps]; [congruence|].
    change (strings.Join ("" :: p :: ps) (String sep ""))
      with (String sep (strings.Join (p :: ps) (String sep ""))).
    rewrite IH. reflexivity.
  - pose proof (SplitByte_nonempty s sep) as Hne.
    destruct (strings.SplitByte s sep) as [|p ps]; [congruence|].
    destruct ps as [|q ps]; simpl in *; rewrite <- IH; reflexivity.
Qed.

Lemma matchSuffixes_true (pattern : string) (parts : list string) :
  matchSuffixes pattern parts = true <->
  exists j, j < length parts
    /\ (filepath.Match pattern (strings.Join (drop j parts) "/")).1 = true.
Proof.
  induction parts as [|p parts IH].
  - simpl. split; [discriminate|]. intros (j & Hj & _). lia.
  - change (matchSuffixes pattern (p :: parts)) with
      (let '(matched, _) := filepath.Match pattern (strings.Join (p :: parts) "/") in
       if matched then true else matchSuffixes pattern parts).
    destruct (filepath.Match pattern (strings.Join (p :: parts) "/"))
      as [matched err] eqn:E.
    destruct matched.
    + split; [|reflexivity]. intros _. exists 0. split; [simpl; lia|].
      rewrite drop_0, E. reflexivity.
    + rewrite IH. split.
      * intros (j & Hj & Hm). exists (S j). split; [simpl; lia|exact Hm].
      * intros (j & Hj & Hm). destruct j as [|j].
        -- rewrite drop_0, E in Hm. discriminate.
        -- exists j. split; [simpl in Hj; lia|exact Hm].
Qed.

(** A rule matches exactly when its pattern matches one of the suffixes of
    the relative path (the suffix number 0 being the whole path). *)
Lemma ruleMatches_true (pattern relPath : string) :
  ruleMatches pattern relPath = true <->
  exists j, j < length (strings.SplitByte relPath "/")
    /\ (filepath.Match pattern
          (strings.Join (drop j (strings.SplitByte relPath "/")) "/")).1 = true.
Proof.
  unfold ruleMatches.
  destruct (filepath.Match pattern relPath) as [matched err] eqn:E.
  destruct matched; simpl.
  - split; [|reflexivity]. intros _. exists 0. split.
    + pose proof (SplitByte_nonempty relPath "/").
      destruct (strings.SplitByte relPath "/"); [congruence|simpl; lia].
    + rewrite drop_0, Join_SplitByte, E. reflexivity.
  - apply matchSuffixes_true.
Qed.

(** ** Malformed patterns *)

(** Every error of [getEsc] is [ErrBadPattern]. *)
Lemma getEsc_error (chunk : string) (r : N) (nchunk : string) (err : error) :
  filepath.getEsc chunk = (r, nchunk, Some err) -> err = ErrBadPattern.
Proof.
  unfold filepath.getEsc. destruct chunk as [|c rest]; [congruence|].
  destruct (filepath.isByte c "-" || filepath.isByte c "]"); [congruence|].
  destruct (isEmpty _); [congruence|].
  destruct (utf8.DecodeRuneInString _) as [r' n].
  destruct (isEmpty _); [congruence|].
  destruct ((r' =? utf8.RuneError)%N && (n =? 1)%nat); congruence.
Qed.

(** When [Match] reports an error, it reports no match. *)
Lemma matchLoop_error_false (fuel : nat) (pattern name : string)
    (matched : bool) (err : error) :
  filepath.matchLoop fuel pattern name = Some (matched, Some err) ->
  matched = false.
Proof.
  revert pattern name. induction fuel as [|fuel IH]; intros pattern name.
  - destruct pattern; simpl; congruence.
  - destruct pattern as [|c p]; [simpl; congruence|].
    cbn [filepath.matchLoop].
    destruct (filepath.scanChunk (String c p)) as [[star chunk] rest].
    destruct (star && isEmpty chunk); [congruence|].
    destruct (filepath.matchChunk chunk name) as [[t ok] e].
    destruct (ok && (isEmpty t || negb (isEmpty rest))); [apply IH|].
    destruct e as [e|]; [congruence|].
    destruct star; [|congruence].
    destruct (filepath.starLoop chunk (isEmpty rest) name); [apply IH|congruence..].
Qed.

Lemma Match_error_false (pattern name : string) (matched : bool) (err : error) :
  filepath.Match pattern name = (matched, Some err) -> matched = false.
Proof.
  unfold filepath.Match.
  destruct (filepath.matchLoop _ pattern name) as [[m e]|] eqn:E; [|congruence].
  intros [= -> ->]. exact (matchLoop_error_false _ _ _ _ _ E).
Qed.

Lemma DecodeRuneInString_width (c : ascii) (s : string) :
  1 <= (utf8.DecodeRuneInString (String c s)).2.
Proof.
  unfold utf8.DecodeRuneInString.
  repeat match goal with
         | |- context [if ?b then _ else _] => destruct b
         | |- context [match ?x with _ => _ end] => destruct x
         end; simpl; lia.
Qed.

Lemma sdrop_length_lt (k : nat) (s : string) :
  1 <= k -> isEmpty (sdrop k s) = false ->
  String.length (sdrop k s) < String.length s.
Proof.
  revert s. induction k as [|k IH]; intros s Hk Hne; [lia|].
  destruct s as [|c s]; [discriminate|]. simpl in *.
  destruct k as [|k]; [simpl; lia|].
  specialize (IH s ltac:(lia) Hne). lia.
Qed.

(** A successful [getEsc] consumes at least one byte and leaves some. *)
Lemma getEsc_ok (chunk : string) (r : N) (nchunk : string) :
  filepath.getEsc chunk = (r, nchunk, None) ->
  isEmpty nchunk = false /\ exists k, 1 <= k /\ nchunk = sdrop k chunk.
Proof.
  unfold filepath.getEsc. destruct chunk as [|c rest]; [congruence|].
  destruct (filepath.isByte c "-" || filepath.isByte c "]"); [congruence|].
  destruct (filepath.isByte c "\").
  - destruct rest as [|d rest]; [simpl; congruence|].
    cbn [isEmpty].
    pose proof (DecodeRuneInString_width d rest) as Hw.
    destruct (utf8.DecodeRuneInString (String d rest)) as [r' n].
    destruct (isEmpty (sdrop n (String d rest))) eqn:E; [congruence|].
    destruct ((r' =? utf8.RuneError)%N && (n =? 1)%nat); [congruence|].
    intros [= _ <-]. split; [exact E|]. exists (S n). split; [lia|reflexivity].
  - cbn [isEmpty].
    pose proof (DecodeRuneInString_width c rest) as Hw.
    destruct (utf8.DecodeRuneInString (String c rest)) as [r' n].
    destruct (isEmpty (sdrop n (String c rest))) eqn:E; [congruence|].
    destruct ((r' =? utf8.RuneError)%N && (n =? 1)%nat); [congruence|].
    intros [= _ <-]. split; [exact E|]. exists n. split; [exact Hw|reflexivity].
Qed.

(** ** The bounded loops of the model run to completion *)

Lemma byteAt_0_length (s : string) (c : ascii) :
  filepath.byteAt s 0 c = true -> String.length (sdrop 1 s) < String.length s.
Proof. destruct s; simpl; [discriminate|lia]. Qed.

Lemma sdrop_length_le (k : nat) (s : string) :
  String.length (sdrop k s) <= String.length s.
Proof.
  revert s. induction k as [|k IH]; intros s; [reflexivity|].
  destruct s as [|c s]; simpl; [lia|]. specialize (IH s). lia.
Qed.

(** The class loop ends within [len(chunk) + 1] iterations, and a closed
    class leaves a shorter chunk. *)
Lemma classLoop_some (fuel : nat) (chunk : string) (r : N) (matched : bool)
    (nrange : nat) :
  String.length chunk < fuel ->
  exists res, filepath.classLoop fuel chunk r matched nrange = Some res
    /\ forall chunk' m, res = inr (chunk', m) ->
         String.length chunk' < String.length chunk.
Proof.
  revert chunk matched nrange.
  induction fuel as [|fuel IH]; intros chunk matched nrange Hlen; [lia|].
  cbn [filepath.classLoop].
  destruct (filepath.byteAt chunk 0 "]") eqn:Hclose;
    [destruct (0 <? nrange)%nat|]; cbn [andb].
  { eexists. split; [reflexivity|]. intros chunk' m [= <- _].
    apply (byteAt_0_length _ _ Hclose). }
  all: destruct (filepath.getEsc chunk) as [[lo chunk1] [err|]] eqn:E1;
    [eexists; split; [reflexivity|discriminate]|].
  all: destruct (getEsc_ok _ _ _ E1) as (Hne1 & k1 & Hk1 & ->).
  all: pose proof (sdrop_length_lt k1 chunk Hk1 Hne1) as Hlt1.
  all: destruct (filepath.byteAt (sdrop k1 chunk) 0 "-").
  all: try (destruct (IH (sdrop k1 chunk)
                         ((lo <=? r)%N && (r <=? lo)%N || matched) (S nrange))
              as (res & -> & Hres); [lia|];
            exists res; split; [reflexivity|];
            intros chunk' m Hm; specialize (Hres chunk' m Hm); lia).
  all: destruct (filepath.getEsc (sdrop 1 (sdrop k1 chunk)))
    as [[hi chunk2] [err|]] eqn:E2;
    [eexists; split; [reflexivity|discriminate]|].
  all: destruct (getEsc_ok _ _ _ E2) as (Hne2 & k2 & Hk2 & ->).
  all: pose proof (sdrop_length_le k2 (sdrop 1 (sdrop k1 chunk))) as Hle2.
  all: pose proof (sdrop_length_le 1 (sdrop k1 chunk)) as Hle1.
  all: destruct (IH (sdrop k2 (sdrop 1 (sdrop k1 chunk)))
                    ((lo <=? r)%N && (r <=? hi)%N || matched) (S nrange))
    as (res & -> & Hres); [lia|].
  all: exists res; split; [reflexivity|].
  all: intros chunk' m Hm; specialize (Hres chunk' m Hm); lia.
Qed.

(** [matchChunk] ends within [len(chunk)] iterations. *)
Lemma matchChunkLoop_some (fuel : nat) :
  forall (chunk s : string) (failed : bool),
    String.length chunk <= fuel ->
    exists res, filepath.matchChunkLoop fuel chunk s failed = Some res.
Proof.
  induction fuel as [|fuel IH]; intros chunk s failed Hlen.
  - destruct chunk; [simpl; eauto|simpl in Hlen; lia].
  - destruct chunk as [|c chunk1]; [simpl; eauto|]. simpl in Hlen.
    cbn [filepath.matchChunkLoop]. cbv zeta.
    destruct (filepath.isByte c "[").
    { destruct (if negb (if negb failed && isEmpty s then true else failed)
                then let '(r, n) := utf8.DecodeRuneInString s in (r, sdrop n s)
                else (0%N, s)) as [r s'].
      destruct (filepath.byteAt chunk1 0 "^") eqn:Hneg.
      - destruct (classLoop_some (S (String.length (sdrop 1 chunk1)))
                    (sdrop 1 chunk1) r false 0) as (res & -> & Hres); [lia|].
        destruct res as [err|[chunk3 m]]; [eauto|].
        specialize (Hres chunk3 m eq_refl).
        pose proof (sdrop_length_le 1 chunk1). apply IH. lia.
      - destruct (classLoop_some (S (String.length chunk1)) chunk1 r false 0)
          as (res & -> & Hres); [lia|].
        destruct res as [err|[chunk3 m]]; [eauto|].
        specialize (Hres chunk3 m eq_refl). apply IH. lia. }
    destruct (filepath.isByte c "?").
    { destruct (negb (if negb failed && isEmpty s then true else failed));
        [destruct (utf8.DecodeRuneInString s)|]; apply IH; lia. }
    destruct (filepath.isByte c "\").
    { destruct chunk1 as [|d chunk2]; [eauto|]. simpl in Hlen.
      destruct (negb (if negb failed && isEmpty s then true else failed));
        apply IH; lia. }
    destruct (negb (if negb failed && isEmpty s then true else failed));
      apply IH; lia.
Qed.

Lemma skipStars_length (pattern : string) (star : bool) :
  String.length (filepath.skipStars pattern star).2 <= String.length pattern
  /\ filepath.byteAt (filepath.skipStars pattern star).2 0 "*"%char = false
  /\ (filepath.byteAt pattern 0 "*"%char = true ->
      String.length (filepath.skipStars pattern star).2 < String.length pattern).
Proof.
  revert star. induction pattern as [|c p IH]; intros star;
    [simpl; split; [lia|split; [reflexivity|discriminate]]|].
  cbn [filepath.skipStars]. unfold filepath.byteAt at 2. cbn [String.get].
  fold (filepath.isByte c "*").
  destruct (filepath.isByte c "*") eqn:Hc.
  - destruct (IH true) as (Hle & Hno & _). simpl. split; [lia|].
    split; [exact Hno|]. intros _. lia.
  - cbn [snd]. split; [lia|]. split; [exact Hc|discriminate].
Qed.

Lemma scanLoop_length (n : nat) :
  forall (inrange : bool) (pattern : string),
    String.length pattern <= n ->
    String.length (filepath.scanLoop inrange pattern).2 <= String.length pattern
    /\ (filepath.byteAt pattern 0 "*"%char = false -> isEmpty pattern = false ->
        String.length (filepath.scanLoop inrange pattern).2 < String.length pattern).
Proof.
  induction n as [|n IH]; intros inrange pattern Hlen.
  - destruct pattern; [simpl; split; [lia|discriminate]|simpl in Hlen; lia].
  - destruct pattern as [|c p]; [simpl; split; [lia|discriminate]|].
    simpl in Hlen. cbn [filepath.scanLoop].
    unfold filepath.byteAt. cbn [String.get]. fold (filepath.isByte c "*").
    destruct (filepath.isByte c "\").
    { destruct p as [|d p]; [simpl; split; [lia|intros; lia]|].
      simpl in Hlen. destruct (IH inrange p ltac:(lia)) as [Hle _].
      destruct (filepath.scanLoop inrange p) as [chunk rest]. simpl in *.
      split; [lia|intros; lia]. }
    destruct (filepath.isByte c "[").
    { destruct (IH true p ltac:(lia)) as [Hle _].
      destruct (filepath.scanLoop true p) as [chunk rest]. simpl in *.
      split; [lia|intros; lia]. }
    destruct (filepath.isByte c "]").
    { destruct (IH false p ltac:(lia)) as [Hle _].
      destruct (filepath.scanLoop false p) as [chunk rest]. simpl in *.
      split; [lia|intros; lia]. }
    destruct (filepath.isByte c "*").
    { destruct inrange; [|simpl; split; [lia|discriminate]].
      destruct (IH true p ltac:(lia)) as [Hle _].
      destruct (filepath.scanLoop true p) as [chunk rest]. simpl in *.
      split; [lia|discriminate]. }
    destruct (IH inrange p ltac:(lia)) as [Hle _].
    destruct (filepath.scanLoop inrange p) as [chunk rest]. simpl in *.
    split; [lia|intros; lia].
Qed.

(** Every chunk scanned off a non-empty pattern shortens the pattern. *)
Lemma scanChunk_length (c : ascii) (p : string) :
  String.length (filepath.scanChunk (String c p)).2 <= String.length p.
Proof.
  unfold filepath.scanChunk.
  pose proof (skipStars_length (String c p) false) as (Hle & Hno & Hlt).
  destruct (filepath.skipStars (String c p) false) as [star p'].
  cbn [snd] in *.
  pose proof (scanLoop_length (String.length p') false p' ltac:(lia))
    as (Hle2 & Hlt2).
  destruct (filepath.scanLoop false p') as [chunk rest]. cbn [snd] in *.
  simpl in Hle.
  destruct (filepath.byteAt (String c p) 0 "*") eqn:Hstar.
  - specialize (Hlt eq_refl). simpl in Hlt. lia.
  - destruct p' as [|d p'']; [simpl in *; lia|].
    specialize (Hlt2 Hno eq_refl). lia.
Qed.

(** [Match] ends within [len(pattern)] iterations: its result is the one
    of the loop. *)
Lemma matchLoop_some (fuel : nat) :
  forall pattern name : string,
    String.length pattern <= fuel ->
    exists res, filepath.matchLoop fuel pattern name = Some res.
Proof.
  induction fuel as [|fuel IH]; intros pattern name Hlen.
  - destruct pattern; [simpl; eauto|simpl in Hlen; lia].
  - destruct pattern as [|c p]; [simpl; eauto|]. simpl in Hlen.
    cbn [filepath.matchLoop].
    pose proof (scanChunk_length c p) as Hrest.
    destruct (filepath.scanChunk (String c p)) as [[star chunk] rest].
    cbn [snd] in Hrest.
    destruct (star && isEmpty chunk); [eauto|].
    destruct (filepath.matchChunk chunk name) as [[t ok] e].
    destruct (ok && (isEmpty t || negb (isEmpty rest))); [apply IH; lia|].
    destruct e as [e|]; [eauto|].
    destruct star; [|eauto].
    destruct (filepath.starLoop chunk (isEmpty rest) name); eauto.
    apply IH. lia.
Qed.

Lemma Match_total (pattern name : string) :
  filepath.matchLoop (String.length pattern) pattern name
  = Some (filepath.Match pattern name).
Proof.
  unfold filepath.Match.
  destruct (matchLoop_some (String.length pattern) pattern name (le_n _))
    as (res & ->). reflexivity.
Qed.

Lemma matchChunk_total (chunk s : string) :
  filepath.matchChunkLoop (String.length chunk) chunk s false
  = Some (filepath.matchChunk chunk s).
Proof.
  unfold filepath.matchChunk.
  destruct (matchChunkLoop_some (String.length chunk) chunk s false (le_n _))
    as (res & ->). reflexivity.
Qed.

Lemma sdrop_get (r : nat) (s : string) :
  r < String.length s ->
  exists c rest, sdrop r s = String c rest /\ String.get r s = Some c.
Proof.
  revert s. induction r as [|r IH]; intros s Hr.
  - destruct s as [|c s]; [simpl in Hr; lia|]. exists c, s. auto.
  - destruct s as [|c s]; [simpl in Hr; lia|]. simpl in Hr.
    destruct (IH s ltac:(lia)) as (d & rest & H1 & H2). exists d, rest. auto.
Qed.



(** The loop of [Rel] ends within [len(base) - bi + 1] iterations. *)
Lemma relLoop_some (fuel : nat) (base targ : string) :
  forall b0 bi t0 ti : nat,
    String.length base - bi < fuel ->
    exists res, filepath.relLoop fuel base targ b0 bi t0 ti = Some res.
Proof.
  induction fuel as [|fuel IH]; intros b0 bi t0 ti Hfuel; [lia|].
  cbn [filepath.relLoop].
  destruct ((bi <? String.length base)%nat && (ti <? String.length targ)%nat) eqn:E;
    [|simpl; eauto].
  apply andb_true_iff in E as [E _]. apply Nat.ltb_lt in E. cbn [negb].
  destruct (negb (String.eqb _ _)); [eauto|].
  apply IH. unfold filepath.skipElem.
  destruct (_ <? String.length base)%nat eqn:E2; [lia|].
  apply Nat.ltb_ge in E2. lia.
Qed.


(** The loop of [Rel] always ends within its bound: [Rel] fails only by
    its two explicit checks. *)
Lemma relLoop_total (base targ : string) :
  exists res,
    filepath.relLoop (S (String.length base)) base targ 0 0 0 0 = Some res.
Proof. apply relLoop_some. lia. Qed.

Lemma sdrop_length (k : nat) (s : string) :
  String.length (sdrop k s) = String.length s - k.
Proof.
  revert s. induction k as [|k IH]; intros s; [simpl; lia|].
  destruct s as [|c s]; simpl; [reflexivity|apply IH].
Qed.

Lemma stake_length (k : nat) (s : string) :
  String.length (stake k s) = Nat.min k (String.length s).
Proof.
  revert s. induction k as [|k IH]; intros s; [reflexivity|].
  destruct s as [|c s]; simpl; [reflexivity|]. rewrite IH. reflexivity.
Qed.

(** More iterations than the string has bytes change nothing in the left
    trim: the count [len(s)] used by [TrimLeftSpace] is enough. *)
Lemma trimLeftSpace_fuel (n : nat) :
  forall (m : nat) (s : string),
    String.length s <= n -> String.length s <= m ->
    strings.trimLeftSpace n s = strings.trimLeftSpace m s.
Proof.
  induction n as [|n IH]; intros m s Hn Hm.
  - destruct s; [destruct m; reflexivity|simpl in Hn; lia].
  - destruct s as [|c s]; [destruct m; reflexivity|].
    destruct m as [|m]; [simpl in Hm; lia|].
    cbn [strings.trimLeftSpace].
    pose proof (DecodeRuneInString_width c s) as Hw.
    destruct (utf8.DecodeRuneInString (String c s)) as [r w]. cbn [snd] in Hw.
    destruct (unicode.IsSpace r); [|reflexivity].
    pose proof (sdrop_length w (String c s)) as Hl. simpl in Hl, Hn, Hm.
    apply IH; lia.
Qed.

(** The backwards scan for the start of the last rune stops within
    [start - lim + 1] iterations. *)
Lemma lastStart_fuel (s : string) (lim : Z) (n : nat) :
  forall start : Z,
    (start - lim < Z.of_nat n)%Z ->
    utf8.lastStart s lim n start = utf8.lastStart s lim (S n) start.
Proof.
  induction n as [|n IH]; intros start Hn.
  - simpl. destruct (start <? lim)%Z eqn:E; [reflexivity|].
    apply Z.ltb_ge in E. lia.
  - change (utf8.lastStart s lim (S (S n)) start) with
      (if (start <? lim)%Z then start
       else match String.get (Z.to_nat start) s with
            | Some c => if utf8.RuneStart (byte_val c) then start
                        else utf8.lastStart s lim (S n) (start - 1)%Z
            | None => start
            end).
    cbn [utf8.lastStart].
    destruct (start <? lim)%Z; [reflexivity|].
    destruct (String.get _ s) as [c|]; [|reflexivity].
    destruct (utf8.RuneStart _); [reflexivity|]. apply IH. lia.
Qed.

Lemma lastStart_le (s : string) (lim : Z) (n : nat) :
  forall start : Z, (utf8.lastStart s lim n start <= start)%Z.
Proof.
  induction n as [|n IH]; intros start; simpl; [lia|].
  destruct (start <? lim)%Z; [lia|].
  destruct (String.get _ s) as [c|]; [|lia].
  destruct (utf8.RuneStart _); [lia|]. specialize (IH (start - 1)%Z). lia.
Qed.

(** The last rune of a non-empty string is at least one byte wide. *)
Lemma DecodeLastRuneInString_width (s : string) :
  1 <= String.length s -> 1 <= (utf8.DecodeLastRuneInString s).2.
Proof.
  intros Hlen. unfold utf8.DecodeLastRuneInString.
  destruct (Z.of_nat (String.length s) =? 0)%Z eqn:E;
    [apply Z.eqb_eq in E; lia|].
  destruct (sdrop_get (String.length s - 1) s ltac:(lia)) as (c & rest & Hd & Hg).
  replace (Z.to_nat (Z.of_nat (String.length s) - 1)) with (String.length s - 1)
    by lia.
  rewrite Hg. destruct (byte_val c <? utf8.RuneSelf)%N; [simpl; lia|].
  set (start := Z.max (utf8.lastStart s _ _ _) 0).
  assert (Hstart : (0 <= start <= Z.of_nat (String.length s) - 1)%Z).
  { subst start.
    pose proof (lastStart_le s (Z.max (Z.of_nat (String.length s)
                                       - Z.of_nat utf8.UTFMax) 0)
                  utf8.UTFMax (Z.of_nat (String.length s) - 1 - 1)%Z). lia. }
  destruct (sdrop_get (Z.to_nat start) s ltac:(lia)) as (d & rest' & -> & _).
  pose proof (DecodeRuneInString_width d rest') as Hw.
  destruct (utf8.DecodeRuneInString (String d rest')) as [r' size].
  cbn [snd] in Hw. destruct (negb _); simpl; lia.
Qed.

(** More iterations than the index change nothing in the right trim: the
    count [len(s)] used by [TrimRightSpace] is enough. *)
Lemma lastIndexNotSpace_fuel (n : nat) (s : string) :
  forall m i : nat,
    i <= String.length s -> i <= n -> i <= m ->
    strings.lastIndexNotSpace n s i = strings.lastIndexNotSpace m s i.
Proof.
  induction n as [|n IH]; intros m i Hi Hn Hm.
  - destruct i; [destruct m; reflexivity|lia].
  - destruct i as [|i]; [destruct m; reflexivity|].
    destruct m as [|m]; [lia|].
    cbn [strings.lastIndexNotSpace].
    pose proof (DecodeLastRuneInString_width (stake (S i) s)) as Hw.
    rewrite stake_length in Hw. specialize (Hw ltac:(lia)).
    destruct (utf8.DecodeLastRuneInString (stake (S i) s)) as [r size].
    cbn [snd] in Hw.
    destruct (unicode.IsSpace r); [|reflexivity]. apply IH; lia.
Qed.

(** ** Unterminated bracket expressions *)

Lemma high_not_special (c d : ascii) :
  (128 <=? byte_val c)%N = true -> (byte_val d <? 128)%N = true ->
  filepath.isByte c d = false.
Proof.
  intros Hc Hd. unfold filepath.isByte.
  destruct (Ascii.eqb c d) eqn:E; [|reflexivity].
  apply Ascii.eqb_eq in E as ->.
  apply N.leb_le in Hc. apply N.ltb_lt in Hd. lia.
Qed.

Lemma bracketOpen_high (c : ascii) (s : string) (inrange : bool) :
  (128 <=? byte_val c)%N = true ->
  bracketOpen inrange (String c s) = bracketOpen inrange s.
Proof.
  intros Hc. cbn [bracketOpen].
  rewrite !(high_not_special c _ Hc) by reflexivity. reflexivity.
Qed.

Lemma bracketOpen_highBytes (k : nat) :
  forall (s : string) (inrange : bool),
    highBytes k s = true ->
    bracketOpen inrange (sdrop k s) = bracketOpen inrange s.
Proof.
  induction k as [|k IH]; intros s inrange H; [reflexivity|].
  destruct s as [|c s]; [discriminate|]. simpl in H.
  apply andb_true_iff in H as [Hc Hs].
  rewrite bracketOpen_high by exact Hc. simpl. apply IH, Hs.
Qed.

Lemma firstInfo_cont (b : N) (sz : nat) (lo hi : N) :
  utf8.firstInfo b = Some (sz, (lo, hi)) ->
  (128 <= lo)%N /\ (128 <= b)%N.
Proof.
  unfold utf8.firstInfo, utf8.inRange.
  repeat match goal with
         | |- context [if ?b then _ else _] => destruct b eqn:?
         end; intros [= <- <- <-]; split; try lia.
  all: repeat match goal with
         | H : (_ && _) = true |- _ => apply andb_true_iff in H as [? ?]
         | H : (_ <=? _)%N = true |- _ => apply N.leb_le in H
         | H : (_ =? _)%N = true |- _ => apply N.eqb_eq in H
         end; lia.
Qed.

(** A rune wider than one byte is a non-ASCII byte followed by non-ASCII
    bytes. *)
Lemma DecodeRuneInString_bytes (c : ascii) (t : string) :
  let n := (utf8.DecodeRuneInString (String c t)).2 in
  n = 1 \/ ((128 <=? byte_val c)%N = true /\ highBytes (n - 1) t = true).
Proof.
  unfold utf8.DecodeRuneInString.
  destruct (byte_val c <? utf8.RuneSelf)%N; [left; reflexivity|].
  destruct (utf8.firstInfo (byte_val c)) as [[sz [lo hi]]|] eqn:Hfirst;
    [|left; reflexivity].
  apply firstInfo_cont in Hfirst as [Hlo Hc].
  apply N.leb_le in Hc.
  destruct (String.length (String c t) <? sz)%nat; [left; reflexivity|].
  destruct t as [|c1 t1]; [left; reflexivity|].
  destruct (utf8.inRange lo hi (byte_val c1)) eqn:H1; [|left; reflexivity].
  assert (Hc1 : (128 <=? byte_val c1)%N = true).
  { unfold utf8.inRange in H1. apply andb_true_iff in H1 as [H1 _].
    apply N.leb_le in H1. apply N.leb_le. lia. }
  cbn [negb].
  destruct (sz <=? 2)%nat.
  { right. split; [exact Hc|]. simpl. rewrite Hc1. reflexivity. }
  destruct t1 as [|c2 t2]; [left; reflexivity|].
  destruct (utf8.isCont (byte_val c2)) eqn:H2; [|left; reflexivity].
  assert (Hc2 : (128 <=? byte_val c2)%N = true).
  { unfold utf8.isCont, utf8.inRange in H2. apply andb_true_iff in H2 as [H2 _].
    exact H2. }
  cbn [negb].
  destruct (sz <=? 3)%nat.
  { right. split; [exact Hc|]. simpl. rewrite Hc1, Hc2. reflexivity. }
  destruct t2 as [|c3 t3]; [left; reflexivity|].
  destruct (utf8.isCont (byte_val c3)) eqn:H3; [|left; reflexivity].
  assert (Hc3 : (128 <=? byte_val c3)%N = true).
  { unfold utf8.isCont, utf8.inRange in H3. apply andb_true_iff in H3 as [H3 _].
    exact H3. }
  right. split; [exact Hc|]. simpl. rewrite Hc1, Hc2, Hc3. reflexivity.
Qed.

(** Dropping the first rune of a string that starts inside a character
    class, with a byte that is neither ']' nor '\', leaves the class open
    as before. *)
Lemma bracketOpen_rune (c : ascii) (t : string) :
  filepath.isByte c "]"%char = false ->
  filepath.isByte c "\"%char = false ->
  bracketOpen true (sdrop (utf8.DecodeRuneInString (String c t)).2 (String c t))
  = bracketOpen true (String c t).
Proof.
  intros Hclose Hesc.
  destruct (DecodeRuneInString_bytes c t) as [-> | [Hc Hhigh]].
  - cbn [sdrop bracketOpen]. rewrite Hclose, Hesc.
    destruct (filepath.isByte c "["); reflexivity.
  - pose proof (DecodeRuneInString_width c t) as Hw.
    destruct ((utf8.DecodeRuneInString (String c t)).2) as [|n]; [lia|].
    cbn [sdrop]. replace (S n - 1) with n in Hhigh by lia.
    rewrite bracketOpen_highBytes by exact Hhigh.
    rewrite bracketOpen_high by exact Hc. reflexivity.
Qed.

(** The rune after a '\' is skipped whole. *)
Lemma bracketOpen_escaped_rune (d : ascii) (t : string) (inrange : bool) :
  bracketOpen inrange
    (sdrop (utf8.DecodeRuneInString (String d t)).2 (String d t))
  = bracketOpen inrange t.
Proof.
  destruct (DecodeRuneInString_bytes d t) as [-> | [Hc Hhigh]];
    [reflexivity|].
  pose proof (DecodeRuneInString_width d t) as Hw.
  destruct ((utf8.DecodeRuneInString (String d t)).2) as [|n]; [lia|].
  cbn [sdrop]. replace (S n - 1) with n in Hhigh by lia.
  apply bracketOpen_highBytes, Hhigh.
Qed.

(** A successful [getEsc] inside a character class leaves it open as
    before. *)
Lemma getEsc_bracketOpen (chunk : string) (r : N) (nchunk : string) :
  filepath.getEsc chunk = (r, nchunk, None) ->
  bracketOpen true nchunk = bracketOpen true chunk.
Proof.
  unfold filepath.getEsc. destruct chunk as [|c rest]; [congruence|].
  destruct (filepath.isByte c "-" || filepath.isByte c "]") eqn:Hfirst;
    [congruence|].
  apply orb_false_iff in Hfirst as [_ Hclose].
  destruct (filepath.isByte c "\") eqn:Hesc.
  - destruct rest as [|d rest]; [simpl; congruence|].
    cbn [isEmpty].
    pose proof (bracketOpen_escaped_rune d rest true) as Hb.
    destruct (utf8.DecodeRuneInString (String d rest)) as [r' n].
    cbn [snd] in Hb.
    destruct (isEmpty (sdrop n (String d rest))); [congruence|].
    destruct ((r' =? utf8.RuneError)%N && (n =? 1)%nat); [congruence|].
    intros [= _ <-]. rewrite Hb. cbn [bracketOpen]. rewrite Hesc. reflexivity.
  - cbn [isEmpty].
    pose proof (bracketOpen_rune c rest Hclose Hesc) as Hb.
    destruct (utf8.DecodeRuneInString (String c rest)) as [r' n].
    cbn [snd] in Hb.
    destruct (isEmpty (sdrop n (String c rest))); [congruence|].
    destruct ((r' =? utf8.RuneError)%N && (n =? 1)%nat); [congruence|].
    intros [= _ <-]. exact Hb.
Qed.

Lemma bracketOpen_plain (c : ascii) (s : string) (inrange : bool) :
  filepath.isByte c "\"%char = false ->
  filepath.isByte c "["%char = false ->
  filepath.isByte c "]"%char = false ->
  bracketOpen inrange (String c s) = bracketOpen inrange s.
Proof. intros H1 H2 H3. cbn [bracketOpen]. rewrite H1, H2, H3. reflexivity. Qed.

Lemma bracketOpen_sdrop1 (s : string) (c : ascii) (inrange : bool) :
  filepath.byteAt s 0 c = true ->
  filepath.isByte c "\"%char = false ->
  filepath.isByte c "["%char = false ->
  filepath.isByte c "]"%char = false ->
  bracketOpen inrange (sdrop 1 s) = bracketOpen inrange s.
Proof.
  destruct s as [|d s]; [discriminate|]. simpl.
  intros Hd. apply Ascii.eqb_eq in Hd as ->. intros H1 H2 H3.
  fold (filepath.isByte c "\"). fold (filepath.isByte c "[").
  fold (filepath.isByte c "]"). rewrite H1, H2, H3. reflexivity.
Qed.

(** When the class loop finds the closing bracket of a class, the bracket
    that stays open at the end of the chunk lies after it. *)
Lemma classLoop_bracketOpen (fuel : nat) :
  forall (chunk : string) (r : N) (matched : bool) (nrange : nat)
    (chunk' : string) (m : bool),
    bracketOpen true chunk = true ->
    filepath.classLoop fuel chunk r matched nrange = Some (inr (chunk', m)) ->
    bracketOpen false chunk' = true.
Proof.
  induction fuel as [|fuel IH]; intros chunk r matched nrange chunk' m Hopen;
    [discriminate|].
  cbn [filepath.classLoop].
  destruct (filepath.byteAt chunk 0 "]" && (0 <? nrange)%nat) eqn:Hclose.
  - intros [= <- _]. apply andb_true_iff in Hclose as [Hclose _].
    destruct chunk as [|c chunk]; [discriminate|].
    simpl in Hclose. apply Ascii.eqb_eq in Hclose as ->. exact Hopen.
  - destruct (filepath.getEsc chunk) as [[lo chunk1] [err|]] eqn:E1;
      [discriminate|].
    pose proof (getEsc_bracketOpen _ _ _ E1) as H1.
    destruct (filepath.byteAt chunk1 0 "-") eqn:Hdash.
    + destruct (filepath.getEsc (sdrop 1 chunk1)) as [[hi chunk2] [err|]] eqn:E2;
        [discriminate|].
      pose proof (getEsc_bracketOpen _ _ _ E2) as H2.
      rewrite (bracketOpen_sdrop1 chunk1 "-" true Hdash) in H2 by reflexivity.
      apply IH. congruence.
    + apply IH. congruence.
Qed.

(** A chunk in which a bracket expression stays open is never matched. *)
Lemma matchChunkLoop_bracketOpen (fuel : nat) :
  forall (chunk s : string) (failed : bool) (rest : string) (ok : bool)
    (err : option error),
    bracketOpen false chunk = true ->
    filepath.matchChunkLoop fuel chunk s failed = Some (rest, ok, err) ->
    ok = false.
Proof.
  induction fuel as [|fuel IH]; intros chunk s failed rest ok err Hopen.
  - destruct chunk; [discriminate Hopen|discriminate].
  - destruct chunk as [|c chunk1]; [discriminate Hopen|].
    cbn [filepath.matchChunkLoop]. cbv zeta.
    cbn [bracketOpen] in Hopen.
    destruct (filepath.isByte c "[") eqn:Hc1.
    { assert (Hopen1 : bracketOpen true chunk1 = true).
      { destruct (filepath.isByte c "\") eqn:Hc0; [|exact Hopen].
        apply Ascii.eqb_eq in Hc1 as ->. discriminate. }
      destruct (if negb (if negb failed && isEmpty s then true else failed)
                then let '(r, n) := utf8.DecodeRuneInString s in (r, sdrop n s)
                else (0%N, s)) as [r s'].
      destruct (filepath.byteAt chunk1 0 "^") eqn:Hneg.
      - destruct (filepath.classLoop _ (sdrop 1 chunk1) r false 0)
          as [[e|[chunk3 m]]|] eqn:Hclass; [congruence| |discriminate].
        apply IH.
        apply (classLoop_bracketOpen _ _ _ _ _ _ _ ltac:(
          rewrite (bracketOpen_sdrop1 chunk1 "^" true Hneg) by reflexivity;
          exact Hopen1) Hclass).
      - destruct (filepath.classLoop _ chunk1 r false 0)
          as [[e|[chunk3 m]]|] eqn:Hclass; [congruence| |discriminate].
        apply IH. exact (classLoop_bracketOpen _ _ _ _ _ _ _ Hopen1 Hclass). }
    destruct (filepath.isByte c "?") eqn:Hc2.
    { assert (Hopen1 : bracketOpen false chunk1 = true).
      { apply Ascii.eqb_eq in Hc2 as ->. exact Hopen. }
      destruct (negb (if negb failed && isEmpty s then true else failed));
        [destruct (utf8.DecodeRuneInString s)|]; apply IH; exact Hopen1. }
    destruct (filepath.isByte c "\") eqn:Hc0.
    { destruct chunk1 as [|d chunk2]; [congruence|].
      destruct (negb (if negb failed && isEmpty s then true else failed));
        apply IH; exact Hopen. }
    assert (Hopen1 : bracketOpen false chunk1 = true).
    { destruct (filepath.isByte c "]"); exact Hopen. }
    destruct (negb (if negb failed && isEmpty s then true else failed));
      apply IH; exact Hopen1.
Qed.

Lemma matchChunk_bracketOpen (chunk s : string) :
  bracketOpen false chunk = true ->
  (filepath.matchChunk chunk s).1.2 = false.
Proof.
  intros Hopen. unfold filepath.matchChunk.
  destruct (filepath.matchChunkLoop _ chunk s false) as [[[rest ok] err]|] eqn:E;
    [|reflexivity].
  simpl. exact (matchChunkLoop_bracketOpen _ _ _ _ _ _ _ Hopen E).
Qed.

Lemma starLoop_bracketOpen (chunk : string) (lastChunk : bool) (name : string) :
  bracketOpen false chunk = true ->
  forall t, filepath.starLoop chunk lastChunk name <> filepath.StarFound t.
Proof.
  intros Hopen t. induction name as [|c name IH]; simpl; [discriminate|].
  destruct (filepath.isSep c); [discriminate|].
  pose proof (matchChunk_bracketOpen chunk name Hopen) as Hno.
  destruct (filepath.matchChunk chunk name) as [[t' ok] e]. simpl in Hno.
  subst ok. destruct e; [discriminate|exact IH].
Qed.

Lemma skipStars_bracketOpen (pattern : string) (star : bool) :
  bracketOpen false (filepath.skipStars pattern star).2
  = bracketOpen false pattern.
Proof.
  revert star. induction pattern as [|c p IH]; intros star; [reflexivity|].
  cbn [filepath.skipStars].
  destruct (filepath.isByte c "*") eqn:Hc; [|reflexivity].
  rewrite IH. apply Ascii.eqb_eq in Hc as ->. reflexivity.
Qed.

(** Where the scan of a chunk stops: at the end of the pattern, the chunk
    being the whole pattern, or at a star outside brackets. *)
Lemma scanLoop_bracketOpen (n : nat) :
  forall (inrange : bool) (pattern : string),
    String.length pattern <= n ->
    let '(chunk, rest) := filepath.scanLoop inrange pattern in
    (rest = EmptyString /\ chunk = pattern)
    \/ (rest <> EmptyString
        /\ bracketOpen false rest = bracketOpen inrange pattern).
Proof.
  induction n as [|n IH]; intros inrange pattern Hlen.
  - destruct pattern; [simpl; auto|simpl in Hlen; lia].
  - destruct pattern as [|c p]; [simpl; auto|]. simpl in Hlen.
    cbn [filepath.scanLoop bracketOpen].
    destruct (filepath.isByte c "\").
    { destruct p as [|d p]; [auto|]. simpl in Hlen.
      specialize (IH inrange p ltac:(lia)).
      destruct (filepath.scanLoop inrange p) as [chunk rest].
      destruct IH as [[-> ->]|[Hne Hb]]; [left|right]; auto. }
    destruct (filepath.isByte c "[").
    { specialize (IH true p ltac:(lia)).
      destruct (filepath.scanLoop true p) as [chunk rest].
      destruct IH as [[-> ->]|[Hne Hb]]; [left|right]; auto. }
    destruct (filepath.isByte c "]").
    { specialize (IH false p ltac:(lia)).
      destruct (filepath.scanLoop false p) as [chunk rest].
      destruct IH as [[-> ->]|[Hne Hb]]; [left|right]; auto. }
    destruct (filepath.isByte c "*") eqn:Hstar.
    { destruct inrange.
      - specialize (IH true p ltac:(lia)).
        destruct (filepath.scanLoop true p) as [chunk rest].
        destruct IH as [[-> ->]|[Hne Hb]]; [left|right]; auto.
      - right. split; [discriminate|].
        apply Ascii.eqb_eq in Hstar as ->. reflexivity. }
    specialize (IH inrange p ltac:(lia)).
    destruct (filepath.scanLoop inrange p) as [chunk rest].
    destruct IH as [[-> ->]|[Hne Hb]]; [left|right]; auto.
Qed.

Lemma scanLoop_empty_chunk (inrange : bool) (pattern rest : string) :
  filepath.scanLoop inrange pattern = (EmptyString, rest) ->
  pattern = EmptyString \/ filepath.byteAt pattern 0 "*"%char = true.
Proof.
  destruct pattern as [|c p]; [auto|]. cbn [filepath.scanLoop].
  destruct (filepath.isByte c "\").
  { destruct p; [discriminate|].
    destruct (filepath.scanLoop inrange p); discriminate. }
  destruct (filepath.isByte c "[");
    [destruct (filepath.scanLoop true p); discriminate|].
  destruct (filepath.isByte c "]");
    [destruct (filepath.scanLoop false p); discriminate|].
  destruct (filepath.isByte c "*") eqn:Hstar.
  { intros _. right. exact Hstar. }
  destruct (filepath.scanLoop inrange p); discriminate.
Qed.

(** [Match] never reports a match for a pattern in which a bracket
    expression stays open. *)
Lemma matchLoop_bracketOpen (fuel : nat) :
  forall (pattern name : string) (matched : bool) (err : option error),
    bracketOpen false pattern = true ->
    filepath.matchLoop fuel pattern name = Some (matched, err) ->
    matched = false.
Proof.
  induction fuel as [|fuel IH]; intros pattern name matched err Hopen.
  - destruct pattern; [discriminate Hopen|discriminate].
  - destruct pattern as [|c p]; [discriminate Hopen|].
    cbn [filepath.matchLoop]. unfold filepath.scanChunk.
    pose proof (skipStars_bracketOpen (String c p) false) as Hskip.
    pose proof (skipStars_length (String c p) false) as (_ & Hnostar & _).
    destruct (filepath.skipStars (String c p) false) as [star p'].
    cbn [snd] in Hskip, Hnostar. rewrite Hopen in Hskip.
    pose proof (scanLoop_bracketOpen (String.length p') false p' (le_n _))
      as Hscan.
    destruct (filepath.scanLoop false p') as [chunk rest] eqn:Escan.
    assert (Hchunk : isEmpty chunk = false).
    { destruct chunk; [|reflexivity].
      destruct (scanLoop_empty_chunk _ _ _ Escan) as [-> | Hs];
        [discriminate Hskip|congruence]. }
    rewrite Hchunk, andb_false_r.
    destruct Hscan as [[-> ->] | [Hne Hrest]].
    + pose proof (matchChunk_bracketOpen p' name Hskip) as Hno.
      pose proof (starLoop_bracketOpen p' true name Hskip) as Hstarloop.
      destruct (filepath.matchChunk p' name) as [[t ok] e]. simpl in Hno.
      subst ok. cbn [andb isEmpty].
      destruct e as [e|]; [congruence|].
      destruct star; [|congruence].
      destruct (filepath.starLoop p' true name) as [t'| |];
        [destruct (Hstarloop t' eq_refl)|congruence..].
    + rewrite Hskip in Hrest.
      destruct (filepath.matchChunk chunk name) as [[t ok] e].
      destruct (ok && (isEmpty t || negb (isEmpty rest)));
        [apply IH; exact Hrest|].
      destruct e as [e|]; [congruence|].
      destruct star; [|congruence].
      destruct (filepath.starLoop chunk (isEmpty rest) name);
        [apply IH; exact Hrest|congruence..].
Qed.

Lemma Match_unterminated (pattern name : string) :
  unterminated pattern -> (filepath.Match pattern name).1 = false.
Proof.
  intros Hopen. unfold filepath.Match.
  destruct (filepath.matchLoop _ pattern name) as [[m e]|] eqn:E; [|reflexivity].
  simpl. exact (matchLoop_bracketOpen _ _ _ _ _ Hopen E).
Qed.

(** A simple sufficient condition: the pattern has a '[' and neither ']'
    nor '\'. *)
Lemma bracketOpen_no_close (pattern : string) (inrange : bool) :
  strings.ContainsByte pattern "]"%char = false ->
  strings.ContainsByte pattern "\"%char = false ->
  bracketOpen inrange pattern
  = inrange || strings.ContainsByte pattern "["%char.
Proof.
  revert inrange. induction pattern as [|c p IH]; intros inrange Hclose Hesc.
  - simpl. rewrite orb_false_r. reflexivity.
  - simpl in Hclose, Hesc.
    apply orb_false_iff in Hclose as [Hc1 Hclose].
    apply orb_false_iff in Hesc as [Hc2 Hesc].
    cbn [bracketOpen strings.ContainsByte]. unfold filepath.isByte.
    rewrite Hc1, Hc2.
    destruct (Ascii.eqb c "["); rewrite IH by assumption;
      [rewrite orb_true_r|]; reflexivity.
Qed.

Lemma unterminated_no_close (pattern : string) :
  strings.ContainsByte pattern "["%char = true ->
  strings.ContainsByte pattern "]"%char = false ->
  strings.ContainsByte pattern "\"%char = false ->
  unterminated pattern.
Proof.
  intros Hopen Hclose Hesc. unfold unterminated.
  rewrite bracketOpen_no_close by assumption. exact Hopen.
Qed.

(** A rule none of whose match attempts succeeds does not match. *)
Lemma matchSuffixes_false (pattern : string) (parts : list string) :
  (forall name, (filepath.Match pattern name).1 = false) ->
  matchSuffixes pattern parts = false.
Proof.
  intros H. induction parts as [|p parts IH]; [reflexivity|].
  change (matchSuffixes pattern (p :: parts)) with
    (let '(matched, _) := filepath.Match pattern (strings.Join (p :: parts) "/") in
     if matched then true else matchSuffixes pattern parts).
  specialize (H (strings.Join (p :: parts) "/")).
  destruct (filepath.Match pattern _) as [m e]. simpl in H. subst m. exact IH.
Qed.

Lemma ruleMatches_false (pattern relPath : string) :
  (forall name, (filepath.Match pattern name).1 = false) ->
  ruleMatches pattern relPath = false.
Proof.
  intros H. unfold ruleMatches. pose proof (H relPath) as H0.
  destruct (filepath.Match pattern relPath) as [m e]. simpl in H0. subst m.
  simpl. apply matchSuffixes_false, H.
Qed.

Lemma ruleMatches_attemptsFail (pattern relPath : string) :
  attemptsFail pattern relPath -> ruleMatches pattern relPath = false.
Proof.
  intros Hfail. apply not_true_is_false. intros Hm.
  apply ruleMatches_true in Hm as (j & Hj & Hm).
  destruct (Hfail j Hj) as (err & Herr).
  destruct (filepath.Match pattern _) as [m e] eqn:E. simpl in Hm, Herr.
  subst m e. pose proof (Match_error_false _ _ _ _ E). discriminate.
Qed.

(** ** Absolute and relative paths *)


Lemma byteAt_app_false (s t : string) (c : ascii) :
  isEmpty s = false ->
  filepath.byteAt s 0 c = false -> filepath.byteAt (s +:+ t) 0 c = false.
Proof. destruct s; [discriminate|intros _; exact id]. Qed.









(** ** The claims *)

(** C1. For the rules parsed from the lines "*.log" and "!important.log",
    in that order, [ShouldIgnore] answers false (do not ignore) for the path
    that is important.log relative to the root and true (ignore) for
    other.log.  In general the rules are scanned from the last declared to
    the first and the first one that matches decides: if it is a negation
    rule the answer is false at once, and if it is a plain rule the answer
    is true. *)
Theorem C1_negation_overrides (fs : FileSystem) (root path : string)
    (src : Source) (filePath relPath : string) :
  Open fs path = inr src ->
  lines src = ["*.log"; "!important.log"] ->
  filepath.Rel root filePath = (relPath, None) ->
  let g := (ParseGitIgnore fs (NewGitIgnoreParser root) path).1 in
  (relPath = "important.log" -> ShouldIgnore fs g filePath = false)
  /\ (relPath = "other.log" -> ShouldIgnore fs g filePath = true)
  /\ (forall (g' : GitIgnoreParser) (earlier later : list GitIgnoreRule)
        (rule : GitIgnoreRule),
        rootDir g' = root ->
        rules g' = earlier ++ rule :: later ->
        Forall (fun r => ruleMatches (Pattern r) relPath = false) later ->
        ruleMatches (Pattern rule) relPath = true ->
        (IsNegation rule = true -> ShouldIgnore fs g' filePath = false)
        /\ (IsNegation rule = false -> IsDirectory rule = false ->
            ShouldIgnore fs g' filePath = true)).
Proof.
  intros HOpen Hlines HRel g.
  assert (Hg : rules g = [plainRule "*.log";
                          {| Pattern := "important.log"; IsNegation := true;
                             IsDirectory := false |}]).
  { subst g. unfold ParseGitIgnore. rewrite HOpen, Hlines. reflexivity. }
  assert (Hroot : rootDir g = root).
  { subst g.
    destruct (ParseGitIgnore_fields fs (NewGitIgnoreParser root) path)
      as (_ & _ & ->). reflexivity. }
  split; [|split].
  - intros ->. rewrite (ShouldIgnore_rel fs g filePath "important.log")
      by (rewrite Hroot; exact HRel).
    rewrite Hg. reflexivity.
  - intros ->. rewrite (ShouldIgnore_rel fs g filePath "other.log")
      by (rewrite Hroot; exact HRel).
    rewrite Hg. reflexivity.
  - intros g' earlier later rule Hroot' Hrules Hlater Hrule.
    rewrite (ShouldIgnore_rel fs g' filePath relPath)
      by (rewrite Hroot'; exact HRel).
    rewrite Hrules, decide_at_rule by assumption.
    split.
    + intros ->. reflexivity.
    + intros -> ->. reflexivity.
Qed.

Lemma C1_negation_overrides_witness :
  ShouldIgnore (repoFS ["*.log"; "!important.log"])
               (repoParser ["*.log"; "!important.log"])
               "/repo/important.log" = false
  /\ ShouldIgnore (repoFS ["*.log"; "!important.log"])
                  (repoParser ["*.log"; "!important.log"])
                  "/repo/other.log" = true.
Proof.
  split.
  - apply (C1_negation_overrides (repoFS ["*.log"; "!important.log"]) "/repo"
             "/repo/.gitignore" {| lines := ["*.log"; "!important.log"];
                                   scanErr := None |}
             "/repo/important.log" "important.log");
      vm_compute; reflexivity.
  - apply (C1_negation_overrides (repoFS ["*.log"; "!important.log"]) "/repo"
             "/repo/.gitignore" {| lines := ["*.log"; "!important.log"];
                                   scanErr := None |}
             "/repo/other.log" "other.log");
      vm_compute; reflexivity.
Defined.

(** C2. The pattern of a rule is tried not only on the whole relative path
    but on every suffix obtained by dropping leading slash-separated
    segments one at a time (this holds for every pattern, so for those
    without a slash): when the scan reaches a plain rule whose pattern
    matches one of these suffixes, the answer is true.  With the single rule
    "test_*" the nested path src/sub/test_file.go is ignored. *)
Theorem C2_suffixes_any_depth (fs : FileSystem) (g : GitIgnoreParser)
    (filePath relPath : string) :
  filepath.Rel (rootDir g) filePath = (relPath, None) ->
  let parts := strings.SplitByte relPath "/" in
  (forall (pattern : string) (earlier later : list GitIgnoreRule) (j : nat),
      rules g = earlier ++ plainRule pattern :: later ->
      Forall (fun r => ruleMatches (Pattern r) relPath = false) later ->
      j < length parts ->
      (filepath.Match pattern (strings.Join (drop j parts) "/")).1 = true ->
      ShouldIgnore fs g filePath = true)
  /\ (forall pattern : string,
        ruleMatches pattern relPath = true <->
        exists j, j < length parts
          /\ (filepath.Match pattern (strings.Join (drop j parts) "/")).1 = true)
  /\ (rules g = concat (map lineRules ["test_*"]) ->
      relPath = "src/sub/test_file.go" ->
      ShouldIgnore fs g filePath = true).
Proof.
  intros HRel parts. rewrite (ShouldIgnore_rel fs g filePath relPath HRel).
  split; [|split].
  - intros pattern earlier later j Hrules Hlater Hj Hm.
    rewrite Hrules, decide_at_rule; [reflexivity|exact Hlater|].
    apply ruleMatches_true. exists j. split; assumption.
  - intros pattern. apply ruleMatches_true.
  - intros -> ->. reflexivity.
Qed.

Lemma C2_suffixes_any_depth_witness :
  filepath.Rel "/repo" "/repo/src/sub/test_file.go" = ("src/sub/test_file.go", None)
  /\ strings.Join (drop 2 (strings.SplitByte "src/sub/test_file.go" "/")) "/"
     = "test_file.go"
  /\ filepath.Match "test_*" "test_file.go" = (true, None)
  /\ filepath.Match "test_*" "src/sub/test_file.go" = (false, None)
  /\ isDirectory (repoFS ["test_*"]) "/repo/src/sub/test_file.go" = false
  /\ ShouldIgnore (repoFS ["test_*"]) (repoParser ["test_*"])
                  "/repo/src/sub/test_file.go" = true.
Proof.
  repeat (split; [vm_compute; reflexivity|]).
  refine (proj1 (C2_suffixes_any_depth (repoFS ["test_*"]) (repoParser ["test_*"])
                   "/repo/src/sub/test_file.go" "src/sub/test_file.go" _)
                "test_*" [] [] 2 _ _ _ _).
  - vm_compute. reflexivity.
  - vm_compute. reflexivity.
  - constructor.
  - vm_compute. lia.
  - vm_compute. reflexivity.
Defined.

(** C3, as stated, for every rule parsed from a line ending in "/": when the
    candidate is not a directory the rule would be skipped and the answer
    would be the one of the earlier rules.  It fails for the rules "notes"
    then "!notes/" on the regular file notes: the last rule is a negation
    rule, it matches, and the answer is false although the earlier rule
    says true. *)
Lemma C3_counterexample :
  ~ (forall (fs : FileSystem) (g : GitIgnoreParser) (filePath relPath : string)
       (earlier : list GitIgnoreRule) (p : string),
       filepath.Rel (rootDir g) filePath = (relPath, None) ->
       rules g = earlier ++ [ruleOfLine (p +:+ "/")] ->
       isDirectory fs filePath = false ->
       ShouldIgnore fs g filePath = ShouldIgnore fs (withRules g earlier) filePath).
Proof.
  intros H.
  specialize (H (repoFS ["notes"; "!notes/"]) (repoParser ["notes"; "!notes/"])
                "/repo/notes" "notes" [plainRule "notes"] "!notes").
  vm_compute in H. specialize (H eq_refl eq_refl eq_refl). discriminate H.
Qed.

(** C3 (amended). For a rule parsed from a line that ends in "/" and does
    not start with "!", a match counts only when the candidate is a
    directory: when [os.Stat] fails or reports something else, the rule is
    skipped and the scan continues toward the earlier rules; when the
    candidate is a directory and the rule matches, the answer is true.  With
    the single rule "build/", a regular file named build is kept and a
    directory named build is ignored. *)
Theorem C3_directory_only_rule (fs : FileSystem) (g : GitIgnoreParser)
    (filePath relPath : string) (earlier later : list GitIgnoreRule)
    (p : string) :
  filepath.Rel (rootDir g) filePath = (relPath, None) ->
  strings.HasPrefix (p +:+ "/") "!" = false ->
  rules g = earlier ++ ruleOfLine (p +:+ "/") :: later ->
  Forall (fun r => ruleMatches (Pattern r) relPath = false) later ->
  ruleOfLine (p +:+ "/") =
    {| Pattern := p; IsNegation := false; IsDirectory := true |}
  /\ (isDirectory fs filePath = false ->
      ShouldIgnore fs g filePath = ShouldIgnore fs (withRules g earlier) filePath)
  /\ (isDirectory fs filePath = true -> ruleMatches p relPath = true ->
      ShouldIgnore fs g filePath = true)
  /\ (p = "build" -> relPath = "build" -> earlier = [] -> later = [] ->
      ShouldIgnore fs g filePath = isDirectory fs filePath).
Proof.
  intros HRel Hneg Hrules Hlater.
  assert (Hrule : ruleOfLine (p +:+ "/") =
                  {| Pattern := p; IsNegation := false; IsDirectory := true |}).
  { rewrite ruleOfLine_cases. cbv zeta. rewrite Hneg.
    change (p +:+ "/") with (p +:+ String "/"%char "").
    rewrite HasSuffix_snoc, dropLast_snoc. reflexivity. }
  rewrite Hrule in Hrules.
  rewrite (ShouldIgnore_rel fs g filePath relPath HRel).
  rewrite (ShouldIgnore_rel fs (withRules g earlier) filePath relPath HRel).
  rewrite Hrules. cbn [withRules rules].
  split; [exact Hrule|]. split; [|split].
  - intros Hdir.
    change (earlier ++ {| Pattern := p; IsNegation := false; IsDirectory := true |}
                    :: later)
      with (earlier ++ [{| Pattern := p; IsNegation := false; IsDirectory := true |}]
                    ++ later).
    rewrite app_assoc, rev_app_distr.
    rewrite decideRev_skip by (apply Forall_rev; exact Hlater).
    rewrite rev_unit. simpl. rewrite Hdir.
    destruct (ruleMatches p relPath); reflexivity.
  - intros Hdir Hm. rewrite decide_at_rule by assumption.
    simpl. rewrite Hdir. reflexivity.
  - intros -> -> -> ->. simpl.
    replace (ruleMatches "build" "build") with true by (vm_compute; reflexivity).
    destruct (isDirectory fs filePath); reflexivity.
Qed.

Lemma C3_directory_only_rule_witness :
  isDirectory (repoFS ["build/"]) "/repo/build" = true
  /\ isDirectory (repoFS ["notes/"]) "/repo/notes" = false
  /\ ShouldIgnore (repoFS ["build/"]) (repoParser ["build/"]) "/repo/build" = true
  /\ ShouldIgnore (repoFS ["notes"; "notes/"]) (repoParser ["notes"; "notes/"])
                  "/repo/notes"
     = ShouldIgnore (repoFS ["notes"; "notes/"])
                    (withRules (repoParser ["notes"; "notes/"]) [plainRule "notes"])
                    "/repo/notes".
Proof.
  split; [vm_compute; reflexivity|]. split; [vm_compute; reflexivity|]. split.
  - pose proof (C3_directory_only_rule (repoFS ["build/"]) (repoParser ["build/"])
                  "/repo/build" "build" [] [] "build") as H.
    assert (H1 : filepath.Rel (rootDir (repoParser ["build/"])) "/repo/build"
                 = ("build", None)) by (vm_compute; reflexivity).
    assert (H2 : strings.HasPrefix ("build" +:+ "/") "!" = false)
      by (vm_compute; reflexivity).
    assert (H3 : rules (repoParser ["build/"])
                 = [] ++ ruleOfLine ("build" +:+ "/") :: [])
      by (vm_compute; reflexivity).
    destruct (H H1 H2 H3 ltac:(constructor)) as (_ & _ & Hdir & _).
    apply Hdir; vm_compute; reflexivity.
  - pose proof (C3_directory_only_rule (repoFS ["notes"; "notes/"])
                  (repoParser ["notes"; "notes/"])
                  "/repo/notes" "notes" [plainRule "notes"] [] "notes") as H.
    assert (H1 : filepath.Rel (rootDir (repoParser ["notes"; "notes/"]))
                   "/repo/notes" = ("notes", None)) by (vm_compute; reflexivity).
    assert (H2 : strings.HasPrefix ("notes" +:+ "/") "!" = false)
      by (vm_compute; reflexivity).
    assert (H3 : rules (repoParser ["notes"; "notes/"])
                 = [plainRule "notes"] ++ ruleOfLine ("notes" +:+ "/") :: [])
      by (vm_compute; reflexivity).
    destruct (H H1 H2 H3 ltac:(constructor)) as (_ & Hskip & _).
    apply Hskip. vm_compute. reflexivity.
Defined.

Example directory_only_examples :
  ShouldIgnore (repoFS ["build/"]) (repoParser ["build/"]) "/repo/build" = true
  /\ ShouldIgnore (repoFS ["notes/"]) (repoParser ["notes/"]) "/repo/notes" = false
  /\ ShouldIgnore (repoFS ["missing/"]) (repoParser ["missing/"]) "/repo/missing"
     = false.
Proof. vm_compute. auto. Qed.

Example outside_the_root :
  outsideRoot "/repo" "/elsewhere/x.log" = true
  /\ outsideRoot "/repo" "/repo/src/../../elsewhere/x.log" = true
  /\ outsideRoot "/repo" "/repo/src/x.log" = false
  /\ outsideRoot "/repo" "/repo" = false
  /\ filepath.Rel "/repo" "/elsewhere/x.log" = ("../elsewhere/x.log", None).
Proof. vm_compute. auto. Qed.




(** C5. How [ParseGitIgnore] classifies a line of its source, [line] being
    the text with surrounding white space trimmed: an empty [line], or one
    that starts with '#', produces no rule; any other line produces exactly
    one rule (and records [line] as a pattern).  If [line] starts with '!'
    the rule is a negation rule and the '!' is removed; if what remains ends
    with '/' the rule is a directory-only rule and that '/' is removed;
    otherwise the pattern is [line] verbatim.  The rules of a source are
    appended to the parser in the order of its lines.  A text that neither
    starts nor ends with white space (or a non-ASCII byte) is its own
    [line]. *)
Theorem C5_line_classification (g : GitIgnoreParser) (text : string) :
  let line := strings.TrimSpace text in
  ((line = "" \/ strings.HasPrefix line "#" = true) ->
   parseLine g text = g /\ lineRules text = [])
  /\ (line <> "" -> strings.HasPrefix line "#" = false ->
      exists rule : GitIgnoreRule,
        lineRules text = [rule]
        /\ rules (parseLine g text) = rules g ++ [rule]
        /\ patterns (parseLine g text) = patterns g ++ [line]
        /\ (forall rest : string, line = "!" +:+ rest ->
            IsNegation rule = true
            /\ (forall p : string, rest = p +:+ "/" ->
                IsDirectory rule = true /\ Pattern rule = p)
            /\ (strings.HasSuffix rest "/" = false ->
                IsDirectory rule = false /\ Pattern rule = rest))
        /\ (strings.HasPrefix line "!" = false ->
            IsNegation rule = false
            /\ (forall p : string, line = p +:+ "/" ->
                IsDirectory rule = true /\ Pattern rule = p)
            /\ (strings.HasSuffix line "/" = false ->
                IsDirectory rule = false /\ Pattern rule = line)))
  /\ (forall (fs : FileSystem) (path : string) (src : Source),
        Open fs path = inr src ->
        rules (ParseGitIgnore fs g path).1 =
        rules g ++ concat (map lineRules (lines src)))
  /\ (plainEnds text = true -> line = text).
Proof.
  intros line. split; [|split; [|split; [|apply TrimSpace_plainEnds]]].
  - intros Hskip. unfold parseLine, lineRules. fold line.
    destruct Hskip as [-> | ->]; [|rewrite orb_true_r]; auto.
  - intros Hne Hcomment.
    assert (Hcond : String.eqb line "" || strings.HasPrefix line "#" = false).
    { rewrite Hcomment, orb_false_r. apply String.eqb_neq. exact Hne. }
    exists (ruleOfLine line).
    unfold parseLine, lineRules. fold line. rewrite Hcond. simpl.
    split; [reflexivity|]. split; [reflexivity|]. split; [reflexivity|].
    rewrite ruleOfLine_cases. cbv zeta. cbn [Pattern IsNegation IsDirectory].
    split.
    + intros rest Hline.
      rewrite (proj2 (HasPrefix_byte line "!")) by (exists rest; exact Hline).
      rewrite Hline. change (sdrop 1 ("!" +:+ rest)) with rest.
      split; [reflexivity|]. split.
      * intros p ->. change (p +:+ "/") with (p +:+ String "/"%char "").
        rewrite HasSuffix_snoc, dropLast_snoc. auto.
      * intros ->. auto.
    + intros ->. split; [reflexivity|]. split.
      * intros p ->. change (p +:+ "/") with (p +:+ String "/"%char "").
        rewrite HasSuffix_snoc, dropLast_snoc. auto.
      * intros ->. auto.
  - intros fs path src HOpen.
    destruct (ParseGitIgnore_fields fs g path) as (-> & _ & _).
    unfold sourceRules. rewrite HOpen. reflexivity.
Qed.

Lemma C5_line_classification_witness :
  lineRules "" = [] /\ lineRules "   	" = [] /\ lineRules "  # build/" = []
  /\ lineRules " !build/ " =
     [{| Pattern := "build"; IsNegation := true; IsDirectory := true |}]
  /\ lineRules "!important.log" =
     [{| Pattern := "important.log"; IsNegation := true; IsDirectory := false |}]
  /\ lineRules "node_modules/" =
     [{| Pattern := "node_modules"; IsNegation := false; IsDirectory := true |}]
  /\ lineRules " *.log" = [plainRule "*.log"].
Proof.
  pose (g := NewGitIgnoreParser "/repo").
  split; [|split; [|split; [|split; [|split; [|split]]]]].
  - apply (proj1 (C5_line_classification g "")). left. reflexivity.
  - apply (proj1 (C5_line_classification g "   	")). left. reflexivity.
  - apply (proj1 (C5_line_classification g "  # build/")). right. reflexivity.
  - destruct (proj1 (proj2 (C5_line_classification g " !build/ ")))
      as (rule & -> & _ & _ & Hneg & _); [discriminate|reflexivity|].
    destruct (Hneg "build/" eq_refl) as (Hn & Hd & _).
    destruct (Hd "build" eq_refl) as (Hd1 & Hp).
    destruct rule; simpl in *; subst; reflexivity.
  - destruct (proj1 (proj2 (C5_line_classification g "!important.log")))
      as (rule & -> & _ & _ & Hneg & _); [discriminate|reflexivity|].
    destruct (Hneg "important.log" eq_refl) as (Hn & _ & Hd).
    destruct (Hd eq_refl) as (Hd1 & Hp).
    destruct rule; simpl in *; subst; reflexivity.
  - destruct (proj1 (proj2 (C5_line_classification g "node_modules/")))
      as (rule & -> & _ & _ & _ & Hpos); [discriminate|reflexivity|].
    destruct (Hpos eq_refl) as (Hn & Hd & _).
    destruct (Hd "node_modules" eq_refl) as (Hd1 & Hp).
    destruct rule; simpl in *; subst; reflexivity.
  - destruct (proj1 (proj2 (C5_line_classification g " *.log")))
      as (rule & -> & _ & _ & _ & Hpos); [discriminate|reflexivity|].
    destruct (Hpos eq_refl) as (Hn & _ & Hd).
    destruct (Hd eq_refl) as (Hd1 & Hp).
    destruct rule; unfold plainRule; simpl in *; subst; reflexivity.
Defined.

(** C6. [ParseGitIgnore] on a source that cannot be opened returns the error
    and leaves the parser exactly as it was: the rules and patterns
    accumulated before stay in effect. *)
Theorem C6_missing_source (fs : FileSystem) (g : GitIgnoreParser)
    (path : string) (err : error) :
  Open fs path = inl err ->
  ParseGitIgnore fs g path = (g, Some err)
  /\ rules (ParseGitIgnore fs g path).1 = rules g
  /\ patterns (ParseGitIgnore fs g path).1 = patterns g
  /\ (forall filePath,
        ShouldIgnore fs (ParseGitIgnore fs g path).1 filePath =
        ShouldIgnore fs g filePath).
Proof.
  intros HOpen. unfold ParseGitIgnore. rewrite HOpen. simpl. auto.
Qed.

Lemma C6_missing_source_witness :
  Open (repoFS ["*.log"]) "/non/existent/file"
    = inl (ErrPath "open" "/non/existent/file")
  /\ ParseGitIgnore (repoFS ["*.log"]) (repoParser ["*.log"]) "/non/existent/file"
     = (repoParser ["*.log"], Some (ErrPath "open" "/non/existent/file")).
Proof.
  split; [vm_compute; reflexivity|].
  apply (proj1 (C6_missing_source (repoFS ["*.log"]) (repoParser ["*.log"])
                  "/non/existent/file" (ErrPath "open" "/non/existent/file")
                  ltac:(vm_compute; reflexivity))).
Defined.

(** A rule that does not match the candidate can be removed without
    changing the answer. *)
Lemma ShouldIgnore_delete_rule (fs : FileSystem) (g : GitIgnoreParser)
    (filePath : string) (earlier later : list GitIgnoreRule)
    (bad : GitIgnoreRule) :
  rules g = earlier ++ bad :: later ->
  (forall relPath, filepath.Rel (rootDir g) filePath = (relPath, None) ->
     ruleMatches (Pattern bad) relPath = false) ->
  ShouldIgnore fs g filePath =
  ShouldIgnore fs (withRules g (earlier ++ later)) filePath.
Proof.
  intros Hrules Hbad.
  destruct (filepath.Rel (rootDir g) filePath) as [relPath [err|]] eqn:HRel.
  - rewrite (ShouldIgnore_rel_error fs g filePath relPath err HRel).
    rewrite (ShouldIgnore_rel_error fs (withRules g (earlier ++ later))
               filePath relPath err HRel). reflexivity.
  - rewrite (ShouldIgnore_rel fs g filePath relPath HRel).
    rewrite (ShouldIgnore_rel fs (withRules g (earlier ++ later))
               filePath relPath HRel).
    cbn [withRules rules]. rewrite Hrules, !rev_app_distr. simpl.
    rewrite <- app_assoc. simpl. apply decideRev_delete, Hbad. reflexivity.
Qed.

(** Any rule whose match attempts for the candidate are all rejected as bad
    patterns is passed over in silence. *)
Lemma bad_pattern_rule_is_skipped (fs : FileSystem) (g : GitIgnoreParser)
    (filePath : string) (earlier later : list GitIgnoreRule)
    (bad : GitIgnoreRule) :
  rules g = earlier ++ bad :: later ->
  (forall relPath, filepath.Rel (rootDir g) filePath = (relPath, None) ->
     attemptsFail (Pattern bad) relPath) ->
  ShouldIgnore fs g filePath =
  ShouldIgnore fs (withRules g (earlier ++ later)) filePath.
Proof.
  intros Hrules Hfail. apply (ShouldIgnore_delete_rule fs g filePath _ _ _ Hrules).
  intros relPath HRel. apply ruleMatches_attemptsFail, Hfail, HRel.
Qed.

(** C7. A rule whose pattern has an unterminated bracket expression fails
    every match attempt silently: [filepath.Match] answers "no match" for
    every name (with ErrBadPattern or without, and [ShouldIgnore] drops the
    error), so the rule matches no candidate path and the other rules decide
    exactly as if the bad rule were not there.  [ShouldIgnore] is a total
    function: it raises nothing. *)
Theorem C7_malformed_rule_is_skipped (fs : FileSystem) (g : GitIgnoreParser)
    (filePath : string) (earlier later : list GitIgnoreRule)
    (bad : GitIgnoreRule) :
  rules g = earlier ++ bad :: later ->
  unterminated (Pattern bad) ->
  (forall name : string, (filepath.Match (Pattern bad) name).1 = false)
  /\ (forall relPath : string, ruleMatches (Pattern bad) relPath = false)
  /\ ShouldIgnore fs g filePath =
     ShouldIgnore fs (withRules g (earlier ++ later)) filePath
  /\ (forall (pattern name : string) (matched : bool) (err : error),
        filepath.Match pattern name = (matched, Some err) -> matched = false).
Proof.
  intros Hrules Hbad.
  assert (HMatch : forall name, (filepath.Match (Pattern bad) name).1 = false).
  { intros name. apply Match_unterminated, Hbad. }
  assert (Hrule : forall relPath, ruleMatches (Pattern bad) relPath = false).
  { intros relPath. apply ruleMatches_false, HMatch. }
  split; [exact HMatch|]. split; [exact Hrule|].
  split; [|exact Match_error_false].
  apply (ShouldIgnore_delete_rule fs g filePath _ _ _ Hrules).
  intros relPath _. apply Hrule.
Qed.

Lemma C7_malformed_rule_is_skipped_witness :
  filepath.Match "[a-c]*.[ch" "main.c" = (false, None)
  /\ filepath.Match "[a-c]*.[ch" "a.c" = (false, Some ErrBadPattern)
  /\ ShouldIgnore (repoFS malformedLines) (repoParser malformedLines)
                  "/repo/other.log"
     = ShouldIgnore (repoFS malformedLines)
         (withRules (repoParser malformedLines)
            ([plainRule "*.log"]
             ++ [{| Pattern := "important.log"; IsNegation := true;
                    IsDirectory := false |}]))
         "/repo/other.log"
  /\ ShouldIgnore (repoFS malformedLines) (repoParser malformedLines)
                  "/repo/other.log" = true.
Proof.
  split; [vm_compute; reflexivity|]. split; [vm_compute; reflexivity|].
  split; [|vm_compute; reflexivity].
  assert (Hbad : unterminated (Pattern (plainRule "[a-c]*.[ch")))
    by reflexivity.
  assert (Hrules : rules (repoParser malformedLines) =
                   [plainRule "*.log"] ++ plainRule "[a-c]*.[ch"
                   :: [{| Pattern := "important.log"; IsNegation := true;
                          IsDirectory := false |}])
    by (vm_compute; reflexivity).
  exact (proj1 (proj2 (proj2
    (C7_malformed_rule_is_skipped (repoFS malformedLines)
       (repoParser malformedLines) "/repo/other.log" _ _ _ Hrules Hbad)))).
Defined.

Example malformed_patterns :
  unterminated "[" /\ unterminated "foo[abc" /\ unterminated "*.[ch"
  /\ unterminated "[a]*[b" /\ unterminated "\[[" /\ unterminated "[a\]"
  /\ ~ unterminated "\[" /\ ~ unterminated "[a]" /\ ~ unterminated "*.log"
  /\ filepath.Match "[" "a" = (false, Some ErrBadPattern)
  /\ filepath.Match "foo[abc" "fooa" = (false, Some ErrBadPattern)
  /\ filepath.Match "a*[x" "b" = (false, None)
  /\ filepath.Match "[a]*[b" "c" = (false, None)
  /\ filepath.Match "[a]*[b" "ab" = (false, Some ErrBadPattern)
  /\ filepath.Match "\[" "[" = (true, None).
Proof. unfold unterminated. vm_compute. repeat split; (reflexivity || discriminate). Qed.


Example parsing_not_idempotent :
  let fs := repoFS ["*.log"; "# comment"; "build/"] in
  let g1 := (ParseGitIgnore fs (NewGitIgnoreParser "/repo") "/repo/.gitignore").1 in
  let g2 := (ParseGitIgnore fs g1 "/repo/.gitignore").1 in
  length (rules g1) = 2 /\ length (rules g2) = 4
  /\ length (patterns g1) = 2 /\ length (patterns g2) = 4.
Proof. vm_compute. auto. Qed.

(** C9. If no rule matches the candidate path, and in particular when the
    rule set is empty, [ShouldIgnore] answers false (default keep). *)
Theorem C9_default_keep (fs : FileSystem) (g : GitIgnoreParser)
    (filePath : string) :
  (rules g = [] -> ShouldIgnore fs g filePath = false)
  /\ ((forall relPath, filepath.Rel (rootDir g) filePath = (relPath, None) ->
         Forall (fun r => ruleMatches (Pattern r) relPath = false) (rules g)) ->
      ShouldIgnore fs g filePath = false).
Proof.
  assert (H : (forall relPath,
                 filepath.Rel (rootDir g) filePath = (relPath, None) ->
                 Forall (fun r => ruleMatches (Pattern r) relPath = false) (rules g)) ->
              ShouldIgnore fs g filePath = false).
  { intros Hno.
    destruct (filepath.Rel (rootDir g) filePath) as [relPath [err|]] eqn:HRel.
    - exact (ShouldIgnore_rel_error fs g filePath relPath err HRel).
    - rewrite (ShouldIgnore_rel fs g filePath relPath HRel).
      apply decide_no_match, Hno. reflexivity. }
  split; [|exact H].
  intros Hnil. apply H. intros relPath _. rewrite Hnil. constructor.
Qed.

Lemma C9_default_keep_witness :
  ShouldIgnore (repoFS []) (repoParser []) "/repo/other.log" = false
  /\ ShouldIgnore (repoFS ["*.log"; "build/"]) (repoParser ["*.log"; "build/"])
                  "/repo/notes" = false.
Proof.
  split.
  - apply (proj1 (C9_default_keep (repoFS []) (repoParser []) "/repo/other.log")).
    vm_compute. reflexivity.
  - apply (proj2 (C9_default_keep (repoFS ["*.log"; "build/"])
                    (repoParser ["*.log"; "build/"]) "/repo/notes")).
    intros relPath HRel. vm_compute in HRel.
    injection HRel as <-. repeat constructor.
Defined.

(** C10. For a rule that is both a negation rule and a directory-only rule
    (parsed from a line "!name/") the directory condition is never
    consulted: when the scan examines such a rule and it matches, the answer
    is false at once, whatever the file system says about the candidate. *)
Theorem C10_negated_directory_rule (fs : FileSystem) (g : GitIgnoreParser)
    (filePath relPath name : string) (i : nat) :
  filepath.Rel (rootDir g) filePath = (relPath, None) ->
  rules g !! i = Some (ruleOfLine ("!" +:+ name +:+ "/")) ->
  ruleMatches name relPath = true ->
  scanRules fs (rules g) filePath relPath (S i) = false
  /\ (Forall (fun r => ruleMatches (Pattern r) relPath = false)
             (drop (S i) (rules g)) ->
      ShouldIgnore fs g filePath = false).
Proof.
  intros HRel Hi Hm. rewrite ruleOfLine_negated_directory in Hi. split.
  - simpl. rewrite Hi. simpl. rewrite Hm. reflexivity.
  - intros Hlater. rewrite (ShouldIgnore_rel fs g filePath relPath HRel).
    rewrite <- (take_drop_middle (rules g) i _ Hi).
    rewrite decide_at_rule; [reflexivity|exact Hlater|exact Hm].
Qed.

Lemma C10_negated_directory_rule_witness :
  isDirectory (repoFS ["notes"; "!notes/"]) "/repo/notes" = false
  /\ ShouldIgnore (repoFS ["notes"]) (repoParser ["notes"]) "/repo/notes" = true
  /\ ShouldIgnore (repoFS ["notes"; "!notes/"]) (repoParser ["notes"; "!notes/"])
                  "/repo/notes" = false.
Proof.
  split; [vm_compute; reflexivity|]. split; [vm_compute; reflexivity|].
  refine (proj2 (C10_negated_directory_rule (repoFS ["notes"; "!notes/"])
                   (repoParser ["notes"; "!notes/"]) "/repo/notes" "notes"
                   "notes" 1 _ _ _) _).
  - vm_compute. reflexivity.
  - vm_compute. reflexivity.
  - vm_compute. reflexivity.
  - constructor.
Defined.

(** * The walk over the ignore files and the file filter *)

Example Base_Dir_Ext_Join_known_answers :
  forallb (fun t => String.eqb (filepath.Base t.1) t.2) baseTests = true
  /\ forallb (fun t => String.eqb (filepath.Dir t.1) t.2) dirTests = true
  /\ forallb (fun t => String.eqb (filepath.Ext t.1) t.2) extTests = true
  /\ forallb (fun t => String.eqb (filepath.Join t.1) t.2) joinTests = true.
Proof. repeat split; vm_compute; reflexivity. Qed.

(** ** Rules and lines *)

Lemma append_empty_r (s : string) : s +:+ "" = s.
Proof.
  induction s as [|c s IH]; [reflexivity|].
  change (String c (s +:+ "") = String c s). rewrite IH. reflexivity.
Qed.

(** X1: a rule keeps all of its line: the negation mark, the pattern and the
    directory mark of the rule [ruleOfLine line] spell [line] again. *)
Theorem X1_rule_spells_its_line (line : string) :
  lineOfRule (ruleOfLine line) = line.
Proof.
  rewrite ruleOfLine_cases. unfold lineOfRule. cbn [IsNegation Pattern IsDirectory].
  destruct (strings.HasPrefix line "!") eqn:Hneg.
  - apply HasPrefix_byte in Hneg as [rest ->]. cbn [sdrop].
    destruct (strings.HasSuffix rest "/") eqn:Hdir.
    + apply HasSuffix_byte in Hdir as [p ->]. now rewrite dropLast_snoc.
    + rewrite append_empty_r. reflexivity.
  - destruct (strings.HasSuffix line "/") eqn:Hdir.
    + apply HasSuffix_byte in Hdir as [p ->]. now rewrite dropLast_snoc.
    + apply append_empty_r.
Qed.

(** ** The parser holds one rule per pattern line *)

Lemma lineRules_linePatterns (text : string) :
  lineRules text = map ruleOfLine (linePatterns text).
Proof.
  unfold lineRules, linePatterns.
  destruct (String.eqb (strings.TrimSpace text) "" ||
            strings.HasPrefix (strings.TrimSpace text) "#"); reflexivity.
Qed.

Lemma sourceRules_sourcePatterns (fs : FileSystem) (path : string) :
  sourceRules fs path = map ruleOfLine (sourcePatterns fs path).
Proof.
  unfold sourceRules, sourcePatterns. destruct (Open fs path) as [err|src];
    [reflexivity|].
  induction (lines src) as [|l ls IH]; [reflexivity|].
  cbn [map concat]. rewrite map_app, IH, lineRules_linePatterns. reflexivity.
Qed.

Lemma concat_sourceRules (fs : FileSystem) (paths : list string) :
  concat (map (sourceRules fs) paths)
  = map ruleOfLine (concat (map (sourcePatterns fs) paths)).
Proof.
  induction paths as [|p ps IH]; [reflexivity|].
  cbn [map concat]. rewrite map_app, IH, sourceRules_sourcePatterns. reflexivity.
Qed.

Lemma ParseGitIgnore_inStep (fs : FileSystem) (g : GitIgnoreParser) (path : string) :
  inStep g -> inStep (ParseGitIgnore fs g path).1.
Proof.
  unfold inStep. intros Hg.
  destruct (ParseGitIgnore_fields fs g path) as (Hr & Hp & _).
  rewrite Hr, Hp, map_app, Hg, sourceRules_sourcePatterns. reflexivity.
Qed.

Section Walk.
Variable fs : FileSystem.

(** What one call of the walk function adds to the parser. *)
Lemma walkFn_fields (g : GitIgnoreParser) (entry : WalkEntry) :
  rules (walkFn fs g entry).1
    = rules g ++ concat (map (sourceRules fs) (ignoreFiles [entry]))
  /\ patterns (walkFn fs g entry).1
    = patterns g ++ concat (map (sourcePatterns fs) (ignoreFiles [entry]))
  /\ rootDir (walkFn fs g entry).1 = rootDir g.
Proof.
  destruct entry as [path [err|info]]; cbn [walkFn ignoreFiles].
  - cbn. rewrite !app_nil_r. auto.
  - destruct (negb (IsDir info) && String.eqb (filepath.Base path) ".gitignore").
    + cbn [map concat]. rewrite !app_nil_r. apply ParseGitIgnore_fields.
    + cbn. rewrite !app_nil_r. auto.
Qed.

Lemma ignoreFiles_app (l1 l2 : list WalkEntry) :
  ignoreFiles (l1 ++ l2) = ignoreFiles l1 ++ ignoreFiles l2.
Proof.
  induction l1 as [|[path [err|info]] l1 IH]; cbn [ignoreFiles app];
    [reflexivity|exact IH|].
  destruct (negb (IsDir info) && String.eqb (filepath.Base path) ".gitignore");
    [cbn [app]; f_equal|]; exact IH.
Qed.

Lemma ignoreFiles_cons (entry : WalkEntry) (l : list WalkEntry) :
  ignoreFiles (entry :: l) = ignoreFiles [entry] ++ ignoreFiles l.
Proof. exact (ignoreFiles_app [entry] l). Qed.

(** The walk function reports no error exactly at an entry that was visited
    and, when it is an ignore file, was read to its end. *)
Lemma walkFn_ok (g : GitIgnoreParser) (entry : WalkEntry) :
  (walkFn fs g entry).2 = None <->
  visited entry /\ Forall (readable fs) (ignoreFiles [entry]).
Proof.
  destruct entry as [path [err|info]]; cbn [walkFn ignoreFiles].
  - cbn. split; [discriminate|]. intros [[info Hi] _]. discriminate.
  - destruct (negb (IsDir info) && String.eqb (filepath.Base path) ".gitignore").
    + unfold ParseGitIgnore, readable. split.
      * intros H. split; [eexists; reflexivity|]. constructor; [|constructor].
        destruct (Open fs path) as [err|src]; [discriminate|].
        exists src. cbn in H. auto.
      * intros [_ H]. inversion H as [|? ? [src [Ho He]] _]; subst.
        rewrite Ho. exact He.
    + cbn. split; [|reflexivity]. intros _. split; [eexists; reflexivity|constructor].
Qed.

(** The walk stops at the first error: the entries used are a prefix. *)
Lemma walkLoop_prefix (entries : list WalkEntry) :
  forall g : GitIgnoreParser,
  exists k : nat,
    k <= length entries
    /\ rules (walkLoop fs entries g).1
       = rules g ++ concat (map (sourceRules fs) (ignoreFiles (take k entries)))
    /\ patterns (walkLoop fs entries g).1
       = patterns g ++ concat (map (sourcePatterns fs) (ignoreFiles (take k entries)))
    /\ rootDir (walkLoop fs entries g).1 = rootDir g
    /\ ((walkLoop fs entries g).2 = None -> k = length entries).
Proof.
  induction entries as [|entry rest IH]; intros g.
  - exists 0. cbn. rewrite !app_nil_r. auto.
  - cbn [walkLoop].
    destruct (walkFn_fields g entry) as (Hr & Hp & Hd).
    destruct (walkFn fs g entry) as [g' [err|]] eqn:Hfn; cbn [fst snd] in *.
    + exists 1. cbn [take length]. rewrite take_0. repeat split; try assumption.
      * lia.
      * discriminate.
    + destruct (IH g') as (k & Hk & Hr' & Hp' & Hd' & Hn).
      exists (S k). cbn [take length].
      rewrite (ignoreFiles_cons entry (take k rest)), !map_app, !concat_app, !app_assoc.
      rewrite <- Hr, <- Hp. repeat split; try assumption; try congruence.
      * lia.
      * intros H. rewrite (Hn H). reflexivity.
Qed.

Lemma walkLoop_ok (entries : list WalkEntry) :
  forall g : GitIgnoreParser,
    (walkLoop fs entries g).2 = None <->
    Forall visited entries /\ Forall (readable fs) (ignoreFiles entries).
Proof.
  induction entries as [|entry rest IH]; intros g.
  - cbn. split; [intros _; split; constructor|reflexivity].
  - cbn [walkLoop]. rewrite (ignoreFiles_cons entry rest), Forall_app, Forall_cons.
    pose proof (walkFn_ok g entry) as Hfn.
    destruct (walkFn fs g entry) as [g' [err|]]; cbn [fst snd] in *.
    + split; [discriminate|]. intros [[Hv _] [Hr _]].
      destruct Hfn as [_ Hfn]. specialize (Hfn (conj Hv Hr)). discriminate.
    + rewrite IH. destruct Hfn as [Hfn _]. specialize (Hfn eq_refl). tauto.
Qed.


End Walk.

(** X2: a fresh parser holds one rule for each pattern line, in order, the
    rule being the parse of the line; reading a source and walking the tree
    keep it so, whether they fail or not. *)
Theorem X2_rules_follow_patterns (fs : FileSystem)
    (Walked : string -> list WalkEntry) (root path : string)
    (g : GitIgnoreParser) :
  inStep (NewGitIgnoreParser root)
  /\ (inStep g -> inStep (ParseGitIgnore fs g path).1)
  /\ (inStep g -> inStep (ParseAllGitIgnores fs Walked g).1).
Proof.
  split; [reflexivity|]. split; [apply ParseGitIgnore_inStep|].
  unfold inStep, ParseAllGitIgnores. intros Hg.
  destruct (walkLoop_prefix fs (Walked (rootDir g)) g) as (k & _ & Hr & Hp & _).
  rewrite Hr, Hp, map_app, Hg, concat_sourceRules. reflexivity.
Qed.

Lemma X2_rules_follow_patterns_witness :
  inStep (ParseGitIgnore treeFS (NewGitIgnoreParser "/repo") "/repo/.gitignore").1
  /\ inStep (ParseAllGitIgnores treeFS treeWalk (NewGitIgnoreParser "/repo")).1.
Proof.
  pose proof (X2_rules_follow_patterns treeFS treeWalk "/repo" "/repo/.gitignore"
                (NewGitIgnoreParser "/repo")) as (H0 & H1 & H2).
  split; [exact (H1 H0)|exact (H2 H0)].
Defined.

(** X3: [ParseAllGitIgnores] returns no error exactly when the walk reports
    no error and every regular file named [.gitignore] it visits is opened
    and read to its end; the parser then holds its former rules followed by
    the rules of these files in the order of the walk. *)
Theorem X3_walk_collects_every_ignore_file (fs : FileSystem)
    (Walked : string -> list WalkEntry) (g : GitIgnoreParser) :
  let entries := Walked (rootDir g) in
  let r := ParseAllGitIgnores fs Walked g in
  (r.2 = None <->
   Forall visited entries /\ Forall (readable fs) (ignoreFiles entries))
  /\ (r.2 = None ->
      rules r.1 = rules g ++ concat (map (sourceRules fs) (ignoreFiles entries))
      /\ patterns r.1
         = patterns g ++ concat (map (sourcePatterns fs) (ignoreFiles entries))
      /\ rootDir r.1 = rootDir g).
Proof.
  cbv zeta. unfold ParseAllGitIgnores. split; [apply walkLoop_ok|].
  intros Hok.
  destruct (walkLoop_prefix fs (Walked (rootDir g)) g) as (k & _ & Hr & Hp & Hd & Hk).
  rewrite (Hk Hok), firstn_all in Hr, Hp. auto.
Qed.

Lemma X3_walk_collects_every_ignore_file_witness :
  (ParseAllGitIgnores treeFS treeWalk (NewGitIgnoreParser "/repo")).2 = None
  /\ rules (ParseAllGitIgnores treeFS treeWalk (NewGitIgnoreParser "/repo")).1
     = [plainRule "*.log";
        {| Pattern := "build"; IsNegation := false; IsDirectory := true |};
        plainRule "*.tmp";
        {| Pattern := "keep.tmp"; IsNegation := true; IsDirectory := false |}].
Proof.
  pose proof (X3_walk_collects_every_ignore_file treeFS treeWalk
                (NewGitIgnoreParser "/repo")) as [_ H].
  assert (Hok : (ParseAllGitIgnores treeFS treeWalk (NewGitIgnoreParser "/repo")).2
                = None) by (vm_compute; reflexivity).
  destruct (H Hok) as (Hr & _). split; [exact Hok|].
  rewrite Hr. vm_compute. reflexivity.
Defined.

(** X4: whatever happens during the walk, no rule is lost: the parser
    returned holds its former rules followed by the rules of the ignore
    files among the first [k] entries of the walk, for some [k]; the root
    directory is unchanged. *)
Theorem X4_walk_only_appends (fs : FileSystem)
    (Walked : string -> list WalkEntry) (g : GitIgnoreParser) :
  let entries := Walked (rootDir g) in
  let r := ParseAllGitIgnores fs Walked g in
  exists k : nat,
    k <= length entries
    /\ rules r.1
       = rules g ++ concat (map (sourceRules fs) (ignoreFiles (take k entries)))
    /\ patterns r.1
       = patterns g ++ concat (map (sourcePatterns fs) (ignoreFiles (take k entries)))
    /\ rootDir r.1 = rootDir g.
Proof.
  cbv zeta. unfold ParseAllGitIgnores.
  destruct (walkLoop_prefix fs (Walked (rootDir g)) g) as (k & Hk & Hr & Hp & Hd & _).
  exists k. auto.
Qed.



(** ** The decision of [ShouldIgnore] *)

Section Decide.
Variables (fs : FileSystem) (filePath relPath : string).

(** A block of rules either leaves the decision to the rules declared
    before it or takes it whatever they are. *)
Lemma decideRev_app_cases (l : list GitIgnoreRule) :
  (forall x, decideRev fs filePath relPath (l ++ x) = decideRev fs filePath relPath x)
  \/ (exists b, forall x, decideRev fs filePath relPath (l ++ x) = b).
Proof.
  induction l as [|rule l IH]; [left; reflexivity|].
  cbn [app decideRev].
  destruct (ruleMatches (Pattern rule) relPath); [|exact IH].
  destruct (IsNegation rule); [right; exists false; reflexivity|].
  destruct (IsDirectory rule); [|right; exists true; reflexivity].
  destruct (isDirectory fs filePath); [right; exists true; reflexivity|exact IH].
Qed.

Lemma decideRev_twice (l x : list GitIgnoreRule) :
  decideRev fs filePath relPath (l ++ l ++ x) = decideRev fs filePath relPath (l ++ x).
Proof.
  destruct (decideRev_app_cases l) as [H|[b H]].
  - apply H.
  - rewrite (H (l ++ x)), (H x). reflexivity.
Qed.

Lemma decideRev_true (rs : list GitIgnoreRule) :
  decideRev fs filePath relPath rs = true ->
  exists rule,
    In rule rs /\ IsNegation rule = false
    /\ ruleMatches (Pattern rule) relPath = true
    /\ (IsDirectory rule = true -> isDirectory fs filePath = true).
Proof.
  induction rs as [|rule rs IH]; [discriminate|]. cbn [decideRev].
  destruct (ruleMatches (Pattern rule) relPath) eqn:Hm.
  - destruct (IsNegation rule) eqn:Hn; [discriminate|].
    destruct (IsDirectory rule) eqn:Hd.
    + destruct (isDirectory fs filePath) eqn:Hs.
      * intros _. exists rule. split; [left; reflexivity|]. auto.
      * intros H. destruct (IH H) as (r & Hin & Hr). exists r.
        split; [right; exact Hin|exact Hr].
    + intros _. exists rule. split; [left; reflexivity|].
      split; [exact Hn|]. split; [exact Hm|]. rewrite Hd. discriminate.
  - intros H. destruct (IH H) as (r & Hin & Hr). exists r.
    split; [right; exact Hin|exact Hr].
Qed.

End Decide.

Lemma decideRev_isDirectory (fs1 fs2 : FileSystem) (path1 path2 relPath : string)
    (rs : list GitIgnoreRule) :
  isDirectory fs1 path1 = isDirectory fs2 path2 ->
  decideRev fs1 path1 relPath rs = decideRev fs2 path2 relPath rs.
Proof.
  intros H. induction rs as [|rule rs IH]; [reflexivity|].
  cbn [decideRev]. rewrite H, IH. reflexivity.
Qed.

(** X6: reading the same source a second time doubles the rules it gave but
    changes no answer of [ShouldIgnore]. *)
Theorem X6_reading_twice_changes_no_answer (fs : FileSystem)
    (g : GitIgnoreParser) (path filePath : string) :
  let g1 := (ParseGitIgnore fs g path).1 in
  let g2 := (ParseGitIgnore fs g1 path).1 in
  rules g2 = rules g ++ sourceRules fs path ++ sourceRules fs path
  /\ ShouldIgnore fs g2 filePath = ShouldIgnore fs g1 filePath.
Proof.
  cbv zeta.
  destruct (ParseGitIgnore_fields fs g path) as (Hr1 & _ & Hd1).
  destruct (ParseGitIgnore_fields fs (ParseGitIgnore fs g path).1 path)
    as (Hr2 & _ & Hd2).
  split; [rewrite Hr2, Hr1, <- app_assoc; reflexivity|].
  destruct (filepath.Rel (rootDir g) filePath) as [relPath [err|]] eqn:Hrel.
  - rewrite (ShouldIgnore_rel_error fs _ filePath relPath err),
            (ShouldIgnore_rel_error fs _ filePath relPath err); congruence.
  - rewrite (ShouldIgnore_rel fs _ filePath relPath),
            (ShouldIgnore_rel fs (ParseGitIgnore fs g path).1 filePath relPath);
      try congruence.
    rewrite Hr2, Hr1, !rev_app_distr. apply decideRev_twice.
Qed.

(** X7: [ShouldIgnore] answers true only for a cause: the path is relative
    to the root and some rule that is not a negation matches it; if that
    rule is directory-only, [os.Stat] reports a directory. *)
Theorem X7_ignored_only_for_a_cause (fs : FileSystem) (g : GitIgnoreParser)
    (filePath : string) :
  ShouldIgnore fs g filePath = true ->
  exists (relPath : string) (rule : GitIgnoreRule),
    filepath.Rel (rootDir g) filePath = (relPath, None)
    /\ In rule (rules g)
    /\ IsNegation rule = false
    /\ ruleMatches (Pattern rule) relPath = true
    /\ (IsDirectory rule = true -> isDirectory fs filePath = true).
Proof.
  intros H.
  destruct (filepath.Rel (rootDir g) filePath) as [relPath [err|]] eqn:Hrel.
  - rewrite (ShouldIgnore_rel_error fs g filePath relPath err Hrel) in H.
    discriminate.
  - rewrite (ShouldIgnore_rel fs g filePath relPath Hrel) in H.
    destruct (decideRev_true fs filePath relPath _ H) as (rule & Hin & Hr).
    exists relPath, rule. split; [reflexivity|]. split; [|exact Hr].
    apply in_rev. exact Hin.
Qed.

Lemma X7_ignored_only_for_a_cause_witness :
  exists (relPath : string) (rule : GitIgnoreRule),
    filepath.Rel "/repo" "/repo/build" = (relPath, None)
    /\ In rule (rules (repoParser ["*.log"; "build/"]))
    /\ IsNegation rule = false
    /\ ruleMatches (Pattern rule) relPath = true
    /\ (IsDirectory rule = true ->
        isDirectory (repoFS ["*.log"; "build/"]) "/repo/build" = true).
Proof.
  apply (X7_ignored_only_for_a_cause (repoFS ["*.log"; "build/"])
           (repoParser ["*.log"; "build/"]) "/repo/build").
  vm_compute. reflexivity.
Defined.

(** X8: [ShouldIgnore] looks at a path through two things only: the path
    relative to the root, and whether [os.Stat] reports a directory (an
    error of [os.Stat] counting as no).  Two paths with the same relative
    path, in file systems that agree on their kind, get the same answer. *)
Theorem X8_only_relative_path_and_kind_matter (fs1 fs2 : FileSystem)
    (g : GitIgnoreParser) (path1 path2 : string) :
  filepath.Rel (rootDir g) path1 = filepath.Rel (rootDir g) path2 ->
  isDirectory fs1 path1 = isDirectory fs2 path2 ->
  ShouldIgnore fs1 g path1 = ShouldIgnore fs2 g path2.
Proof.
  intros Hrel H.
  destruct (filepath.Rel (rootDir g) path2) as [relPath [err|]] eqn:Hrel2.
  - rewrite (ShouldIgnore_rel_error fs1 g path1 relPath err Hrel),
            (ShouldIgnore_rel_error fs2 g path2 relPath err Hrel2).
    reflexivity.
  - rewrite (ShouldIgnore_rel fs1 g path1 relPath Hrel),
            (ShouldIgnore_rel fs2 g path2 relPath Hrel2).
    apply decideRev_isDirectory. exact H.
Qed.

Lemma X8_only_relative_path_and_kind_matter_witness :
  ShouldIgnore treeFS (repoParser ["notes/"; "*.log"]) "/repo/src/../notes"
  = ShouldIgnore (repoFS ["notes/"; "*.log"]) (repoParser ["notes/"; "*.log"])
      "/repo/notes".
Proof.
  apply (X8_only_relative_path_and_kind_matter treeFS
           (repoFS ["notes/"; "*.log"])); vm_compute; reflexivity.
Defined.

(** ** Patterns without special bytes *)

Lemma literal_cons (c : ascii) (p : string) :
  literal (String c p) = true ->
  filepath.isByte c "*"%char = false /\ filepath.isByte c "?"%char = false
  /\ filepath.isByte c "["%char = false /\ filepath.isByte c "\"%char = false
  /\ literal p = true.
Proof.
  cbn [literal]. rewrite !andb_true_iff, !negb_true_iff. tauto.
Qed.

Lemma skipStars_literal (p : string) :
  literal p = true -> filepath.skipStars p false = (false, p).
Proof.
  destruct p as [|c p]; [reflexivity|]. intros H.
  apply literal_cons in H as (Hs & _). cbn [filepath.skipStars].
  rewrite Hs. reflexivity.
Qed.

Lemma scanLoop_literal (p : string) :
  forall inrange : bool,
    literal p = true -> filepath.scanLoop inrange p = (p, "").
Proof.
  induction p as [|c p IH]; intros inrange H; [reflexivity|].
  apply literal_cons in H as (Hs & _ & Hb & He & Hp).
  cbn [filepath.scanLoop]. rewrite He, Hb, Hs.
  destruct (filepath.isByte c "]"%char); rewrite (IH _ Hp); reflexivity.
Qed.

Lemma scanChunk_literal (p : string) :
  literal p = true -> filepath.scanChunk p = (false, p, "").
Proof.
  intros H. unfold filepath.scanChunk.
  rewrite (skipStars_literal p H), (scanLoop_literal p false H). reflexivity.
Qed.

(** A chunk without special bytes is compared byte by byte. *)
Lemma matchChunkLoop_literal (chunk : string) :
  forall (fuel : nat) (s : string) (failed : bool),
    literal chunk = true ->
    String.length chunk <= fuel ->
    exists (t : string) (ok : bool),
      filepath.matchChunkLoop fuel chunk s failed = Some (t, ok, None)
      /\ ok && isEmpty t = negb failed && String.eqb chunk s.
Proof.
  induction chunk as [|c chunk IH]; intros fuel s failed Hlit Hfuel.
  - destruct fuel; cbn [filepath.matchChunkLoop];
      (destruct failed; [exists "", false; split; reflexivity|];
       exists s, true; split; [reflexivity|]; destruct s; reflexivity).
  - apply literal_cons in Hlit as (_ & Hq & Hb & He & Hp).
    destruct fuel as [|fuel]; [cbn in Hfuel; lia|].
    cbn [String.length] in Hfuel.
    cbn [filepath.matchChunkLoop]. rewrite Hb, Hq, He.
    destruct failed.
    + cbn [negb andb]. destruct (IH fuel s true Hp ltac:(lia)) as (t & ok & H1 & H2).
      exists t, ok. split; [exact H1|]. rewrite H2. reflexivity.
    + cbn [negb andb]. destruct s as [|d s].
      * cbn [isEmpty negb].
        destruct (IH fuel "" true Hp ltac:(lia)) as (t & ok & H1 & H2).
        exists t, ok. split; [exact H1|]. rewrite H2. reflexivity.
      * cbn [isEmpty negb sdrop].
        destruct (IH fuel s (negb (filepath.byteAt (String d s) 0 c)) Hp ltac:(lia))
          as (t & ok & H1 & H2).
        exists t, ok. split; [exact H1|]. rewrite H2.
        unfold filepath.byteAt. cbn [String.get String.eqb].
        rewrite negb_involutive, (Ascii.eqb_sym c d).
        destruct (Ascii.eqb d c); reflexivity.
Qed.

(** [Match] with a pattern without special bytes is equality. *)
Lemma Match_literal (p name : string) :
  literal p = true -> filepath.Match p name = (String.eqb p name, None).
Proof.
  intros H. unfold filepath.Match.
  destruct p as [|c p].
  - cbn. destruct name; reflexivity.
  - remember (String c p) as pat eqn:Hpat.
    assert (Hlen : String.length pat = S (String.length p)) by (subst; reflexivity).
    rewrite Hlen. rewrite Hpat at 1. cbn [filepath.matchLoop]. rewrite <- Hpat.
    rewrite (scanChunk_literal pat H). cbn [andb].
    unfold filepath.matchChunk.
    destruct (matchChunkLoop_literal pat (String.length pat) name false H ltac:(lia))
      as (t & ok & H1 & H2).
    rewrite H1. cbn [isEmpty negb] in *. rewrite orb_false_r, H2.
    destruct (String.eqb pat name) eqn:He; [|reflexivity].
    apply andb_true_iff in H2 as [_ Ht]. destruct t; [|discriminate].
    destruct p; reflexivity.
Qed.

Lemma ContainsByte_app (s t : string) (c : ascii) :
  strings.ContainsByte (s +:+ t) c
  = strings.ContainsByte s c || strings.ContainsByte t c.
Proof.
  induction s as [|d s IH]; [reflexivity|].
  change (String d s +:+ t) with (String d (s +:+ t)).
  cbn [strings.ContainsByte]. rewrite IH, orb_assoc. reflexivity.
Qed.

Lemma SplitByte_no_sep (s : string) (sep : ascii) :
  Forall (fun e => strings.ContainsByte e sep = false) (strings.SplitByte s sep).
Proof.
  induction s as [|c s IH]; [repeat constructor|].
  cbn [strings.SplitByte]. destruct (Ascii.eqb c sep) eqn:Hc.
  - constructor; [reflexivity|exact IH].
  - destruct (strings.SplitByte s sep) as [|p ps]; [repeat constructor; cbn; now rewrite Hc|].
    inversion IH as [|? ? Hp Hps]; subst.
    constructor; [|exact Hps]. cbn [strings.ContainsByte]. rewrite Hc, Hp. reflexivity.
Qed.

Lemma Join_two_contains (a b : string) (l : list string) :
  strings.ContainsByte (strings.Join (a :: b :: l) "/") "/"%char = true.
Proof.
  change (strings.Join (a :: b :: l) "/") with (a +:+ "/" +:+ strings.Join (b :: l) "/").
  rewrite !ContainsByte_app. cbn. apply orb_true_r.
Qed.

(** A pattern without special bytes and without a slash matches a relative
    path exactly when it is its last element. *)
Lemma ruleMatches_literal (p relPath : string) :
  literal p = true ->
  strings.ContainsByte p "/"%char = false ->
  ruleMatches p relPath = true <-> last (strings.SplitByte relPath "/") = Some p.
Proof.
  intros Hlit Hsl. rewrite ruleMatches_true.
  set (parts := strings.SplitByte relPath "/").
  split.
  - intros (j & Hj & Hm). rewrite (Match_literal _ _ Hlit) in Hm. cbn in Hm.
    apply String.eqb_eq in Hm.
    assert (Hd : drop j parts = [p]).
    { destruct (drop j parts) as [|a [|b l]] eqn:Hd.
      - apply (f_equal length) in Hd. rewrite length_drop in Hd. cbn in Hd. lia.
      - cbn in Hm. congruence.
      - rewrite Hm, Join_two_contains in Hsl. discriminate. }
    rewrite <- (take_drop j parts), Hd. apply last_snoc.
  - intros Hlast. apply last_Some in Hlast as [l' Hl'].
    exists (length l'). rewrite Hl', length_app. cbn [length]. split; [lia|].
    rewrite drop_app_length. cbn [strings.Join].
    rewrite (Match_literal _ _ Hlit). cbn. apply String.eqb_refl.
Qed.

(** X9: a pattern without the special bytes [*], [?], [[], [\] and without a
    slash matches a path exactly when it is the last element of the path:
    the rule [build] matches [src/build] and not [build/x.o]. *)
Theorem X9_literal_pattern_names_last_element (fs : FileSystem)
    (g : GitIgnoreParser) (filePath relPath p : string) :
  literal p = true ->
  strings.ContainsByte p "/"%char = false ->
  (forall name, filepath.Match p name = (String.eqb p name, None))
  /\ (ruleMatches p relPath = true <->
      last (strings.SplitByte relPath "/") = Some p)
  /\ (filepath.Rel (rootDir g) filePath = (relPath, None) ->
      rules g = [plainRule p] ->
      ShouldIgnore fs g filePath = true <->
      last (strings.SplitByte relPath "/") = Some p).
Proof.
  intros Hlit Hsl. split; [intros name; apply Match_literal, Hlit|].
  split; [apply ruleMatches_literal; assumption|].
  intros Hrel Hrules.
  rewrite (ShouldIgnore_rel fs g filePath relPath Hrel), Hrules.
  cbn [rev app decideRev plainRule Pattern IsNegation IsDirectory].
  rewrite <- (ruleMatches_literal p relPath Hlit Hsl).
  destruct (ruleMatches p relPath); split; congruence.
Qed.

Lemma X9_literal_pattern_names_last_element_witness :
  ShouldIgnore (repoFS ["build"]) (repoParser ["build"]) "/repo/src/build" = true
  /\ ShouldIgnore (repoFS ["build"]) (repoParser ["build"]) "/repo/build/x.o"
     <> true.
Proof.
  pose proof (X9_literal_pattern_names_last_element (repoFS ["build"])
                (repoParser ["build"]) "/repo/src/build" "src/build" "build"
                eq_refl eq_refl) as (_ & _ & H1).
  pose proof (X9_literal_pattern_names_last_element (repoFS ["build"])
                (repoParser ["build"]) "/repo/build/x.o" "build/x.o" "build"
                eq_refl eq_refl) as (_ & _ & H2).
  assert (R1 : filepath.Rel (rootDir (repoParser ["build"])) "/repo/src/build"
               = ("src/build", None)) by (vm_compute; reflexivity).
  assert (R2 : filepath.Rel (rootDir (repoParser ["build"])) "/repo/build/x.o"
               = ("build/x.o", None)) by (vm_compute; reflexivity).
  assert (Hr : rules (repoParser ["build"]) = [plainRule "build"])
    by (vm_compute; reflexivity).
  split.
  - apply (proj2 (H1 R1 Hr)). vm_compute. reflexivity.
  - intros H. apply (proj1 (H2 R2 Hr)) in H. vm_compute in H. discriminate H.
Defined.

(** ** The file filter *)

(** The exclusion loop only looks at the first result of [Match]: an error
    comes with [false]. *)
Lemma excluded_existsb (path base : string) (ps : list string) :
  filter.excluded path base ps
  = existsb (fun p => (filepath.Match p base).1 || (filepath.Match p path).1) ps.
Proof.
  induction ps as [|p ps IH]; [reflexivity|].
  cbn [filter.excluded existsb]. rewrite IH.
  destruct (filepath.Match p base) as [m1 e1] eqn:H1.
  destruct (filepath.Match p path) as [m2 e2] eqn:H2. cbn [fst].
  assert (E1 : filter.errIsNil e1 && m1 = m1).
  { destruct e1 as [e|]; [|reflexivity].
    rewrite (Match_error_false _ _ _ _ H1). reflexivity. }
  assert (E2 : filter.errIsNil e2 && m2 = m2).
  { destruct e2 as [e|]; [|reflexivity].
    rewrite (Match_error_false _ _ _ _ H2). reflexivity. }
  rewrite E1, E2. destruct m1, m2; reflexivity.
Qed.

Lemma normalizeExt_dotted (ext : string) :
  strings.HasPrefix (filter.normalizeExt ext) "." = true.
Proof.
  unfold filter.normalizeExt.
  destruct (strings.HasPrefix (strings.TrimSpace ext) ".") eqn:H; cbn [negb].
  - exact H.
  - apply HasPrefix_byte. eexists. reflexivity.
Qed.

Lemma NewFilter_extensions (extensions excludePatterns : string)
    (includeDotfiles : bool) :
  let f := filter.NewFilter extensions excludePatterns includeDotfiles in
  Forall (fun e => strings.HasPrefix e "." = true) (filter.Extensions f)
  /\ length (filter.Extensions f)
     = (if isEmpty extensions then 0
        else length (strings.SplitByte extensions ","%char)).
Proof.
  cbv zeta. unfold filter.NewFilter. cbn [filter.Extensions]. split.
  - destruct (isEmpty extensions); cbn [negb]; [constructor|].
    apply Forall_map, Forall_forall. intros e _. apply normalizeExt_dotted.
  - destruct (isEmpty extensions); cbn [negb]; [reflexivity|apply length_map].
Qed.

(** X10: [NewFilter] gives every extension a leading dot (a piece that is
    empty or blank becomes the extension [.]), keeps one extension for each
    comma-separated piece, and sets neither a parser nor the tracked-only
    mode. *)
Theorem X10_NewFilter_normalises (extensions excludePatterns : string)
    (includeDotfiles : bool) :
  let f := filter.NewFilter extensions excludePatterns includeDotfiles in
  Forall (fun e => strings.HasPrefix e "." = true) (filter.Extensions f)
  /\ length (filter.Extensions f)
     = (if isEmpty extensions then 0
        else length (strings.SplitByte extensions ","%char))
  /\ length (filter.ExcludePatterns f)
     = (if isEmpty excludePatterns then 0
        else length (strings.SplitByte excludePatterns ","%char))
  /\ filter.IncludeDotfiles f = includeDotfiles
  /\ filter.GitIgnoreParser f = None
  /\ filter.GitTrackedOnly f = false
  /\ filter.GitTrackedFiles f = [].
Proof.
  cbv zeta. unfold filter.NewFilter.
  cbn [filter.Extensions filter.ExcludePatterns filter.IncludeDotfiles
       filter.GitIgnoreParser filter.GitTrackedOnly filter.GitTrackedFiles].
  split; [|split; [|split]]; [| | |auto].
  - destruct (isEmpty extensions); cbn [negb]; [constructor|].
    apply Forall_map, Forall_forall. intros e _. apply normalizeExt_dotted.
  - destruct (isEmpty extensions); cbn [negb]; [reflexivity|apply length_map].
  - destruct (isEmpty excludePatterns); cbn [negb]; [reflexivity|apply length_map].
Qed.

(** The five checks of [ShouldInclude], each on its own. *)
Lemma ShouldInclude_checks (fs : FileSystem) (f : filter.Filter) (path : string) :
  filter.ShouldInclude fs f path =
  negb (negb (filter.IncludeDotfiles f)
        && strings.HasPrefix (filepath.Base path) ".")
  && negb (filter.GitTrackedOnly f && (0 <? length (filter.GitTrackedFiles f))%nat
           && negb (filter.isTracked path (filter.GitTrackedFiles f)))
  && negb (match filter.GitIgnoreParser f with
           | Some parser => ShouldIgnore fs parser path
           | None => false
           end)
  && negb (filter.excluded path (filepath.Base path) (filter.ExcludePatterns f))
  && ((length (filter.Extensions f) =? 0)%nat
      || filter.hasExtension (filepath.Ext path) (filter.Extensions f)).
Proof.
  unfold filter.ShouldInclude.
  destruct (negb (filter.IncludeDotfiles f)
            && strings.HasPrefix (filepath.Base path) "."); [reflexivity|].
  destruct (filter.GitTrackedOnly f && (0 <? length (filter.GitTrackedFiles f))%nat
            && negb (filter.isTracked path (filter.GitTrackedFiles f)));
    [reflexivity|].
  destruct (match filter.GitIgnoreParser f with
            | Some parser => ShouldIgnore fs parser path
            | None => false
            end); [reflexivity|].
  destruct (filter.excluded path (filepath.Base path) (filter.ExcludePatterns f));
    [reflexivity|].
  destruct (length (filter.Extensions f) =? 0)%nat; reflexivity.
Qed.

(** X11: setting a parser can only remove paths: the filter includes a path
    exactly when it includes it without the parser and the parser does not
    ignore it. *)
Theorem X11_parser_only_removes (fs : FileSystem) (f : filter.Filter)
    (g : GitIgnoreParser) (path : string) :
  filter.ShouldInclude fs (filter.SetGitIgnoreParser f (Some g)) path
  = filter.ShouldInclude fs (filter.SetGitIgnoreParser f None) path
    && negb (ShouldIgnore fs g path).
Proof.
  rewrite !ShouldInclude_checks.
  cbn [filter.SetGitIgnoreParser filter.Extensions filter.ExcludePatterns
       filter.IncludeDotfiles filter.GitIgnoreParser filter.GitTrackedOnly
       filter.GitTrackedFiles].
  destruct (ShouldIgnore fs g path); cbn [negb].
  - rewrite !andb_false_r. reflexivity.
  - rewrite !andb_true_r. reflexivity.
Qed.

Lemma isTracked_In (path : string) (files : list string) :
  In path files -> filter.isTracked path files = true.
Proof.
  induction files as [|t files IH]; [intros []|].
  intros [->|Hin]; cbn [filter.isTracked].
  - rewrite String.eqb_refl. reflexivity.
  - rewrite (IH Hin). destruct (_ || _); reflexivity.
Qed.

(** X12: the list of tracked files only removes paths, and only when it is
    not empty: with an empty list the tracked-only mode changes nothing;
    otherwise a path is included exactly when it would be without the mode
    and the loop over the list finds it, which it does for every path that
    is listed as it is. *)
Theorem X12_tracked_files_only_remove (fs : FileSystem) (f : filter.Filter)
    (files : list string) (path : string) :
  filter.ShouldInclude fs (filter.SetGitTrackedFiles f files) path
  = filter.ShouldInclude fs (filter.SetGitTrackedFiles f []) path
    && ((length files =? 0)%nat || filter.isTracked path files)
  /\ (In path files -> filter.isTracked path files = true)
  /\ (filter.GitTrackedOnly f = false ->
      filter.ShouldInclude fs (filter.SetGitTrackedFiles f []) path
      = filter.ShouldInclude fs f path).
Proof.
  split; [|split; [apply isTracked_In|]].
  - rewrite !ShouldInclude_checks.
    cbn [filter.SetGitTrackedFiles filter.Extensions filter.ExcludePatterns
         filter.IncludeDotfiles filter.GitIgnoreParser filter.GitTrackedOnly
         filter.GitTrackedFiles length Nat.ltb Nat.leb andb negb].
    destruct files as [|t files]; cbn [length Nat.eqb Nat.ltb Nat.leb orb andb].
    + rewrite !andb_true_r. reflexivity.
    + destruct (filter.isTracked path (t :: files));
        cbn [negb orb andb]; rewrite ?andb_true_r, ?andb_false_r;
        cbn [andb]; reflexivity.
  - intros Hoff. rewrite !ShouldInclude_checks.
    cbn [filter.SetGitTrackedFiles filter.Extensions filter.ExcludePatterns
         filter.IncludeDotfiles filter.GitIgnoreParser filter.GitTrackedOnly
         filter.GitTrackedFiles length Nat.ltb Nat.leb andb negb].
    rewrite Hoff. reflexivity.
Qed.

Lemma X12_tracked_files_only_remove_witness :
  filter.ShouldInclude treeFS
    (filter.SetGitTrackedFiles (filter.NewFilter "go" "" false) ["/repo/main.go"])
    "/repo/main.go" = true.
Proof.
  pose proof (X12_tracked_files_only_remove treeFS (filter.NewFilter "go" "" false)
                ["/repo/main.go"] "/repo/main.go") as (H1 & H2 & H3).
  rewrite H1, (H2 ltac:(left; reflexivity)), (H3 eq_refl).
  vm_compute. reflexivity.
Defined.

(** X13: exclusion patterns only remove paths and their order does not
    matter: a path passes the filter with the patterns [ps ++ qs] exactly
    when it passes it with [ps] and passes it with [qs]. *)
Theorem X13_exclusions_add_up (fs : FileSystem) (f : filter.Filter)
    (ps qs : list string) (path : string) :
  filter.ShouldInclude fs (withPatterns f (ps ++ qs)) path
  = filter.ShouldInclude fs (withPatterns f ps) path
    && filter.ShouldInclude fs (withPatterns f qs) path.
Proof.
  rewrite !ShouldInclude_checks, !excluded_existsb.
  cbn [withPatterns filter.Extensions filter.ExcludePatterns
       filter.IncludeDotfiles filter.GitIgnoreParser filter.GitTrackedOnly
       filter.GitTrackedFiles].
  rewrite existsb_app.
  match goal with
  | |- ?a && ?b && ?c && negb (?x || ?y) && ?e = _ =>
    destruct a, b, c, x, y, e; reflexivity
  end.
Qed.

(** X14: an exclusion pattern with an unterminated bracket expression
    excludes nothing: the filter decides as if the pattern were not
    there. *)
Theorem X14_malformed_exclusion_is_inert (fs : FileSystem) (f : filter.Filter)
    (before after : list string) (bad path : string) :
  unterminated bad ->
  filter.ShouldInclude fs (withPatterns f (before ++ bad :: after)) path
  = filter.ShouldInclude fs (withPatterns f (before ++ after)) path.
Proof.
  intros Hbad. rewrite !ShouldInclude_checks, !excluded_existsb.
  cbn [withPatterns filter.Extensions filter.ExcludePatterns
       filter.IncludeDotfiles filter.GitIgnoreParser filter.GitTrackedOnly
       filter.GitTrackedFiles].
  rewrite !existsb_app. cbn [existsb].
  rewrite !(Match_unterminated bad _ Hbad). reflexivity.
Qed.

Lemma X14_malformed_exclusion_is_inert_witness :
  filter.ShouldInclude treeFS
    (withPatterns (filter.NewFilter "" "" true) (["*.tmp"] ++ "[a-" :: ["*.log"]))
    "/repo/main.go"
  = filter.ShouldInclude treeFS
      (withPatterns (filter.NewFilter "" "" true) (["*.tmp"] ++ ["*.log"]))
      "/repo/main.go".
Proof.
  apply (X14_malformed_exclusion_is_inert treeFS (filter.NewFilter "" "" true)
           ["*.tmp"] ["*.log"] "[a-" "/repo/main.go").
  vm_compute. reflexivity.
Defined.

(** *** Extensions *)

Lemma hasExtension_In (ext : string) (allowed : list string) :
  filter.hasExtension ext allowed = true <-> In ext allowed.
Proof.
  induction allowed as [|a allowed IH]; cbn [filter.hasExtension In].
  - split; [discriminate|intros []].
  - destruct (String.eqb ext a) eqn:He.
    + apply String.eqb_eq in He. split; auto.
    + apply String.eqb_neq in He. rewrite IH. split; [auto|].
      intros [H|H]; [congruence|exact H].
Qed.

Lemma sdrop_S (i : nat) (s : string) : sdrop (S i) s = sdrop 1 (sdrop i s).
Proof.
  revert s. induction i as [|i IH]; intros s; [reflexivity|].
  destruct s as [|c s]; [reflexivity|].
  change (sdrop (S (S i)) (String c s)) with (sdrop (S i) s).
  change (sdrop (S i) (String c s)) with (sdrop i s). apply IH.
Qed.

(** The result of [Ext] is empty or a dot followed by bytes that are neither
    dots nor slashes. *)
Lemma extLoop_shape (path : string) (n : nat) :
  n <= String.length path ->
  strings.ContainsByte (sdrop n path) "."%char = false ->
  strings.ContainsByte (sdrop n path) "/"%char = false ->
  filepath.extLoop path n = ""
  \/ exists rest,
       filepath.extLoop path n = String "."%char rest
       /\ strings.ContainsByte rest "."%char = false
       /\ strings.ContainsByte rest "/"%char = false.
Proof.
  induction n as [|i IH]; intros Hn Hdot Hsl; [left; reflexivity|].
  destruct (sdrop_get i path ltac:(lia)) as (c & rest & Hdrop & Hget).
  assert (Hrest : sdrop (S i) path = rest) by (rewrite sdrop_S, Hdrop; reflexivity).
  rewrite Hrest in Hdot, Hsl.
  cbn [filepath.extLoop]. unfold filepath.byteAt. rewrite Hget.
  destruct (Ascii.eqb c filepath.Separator) eqn:Hc1; [left; reflexivity|].
  destruct (Ascii.eqb c "."%char) eqn:Hc2.
  - right. exists rest. apply Ascii.eqb_eq in Hc2. subst c.
    rewrite Hdrop. auto.
  - apply IH; [lia| |]; rewrite Hdrop; cbn [strings.ContainsByte].
    + rewrite Hc2, Hdot. reflexivity.
    + unfold filepath.Separator in Hc1. rewrite Hc1, Hsl. reflexivity.
Qed.

Lemma Ext_shape (path : string) :
  filepath.Ext path = ""
  \/ exists rest,
       filepath.Ext path = String "."%char rest
       /\ strings.ContainsByte rest "."%char = false
       /\ strings.ContainsByte rest "/"%char = false.
Proof.
  unfold filepath.Ext. apply extLoop_shape; [lia| |];
    rewrite <- (append_empty_r path) at 2; rewrite sdrop_length_app; reflexivity.
Qed.

(** X15: a filter built with a list of extensions never includes a path
    whose last element has no dot, whatever the extensions are. *)
Theorem X15_no_extension_no_inclusion (fs : FileSystem) (f : filter.Filter)
    (extensions excludePatterns : string) (includeDotfiles : bool)
    (path : string) :
  isEmpty extensions = false ->
  filter.Extensions f
  = filter.Extensions (filter.NewFilter extensions excludePatterns includeDotfiles) ->
  filepath.Ext path = "" ->
  filter.ShouldInclude fs f path = false.
Proof.
  intros Hne Hexts Hext. rewrite ShouldInclude_checks.
  destruct (NewFilter_extensions extensions excludePatterns includeDotfiles)
    as (Hdot & Hlen).
  rewrite <- Hexts, Hne in *.
  assert (Hpos : (length (filter.Extensions f) =? 0)%nat = false).
  { apply Nat.eqb_neq. rewrite Hlen.
    pose proof (SplitByte_nonempty extensions ","%char) as H.
    destruct (strings.SplitByte extensions ","%char); [congruence|cbn; lia]. }
  rewrite Hpos, Hext. cbn [orb].
  destruct (filter.hasExtension "" (filter.Extensions f)) eqn:Hh;
    [|apply andb_false_r].
  apply hasExtension_In, list_elem_of_In in Hh. rewrite Forall_forall in Hdot.
  specialize (Hdot _ Hh). discriminate Hdot.
Qed.

Lemma X15_no_extension_no_inclusion_witness :
  filter.ShouldInclude treeFS (filter.NewFilter "go, md" "" true) "/repo.d/Makefile"
  = false.
Proof.
  apply (X15_no_extension_no_inclusion treeFS (filter.NewFilter "go, md" "" true)
           "go, md" "" true "/repo.d/Makefile"); reflexivity.
Defined.

(** X16: [Ext] returns the last element from its last dot on, so an allowed
    extension with a dot after its first byte (as [.tar.gz]) equals the
    extension of no path: a filter whose extensions all are of this kind
    includes nothing. *)
Theorem X16_inner_dot_extension_matches_nothing (fs : FileSystem)
    (f : filter.Filter) (path : string) :
  filter.Extensions f <> [] ->
  Forall (fun e => strings.ContainsByte (sdrop 1 e) "."%char = true)
         (filter.Extensions f) ->
  filter.ShouldInclude fs f path = false.
Proof.
  intros Hne Hall. rewrite ShouldInclude_checks.
  assert (Hpos : (length (filter.Extensions f) =? 0)%nat = false).
  { apply Nat.eqb_neq. destruct (filter.Extensions f); [congruence|cbn; lia]. }
  rewrite Hpos. cbn [orb].
  destruct (filter.hasExtension (filepath.Ext path) (filter.Extensions f)) eqn:Hh;
    [|apply andb_false_r].
  apply hasExtension_In, list_elem_of_In in Hh. rewrite Forall_forall in Hall.
  specialize (Hall _ Hh).
  destruct (Ext_shape path) as [He|(rest & He & Hdot & _)]; rewrite He in Hall.
  - discriminate Hall.
  - cbn [sdrop] in Hall. congruence.
Qed.

Lemma X16_inner_dot_extension_matches_nothing_witness :
  filter.Extensions (filter.NewFilter "tar.gz" "" true) = [".tar.gz"]
  /\ filter.ShouldInclude treeFS (filter.NewFilter "tar.gz" "" true)
       "/repo/a.tar.gz" = false.
Proof.
  split; [reflexivity|].
  apply (X16_inner_dot_extension_matches_nothing treeFS
           (filter.NewFilter "tar.gz" "" true) "/repo/a.tar.gz").
  - discriminate.
  - repeat constructor.
Defined.

(** *** Dotfiles *)

Lemma get_app_r (s t : string) (i : nat) :
  String.get (String.length s + i) (s +:+ t) = String.get i t.
Proof. induction s as [|c s IH]; [reflexivity|exact IH]. Qed.

Lemma ContainsByte_byteAt (t : string) (c : ascii) :
  strings.ContainsByte t c = false ->
  forall i, filepath.byteAt t i c = false.
Proof.
  unfold filepath.byteAt.
  induction t as [|d t IH]; intros H i; [destruct i; reflexivity|].
  cbn [strings.ContainsByte] in H. apply orb_false_iff in H as [Hd Ht].
  destruct i as [|i]; cbn [String.get]; [exact Hd|apply IH; exact Ht].
Qed.

Lemma byteAt_join (dir name : string) (i : nat) (c : ascii) :
  filepath.byteAt (dir +:+ "/" +:+ name) (String.length dir + 1 + i) c
  = filepath.byteAt name i c.
Proof.
  unfold filepath.byteAt. rewrite <- Nat.add_assoc, get_app_r. reflexivity.
Qed.

Lemma lastSep_join (dir name : string) :
  strings.ContainsByte name "/"%char = false ->
  forall k,
    filepath.lastSep (dir +:+ "/" +:+ name) (String.length dir + 1 + k)
    = Some (String.length dir).
Proof.
  intros Hname. induction k as [|k IH].
  - replace (String.length dir + 1 + 0) with (S (String.length dir)) by lia.
    cbn [filepath.lastSep]. unfold filepath.byteAt.
    replace (String.length dir) with (String.length dir + 0) at 1 by lia.
    rewrite get_app_r. reflexivity.
  - replace (String.length dir + 1 + S k) with (S (String.length dir + 1 + k)) by lia.
    cbn [filepath.lastSep]. rewrite byteAt_join.
    unfold filepath.Separator.
    rewrite (ContainsByte_byteAt name _ Hname). exact IH.
Qed.

Lemma stripSlashes_id (n : nat) (path : string) :
  filepath.byteAt path (String.length path - 1) filepath.Separator = false ->
  filepath.stripSlashes n path = path.
Proof.
  intros H. destruct n; cbn [filepath.stripSlashes]; [reflexivity|].
  rewrite H, andb_false_r. reflexivity.
Qed.

Lemma sdrop_add (a b : nat) (s : string) : sdrop (a + b) s = sdrop b (sdrop a s).
Proof.
  revert s. induction a as [|a IH]; intros s; [reflexivity|].
  destruct s as [|c s]; [destruct b; reflexivity|]. exact (IH s).
Qed.

(** The last element of [dir/name] is [name]. *)
Lemma Base_join (dir name : string) :
  isEmpty name = false ->
  strings.ContainsByte name "/"%char = false ->
  filepath.Base (dir +:+ "/" +:+ name) = name.
Proof.
  intros Hne Hname. unfold filepath.Base.
  set (path := dir +:+ "/" +:+ name).
  assert (Hlen : String.length path = String.length dir + 1 + String.length name).
  { unfold path. rewrite !length_append. cbn. lia. }
  assert (Hpath : isEmpty path = false).
  { destruct path; [cbn in Hlen; lia|reflexivity]. }
  rewrite Hpath.
  assert (Hlast : filepath.byteAt path (String.length path - 1) filepath.Separator
                  = false).
  { destruct name as [|c name]; [discriminate|]. cbn [String.length] in Hlen.
    replace (String.length path - 1)
      with (String.length dir + 1 + String.length name) by lia.
    unfold path. rewrite byteAt_join.
    apply (ContainsByte_byteAt _ _ Hname). }
  rewrite (stripSlashes_id _ _ Hlast), Hlen.
  unfold path. rewrite (lastSep_join dir name Hname).
  rewrite sdrop_add, sdrop_length_app.
  change (sdrop 1 ("/" +:+ name)) with name. rewrite Hne. reflexivity.
Qed.

(** X17: the dotfile check looks at the last element of the path only: a
    file whose name starts with a dot is left out in whatever directory it
    is, and a filter without other criteria includes every other name, also
    below a directory whose name starts with a dot. *)
Theorem X17_dotfiles_by_last_element (fs : FileSystem) (dir name : string) :
  isEmpty name = false ->
  strings.ContainsByte name "/"%char = false ->
  filepath.Base (dir +:+ "/" +:+ name) = name
  /\ (forall f : filter.Filter,
        filter.IncludeDotfiles f = false ->
        strings.HasPrefix name "." = true ->
        filter.ShouldInclude fs f (dir +:+ "/" +:+ name) = false)
  /\ (forall includeDotfiles : bool,
        filter.ShouldInclude fs (filter.NewFilter "" "" includeDotfiles)
          (dir +:+ "/" +:+ name)
        = includeDotfiles || negb (strings.HasPrefix name ".")).
Proof.
  intros Hne Hname. pose proof (Base_join dir name Hne Hname) as Hbase.
  split; [exact Hbase|]. split.
  - intros f Hdots Hdot. rewrite ShouldInclude_checks, Hbase, Hdots, Hdot.
    reflexivity.
  - intros dots. rewrite ShouldInclude_checks, Hbase.
    cbn [filter.NewFilter isEmpty negb filter.Extensions filter.ExcludePatterns
         filter.IncludeDotfiles filter.GitIgnoreParser filter.GitTrackedOnly
         filter.GitTrackedFiles filter.excluded length Nat.eqb andb orb].
    rewrite !andb_true_r. destruct dots, (strings.HasPrefix name "."); reflexivity.
Qed.

Lemma X17_dotfiles_by_last_element_witness :
  filter.ShouldInclude treeFS (filter.NewFilter "" "" false) "/repo/sub/.env"
  = false
  /\ filter.ShouldInclude treeFS (filter.NewFilter "" "" false) "/repo/.git/config"
     = true.
Proof.
  pose proof (X17_dotfiles_by_last_element treeFS "/repo/sub" ".env"
                eq_refl eq_refl) as (_ & _ & H1).
  pose proof (X17_dotfiles_by_last_element treeFS "/repo/.git" "config"
                eq_refl eq_refl) as (_ & _ & H2).
  split; [exact (H1 false)|exact (H2 false)].
Defined.

(** ** Further properties of the parser and of the patterns *)

(** X18: reading a source is not all-or-nothing: when the source opens but
    reading it fails after some lines, the error is returned and the rules
    of the lines read up to there stay in the parser. *)
Theorem X18_failed_read_keeps_lines_read (fs : FileSystem) (g : GitIgnoreParser)
    (path : string) (src : Source) (err : error) :
  Open fs path = inr src ->
  scanErr src = Some err ->
  (ParseGitIgnore fs g path).2 = Some err
  /\ rules (ParseGitIgnore fs g path).1
     = rules g ++ concat (map lineRules (lines src))
  /\ patterns (ParseGitIgnore fs g path).1
     = patterns g ++ concat (map linePatterns (lines src)).
Proof.
  intros Hopen Herr.
  destruct (ParseGitIgnore_fields fs g path) as (Hr & Hp & _).
  rewrite Hr, Hp. unfold sourceRules, sourcePatterns, ParseGitIgnore.
  rewrite Hopen. cbn [snd]. auto.
Qed.

Lemma X18_failed_read_keeps_lines_read_witness :
  (ParseGitIgnore brokenFS (NewGitIgnoreParser "/repo") "/repo/.gitignore").2
  = Some (ErrScan "input/output error")
  /\ rules (ParseGitIgnore brokenFS (NewGitIgnoreParser "/repo")
              "/repo/.gitignore").1
     = [plainRule "*.log";
        {| Pattern := "build"; IsNegation := false; IsDirectory := true |}].
Proof.
  pose proof (X18_failed_read_keeps_lines_read brokenFS
                (NewGitIgnoreParser "/repo") "/repo/.gitignore"
                {| lines := ["*.log"; "build/"];
                   scanErr := Some (ErrScan "input/output error") |}
                (ErrScan "input/output error") eq_refl eq_refl) as (H1 & H2 & _).
  split; [exact H1|]. rewrite H2. reflexivity.
Defined.

(** Once a chunk has failed, [matchChunk] only checks the rest of it. *)
Lemma matchChunkLoop_failed (fuel : nat) :
  forall (chunk s t : string) (ok : bool) (err : option error),
    filepath.matchChunkLoop fuel chunk s true = Some (t, ok, err) -> ok = false.
Proof.
  induction fuel as [|fuel IH]; intros chunk s t ok err H.
  - destruct chunk; cbn in H; congruence.
  - destruct chunk as [|c chunk]; [cbn in H; congruence|].
    cbn [filepath.matchChunkLoop negb andb] in H.
    destruct (filepath.isByte c "["%char).
    + destruct (filepath.byteAt chunk 0 "^"%char);
        match type of H with
        | match ?cl with _ => _ end = _ =>
          destruct cl as [[e|[chunk3 m]]|]; try congruence
        end;
        match type of H with
        | filepath.matchChunkLoop _ _ _ ?b = _ =>
          replace b with true in H by (destruct m; reflexivity)
        end; exact (IH _ _ _ _ _ H).
    + destruct (filepath.isByte c "?"%char); [exact (IH _ _ _ _ _ H)|].
      destruct (filepath.isByte c "\"%char).
      * destruct chunk as [|d chunk2]; [congruence|exact (IH _ _ _ _ _ H)].
      * exact (IH _ _ _ _ _ H).
Qed.

Lemma scanChunk_slash (p : string) :
  filepath.scanChunk (String "/" p)
  = let '(chunk, rest) := filepath.scanLoop false p in
    (false, String "/"%char chunk, rest).
Proof.
  unfold filepath.scanChunk.
  change (filepath.skipStars (String "/" p) false) with (false, String "/"%char p).
  cbv beta iota.
  change (filepath.scanLoop false (String "/" p))
    with (let '(chunk, rest) := filepath.scanLoop false p in
          (String "/"%char chunk, rest)).
  destruct (filepath.scanLoop false p); reflexivity.
Qed.

(** A pattern that begins with a slash matches only names that do. *)
Lemma Match_leading_slash (pattern name : string) :
  filepath.byteAt pattern 0 "/"%char = true ->
  filepath.byteAt name 0 "/"%char = false ->
  (filepath.Match pattern name).1 = false.
Proof.
  intros Hp Hn. unfold filepath.Match.
  destruct pattern as [|c p]; [discriminate|].
  unfold filepath.byteAt in Hp. cbn [String.get] in Hp.
  apply Ascii.eqb_eq in Hp. subst c.
  cbn [String.length filepath.matchLoop].
  rewrite scanChunk_slash.
  destruct (filepath.scanLoop false p) as [chunk rest]. cbn [andb].
  assert (Hok : (filepath.matchChunk (String "/" chunk) name).1.2 = false).
  { unfold filepath.matchChunk. cbn [String.length filepath.matchChunkLoop].
    change (filepath.isByte "/" "[") with false.
    change (filepath.isByte "/" "?") with false.
    change (filepath.isByte "/" "\") with false. cbn [negb andb].
    destruct (isEmpty name) eqn:He; cbn [negb].
    - destruct (filepath.matchChunkLoop _ chunk name true) as [[[t ok] err]|] eqn:H;
        [|reflexivity]. apply matchChunkLoop_failed in H. subst. reflexivity.
    - rewrite Hn. cbn [negb].
      destruct (filepath.matchChunkLoop _ chunk (sdrop 1 name) true)
        as [[[t ok] err]|] eqn:H; [|reflexivity].
      apply matchChunkLoop_failed in H. subst. reflexivity. }
  destruct (filepath.matchChunk (String "/" chunk) name) as [[t ok] err].
  cbn [fst snd] in Hok. subst ok. cbn [andb].
  destruct err; reflexivity.
Qed.

Lemma Join_first_byte (e : string) (es : list string) :
  isEmpty e = false ->
  strings.ContainsByte e "/"%char = false ->
  filepath.byteAt (strings.Join (e :: es) "/") 0 "/"%char = false.
Proof.
  intros He Hs. pose proof (ContainsByte_byteAt e _ Hs 0) as H0.
  destruct es as [|e' es]; [exact H0|].
  change (strings.Join (e :: e' :: es) "/")
    with (e +:+ "/" +:+ strings.Join (e' :: es) "/").
  apply byteAt_app_false; assumption.
Qed.

Lemma ruleMatches_leading_slash (pattern relPath : string) :
  filepath.byteAt pattern 0 "/"%char = true ->
  noEmptyElement relPath = true ->
  ruleMatches pattern relPath = false.
Proof.
  intros Hp Hne. destruct (ruleMatches pattern relPath) eqn:Hm; [|reflexivity].
  apply ruleMatches_true in Hm as (j & Hj & Hm). exfalso.
  unfold noEmptyElement in Hne. rewrite forallb_forall in Hne.
  pose proof (SplitByte_no_sep relPath "/"%char) as Hsep.
  rewrite List.Forall_forall in Hsep.
  destruct (drop j (strings.SplitByte relPath "/")) as [|e es] eqn:Hd.
  - apply (f_equal length) in Hd. rewrite length_drop in Hd. cbn in Hd. lia.
  - assert (Hin : In e (strings.SplitByte relPath "/")).
    { rewrite <- (take_drop j (strings.SplitByte relPath "/")), Hd.
      apply in_or_app. right. left. reflexivity. }
    rewrite (Match_leading_slash pattern _ Hp) in Hm; [discriminate|].
    apply Join_first_byte; [|apply Hsep; exact Hin].
    apply negb_true_iff, Hne. exact Hin.
Qed.

(** X19: a rule whose pattern begins with a slash matches no relative path
    whose elements are all non-empty, so it changes no answer for such a
    path: [ShouldIgnore] answers as if the rule were not there. *)
Theorem X19_leading_slash_rule_is_inert (fs : FileSystem) (g : GitIgnoreParser)
    (filePath relPath : string) (earlier later : list GitIgnoreRule)
    (rule : GitIgnoreRule) :
  filepath.byteAt (Pattern rule) 0 "/"%char = true ->
  filepath.Rel (rootDir g) filePath = (relPath, None) ->
  noEmptyElement relPath = true ->
  rules g = earlier ++ rule :: later ->
  ruleMatches (Pattern rule) relPath = false
  /\ ShouldIgnore fs g filePath
     = ShouldIgnore fs (withRules g (earlier ++ later)) filePath.
Proof.
  intros Hp Hrel Hne Hrules.
  pose proof (ruleMatches_leading_slash _ _ Hp Hne) as Hm.
  split; [exact Hm|].
  rewrite (ShouldIgnore_rel fs g filePath relPath Hrel),
          (ShouldIgnore_rel fs (withRules g (earlier ++ later)) filePath relPath Hrel).
  cbn [withRules rules]. rewrite Hrules, !rev_app_distr. cbn [rev].
  rewrite <- app_assoc. cbn [app].
  apply decideRev_delete. exact Hm.
Qed.

Lemma X19_leading_slash_rule_is_inert_witness :
  rules (repoParser ["/notes"; "*.log"]) = [] ++ plainRule "/notes" :: [plainRule "*.log"]
  /\ ShouldIgnore (repoFS ["/notes"; "*.log"]) (repoParser ["/notes"; "*.log"])
       "/repo/notes" = false.
Proof.
  pose proof (X19_leading_slash_rule_is_inert (repoFS ["/notes"; "*.log"])
                (repoParser ["/notes"; "*.log"]) "/repo/notes" "notes"
                [] [plainRule "*.log"] (plainRule "/notes") eq_refl) as H.
  assert (Hrel : filepath.Rel (rootDir (repoParser ["/notes"; "*.log"])) "/repo/notes"
                 = ("notes", None)) by (vm_compute; reflexivity).
  assert (Hrules : rules (repoParser ["/notes"; "*.log"])
                   = [] ++ plainRule "/notes" :: [plainRule "*.log"])
    by (vm_compute; reflexivity).
  destruct (H Hrel eq_refl Hrules) as [_ Heq].
  split; [exact Hrules|]. rewrite Heq. vm_compute. reflexivity.
Defined.

(** X20: an exclusion pattern without special bytes excludes exactly the
    paths it is equal to and the paths whose last element it is equal to;
    it does not exclude what lies below a directory of that name. *)
Theorem X20_literal_exclusion (fs : FileSystem) (f : filter.Filter)
    (p : string) (ps : list string) (path : string) :
  literal p = true ->
  filter.ShouldInclude fs (withPatterns f (p :: ps)) path
  = negb (String.eqb p (filepath.Base path)) && negb (String.eqb p path)
    && filter.ShouldInclude fs (withPatterns f ps) path.
Proof.
  intros Hlit. rewrite !ShouldInclude_checks, !excluded_existsb.
  cbn [withPatterns filter.Extensions filter.ExcludePatterns
       filter.IncludeDotfiles filter.GitIgnoreParser filter.GitTrackedOnly
       filter.GitTrackedFiles existsb].
  rewrite !(Match_literal p _ Hlit). cbn [fst].
  match goal with
  | |- ?a && ?b && ?c && negb (?x || ?y || ?z) && ?e = _ =>
    destruct a, b, c, x, y, z, e; reflexivity
  end.
Qed.

Lemma X20_literal_exclusion_witness :
  filter.ShouldInclude treeFS (filter.NewFilter "" "vendor" true) "src/vendor"
  = false
  /\ filter.ShouldInclude treeFS (filter.NewFilter "" "vendor" true) "vendor/x.go"
     = true.
Proof.
  pose proof (X20_literal_exclusion treeFS (filter.NewFilter "" "" true)
                "vendor" [] "src/vendor" eq_refl) as H1.
  pose proof (X20_literal_exclusion treeFS (filter.NewFilter "" "" true)
                "vendor" [] "vendor/x.go" eq_refl) as H2.
  split; [exact H1|exact H2].
Defined.

(** ** The filter that [run] sets up *)

Lemma ParseAllGitIgnores_ok_rules (fs : FileSystem)
    (Walked : string -> list WalkEntry) (g : GitIgnoreParser) :
  (ParseAllGitIgnores fs Walked g).2 = None ->
  rules (ParseAllGitIgnores fs Walked g).1
  = rules g ++ concat (map (sourceRules fs) (ignoreFiles (Walked (rootDir g)))).
Proof.
  unfold ParseAllGitIgnores. intros Hok.
  destruct (walkLoop_prefix fs (Walked (rootDir g)) g) as (k & _ & Hr & _ & _ & Hk).
  rewrite (Hk Hok), firstn_all in Hr. exact Hr.
Qed.

Lemma runFilter_parser (fs : FileSystem) (Walked : string -> list WalkEntry)
    (flags : cmd.Flags) (targetDir : string) (gitTrackedFiles : list string) :
  filter.GitIgnoreParser
    (cmd.runFilter fs Walked flags targetDir gitTrackedFiles).1
  = if cmd.respectGitignoreFlag flags && negb (cmd.ignoreGitignoreFlag flags)
    then match ParseAllGitIgnores fs Walked (NewGitIgnoreParser targetDir) with
         | (_, Some _) => None
         | (g, None) => Some g
         end
    else None.
Proof.
  unfold cmd.runFilter.
  destruct (cmd.respectGitignoreFlag flags && negb (cmd.ignoreGitignoreFlag flags));
    [destruct (ParseAllGitIgnores fs Walked (NewGitIgnoreParser targetDir))
       as [g [err|]]|];
    destruct (cmd.gitOnlyFlag flags && (0 <? length gitTrackedFiles)%nat);
    reflexivity.
Qed.

(** X21: [run] gives the filter a gitignore parser exactly when
    [respect-gitignore] is set, [ignore-gitignore] (on by default) is
    cleared, and the walk over the ignore files returns no error; a walk
    that fails leaves the filter without any parser, so the rules read
    before the failure are not used either. *)
Theorem X21_parser_set_only_after_full_walk (fs : FileSystem)
    (Walked : string -> list WalkEntry) (flags : cmd.Flags)
    (targetDir : string) (gitTrackedFiles : list string)
    (g : GitIgnoreParser) :
  let r := cmd.runFilter fs Walked flags targetDir gitTrackedFiles in
  (filter.GitIgnoreParser r.1 = Some g <->
   cmd.respectGitignoreFlag flags = true
   /\ cmd.ignoreGitignoreFlag flags = false
   /\ ParseAllGitIgnores fs Walked (NewGitIgnoreParser targetDir) = (g, None))
  /\ (filter.GitIgnoreParser r.1 = Some g ->
      rules g
      = concat (map (sourceRules fs) (ignoreFiles (Walked targetDir))))
  /\ filter.GitIgnoreParser
       (cmd.runFilter fs Walked cmd.defaultFlags targetDir gitTrackedFiles).1
     = None.
Proof.
  cbv zeta.
  assert (Hiff :
    filter.GitIgnoreParser
      (cmd.runFilter fs Walked flags targetDir gitTrackedFiles).1 = Some g <->
    cmd.respectGitignoreFlag flags = true
    /\ cmd.ignoreGitignoreFlag flags = false
    /\ ParseAllGitIgnores fs Walked (NewGitIgnoreParser targetDir) = (g, None)).
  { rewrite runFilter_parser.
    destruct (cmd.respectGitignoreFlag flags), (cmd.ignoreGitignoreFlag flags);
      cbn [andb negb];
      try (split; [discriminate|intros (? & ? & ?); discriminate]).
    destruct (ParseAllGitIgnores fs Walked (NewGitIgnoreParser targetDir))
      as [g' [err|]].
    - split; [discriminate|intros (_ & _ & H); discriminate].
    - split.
      + intros H. injection H as ->. auto.
      + intros (_ & _ & H). injection H as ->. reflexivity. }
  split; [exact Hiff|]. split.
  - intros H. apply Hiff in H as (_ & _ & H).
    pose proof (ParseAllGitIgnores_ok_rules fs Walked (NewGitIgnoreParser targetDir))
      as Hw.
    rewrite H in Hw. exact (Hw eq_refl).
  - rewrite runFilter_parser. reflexivity.
Qed.

Lemma X21_parser_set_only_after_full_walk_witness :
  filter.GitIgnoreParser
    (cmd.runFilter treeFS treeWalk
       {| cmd.extensionsFlag := "go"; cmd.excludeFlag := "";
          cmd.includeDotfiles := false; cmd.respectGitignoreFlag := true;
          cmd.ignoreGitignoreFlag := false; cmd.gitOnlyFlag := false |}
       "/repo" []).1
  = Some (ParseAllGitIgnores treeFS treeWalk (NewGitIgnoreParser "/repo")).1.
Proof.
  pose proof (X21_parser_set_only_after_full_walk treeFS treeWalk
                {| cmd.extensionsFlag := "go"; cmd.excludeFlag := "";
                   cmd.includeDotfiles := false; cmd.respectGitignoreFlag := true;
                   cmd.ignoreGitignoreFlag := false; cmd.gitOnlyFlag := false |}
                "/repo" []
                (ParseAllGitIgnores treeFS treeWalk (NewGitIgnoreParser "/repo")).1)
    as (Hiff & _ & _).
  apply (proj2 Hiff). repeat split; vm_compute; reflexivity.
Defined.

(** X22: the parser and the list of tracked files that [run] adds to the
    filter only remove paths: the filter includes a path exactly when the
    filter of the extension, exclusion and dotfile flags alone includes it,
    the path is found among the tracked files if [git-only] is set and the
    list is not empty, and the parser, if one was set, does not ignore
    it. *)
Theorem X22_run_filter_decision (fs : FileSystem)
    (Walked : string -> list WalkEntry) (flags : cmd.Flags)
    (targetDir : string) (gitTrackedFiles : list string) (path : string) :
  let r := cmd.runFilter fs Walked flags targetDir gitTrackedFiles in
  filter.ShouldInclude fs r.1 path
  = filter.ShouldInclude fs
      (filter.NewFilter (cmd.extensionsFlag flags) (cmd.excludeFlag flags)
                        (cmd.includeDotfiles flags)) path
    && (negb (cmd.gitOnlyFlag flags && (0 <? length gitTrackedFiles)%nat)
        || filter.isTracked path gitTrackedFiles)
    && negb (match filter.GitIgnoreParser r.1 with
             | Some g => ShouldIgnore fs g path
             | None => false
             end).
Proof.
  cbv zeta. rewrite runFilter_parser. unfold cmd.runFilter.
  set (flt := filter.NewFilter _ _ _).
  assert (Hoff : filter.GitTrackedOnly flt = false) by reflexivity.
  assert (Hnone : filter.GitIgnoreParser flt = None) by reflexivity.
  clearbody flt.
  destruct (cmd.respectGitignoreFlag flags && negb (cmd.ignoreGitignoreFlag flags));
    [destruct (ParseAllGitIgnores fs Walked (NewGitIgnoreParser targetDir))
       as [g [err|]]|];
    destruct (cmd.gitOnlyFlag flags) eqn:Hgo;
    destruct gitTrackedFiles as [|t files];
    cbn [fst andb negb orb length Nat.ltb Nat.leb];
    rewrite !ShouldInclude_checks;
    cbn [filter.SetGitTrackedFiles filter.SetGitIgnoreParser filter.Extensions
         filter.ExcludePatterns filter.IncludeDotfiles filter.GitIgnoreParser
         filter.GitTrackedOnly filter.GitTrackedFiles length Nat.ltb Nat.leb
         andb negb];
    rewrite ?Hoff, ?Hnone; cbn [andb negb];
    repeat match goal with
    | |- context [filter.isTracked path ?l] => destruct (filter.isTracked path l)
    | |- context [ShouldIgnore fs ?g path] => destruct (ShouldIgnore fs g path)
    end;
    cbn [andb negb orb]; rewrite ?andb_true_r, ?andb_false_r; cbn [andb];
    reflexivity.
Qed.
